(** * Performance judgment and action lifecycle of the Meta ads agent

    A shallow embedding of the decision core of the repository:
    - [agent/integrated_agent.py]  : [IntegratedAgent._aggregate_insights]
    - [automation/monitor.py]      : [CAMPAIGN_TYPE_CONFIG],
                                     [PerformanceMonitor._make_integrated_judgment],
                                     the reply handling of [_generate_recommendations]
    - [automation/actions.py]      : [ActionQueue], [ActionExecutor]
    - [automation/learning.py]     : [ActionLearner]

    Conventions of the embedding.
    - Python numbers ([int] and [float]) are exact rationals [Q]; the rounding
      error of binary floating point is outside the model, [round] is the exact
      round-half-to-even. The floats that [json.loads] reads from a reply are
      the exception: they are rounded to binary64, infinity included.
    - A Python [dict] read with [.get(key, default)] is a [gmap string _].
    - A raised exception is the [Raise] branch of [Res]; code that mutates
      objects or calls collaborators runs in the state-and-exception monad [M].
    - [datetime] values are integers (seconds), generated identifiers and the
      clock are arguments of the operation that draws them.
    - Text built with f-strings for people (messages, summaries) is kept as the
      name of its template together with its arguments; strings that are data
      (labels, dictionary keys, statuses) are the strings of the source. *)

From Stdlib Require Import QArith Qround ZArith List Ascii String Lia Lqa.
From stdpp Require Import base option list gmap strings.

Local Open Scope Z_scope.
Local Open Scope string_scope.
Local Open Scope list_scope.

(** ** Python values and exceptions *)

Inductive Exn : Type :=
  | ZeroDivisionError
  | KeyError
  | IndexError
  | JSONDecodeError
  | RecursionError
  | ValueError
  | CollaboratorError.

Inductive Res (A : Type) : Type :=
  | Ok (a : A)
  | Raise (e : Exn).
Arguments Ok {A} a.
Arguments Raise {A} e.

#[global] Instance Res_ret : MRet Res := fun _ a => Ok a.
#[global] Instance Res_bind : MBind Res := fun _ _ f r =>
  match r with
  | Ok a => f a
  | Raise e => Raise e
  end.

(** [x < y], [x <= y], [x == y] on numbers, as booleans. *)
Definition Qltb (x y : Q) : bool := negb (Qle_bool y x).
Definition Qleb (x y : Q) : bool := Qle_bool x y.
Definition Qeqb (x y : Q) : bool := Qeq_bool x y.

(** [x / y]: raises [ZeroDivisionError] on a zero divisor. *)
Definition pydiv (x y : Q) : Res Q :=
  if Qeqb y 0 then Raise ZeroDivisionError else Ok (x / y)%Q.

(** [int(x)]: truncation toward zero. *)
Definition py_int (x : Q) : Z := Z.quot (Qnum x) (Z.pos (Qden x)).

(** [round(x)] to an integer, ties to the even neighbour. *)
Definition round_half_even (x : Q) : Z :=
  let f := Qfloor x in
  match Qcompare (x - inject_Z f) (1 # 2) with
  | Lt => f
  | Gt => f + 1
  | Eq => if Z.even f then f else f + 1
  end.

(** [round(x, ndigits)]. *)
Definition py_round (x : Q) (ndigits : nat) : Q :=
  let scale := inject_Z (10 ^ Z.of_nat ndigits) in
  (inject_Z (round_half_even (x * scale)) / scale)%Q.

(** [d.get(k, dflt)] on a dict of numbers. *)
Definition dget (d : gmap string Q) (k : string) (dflt : Q) : Q :=
  default dflt (d !! k).

(** ** Metric aggregator: [IntegratedAgent._aggregate_insights] *)

Module Aggregator.

(** [sum(float(i.get(k, 0)) for i in insights_list)] *)
Definition sum_float (k : string) (insights_list : list (gmap string Q)) : Q :=
  foldl (fun acc i => (acc + dget i k 0)%Q) 0%Q insights_list.

(** [sum(int(i.get(k, 0)) for i in insights_list)] *)
Definition sum_int (k : string) (insights_list : list (gmap string Q)) : Z :=
  foldl (fun acc i => acc + py_int (dget i k 0)) 0 insights_list.

Definition totals (insights_list : list (gmap string Q)) : gmap string Q :=
  <["link_clicks" := inject_Z (sum_int "link_clicks" insights_list)]>
  (<["page_engagements" := inject_Z (sum_int "page_engagements" insights_list)]>
  (<["follows" := inject_Z (sum_int "follows" insights_list)]>
  (<["reach" := inject_Z (sum_int "reach" insights_list)]>
  (<["conversion_value" := sum_float "conversion_value" insights_list]>
  (<["conversions" := inject_Z (sum_int "conversions" insights_list)]>
  (<["clicks" := inject_Z (sum_int "clicks" insights_list)]>
  (<["impressions" := inject_Z (sum_int "impressions" insights_list)]>
  (<["spend" := sum_float "spend" insights_list]> ∅)))))))).

(** [total[k]]: a missing key raises [KeyError]. *)
Definition item (total : gmap string Q) (k : string) : Res Q :=
  match total !! k with
  | Some v => Ok v
  | None => Raise KeyError
  end.

Definition derive_ctr_cpm (total : gmap string Q) : Res (gmap string Q) :=
  impressions ← item total "impressions";
  if Qltb 0 impressions then
    clicks ← item total "clicks";
    r ← pydiv clicks impressions;
    let total := <["ctr" := py_round (r * 100) 2]> total in
    spend ← item total "spend";
    impressions ← item total "impressions";
    r ← pydiv spend impressions;
    Ok (<["cpm" := py_round (r * 1000) 0]> total)
  else
    Ok (<["cpm" := 0%Q]> (<["ctr" := 0%Q]> total)).

Definition derive_cpc_cvr (total : gmap string Q) : Res (gmap string Q) :=
  clicks ← item total "clicks";
  if Qltb 0 clicks then
    spend ← item total "spend";
    r ← pydiv spend clicks;
    let total := <["cpc" := py_round r 0]> total in
    conversions ← item total "conversions";
    clicks ← item total "clicks";
    r ← pydiv conversions clicks;
    Ok (<["cvr" := py_round (r * 100) 2]> total)
  else
    Ok (<["cvr" := 0%Q]> (<["cpc" := 0%Q]> total)).

Definition derive_cpa (total : gmap string Q) : Res (gmap string Q) :=
  conversions ← item total "conversions";
  if Qltb 0 conversions then
    spend ← item total "spend";
    r ← pydiv spend conversions;
    Ok (<["cpa" := py_round r 0]> total)
  else
    Ok (<["cpa" := 0%Q]> total).

Definition derive_roas (total : gmap string Q) : Res (gmap string Q) :=
  spend ← item total "spend";
  conversion_value ← item total "conversion_value";
  if Qltb 0 spend && Qltb 0 conversion_value then
    r ← pydiv conversion_value spend;
    Ok (<["roas" := py_round r 2]> total)
  else
    Ok (<["roas" := 0%Q]> total).

Definition derive_cpf (total : gmap string Q) : Res (gmap string Q) :=
  follows ← item total "follows";
  if Qltb 0 follows then
    spend ← item total "spend";
    r ← pydiv spend follows;
    Ok (<["cpf" := py_round r 2]> total)
  else
    Ok (<["cpf" := 0%Q]> total).

Definition _aggregate_insights (insights_list : list (gmap string Q))
  : Res (gmap string Q) :=
  match insights_list with
  | [] => Ok ∅
  | _ =>
    total ← derive_ctr_cpm (totals insights_list);
    total ← derive_cpc_cvr total;
    total ← derive_cpa total;
    total ← derive_roas total;
    derive_cpf total
  end.

(** What one derivation step guarantees: it returns, it only writes the
    keys [k1] and [k2], it writes both, and it writes [0] when the guard [g]
    of its division is not positive. *)
Definition step_ok (step : gmap string Q → Res (gmap string Q))
    (total : gmap string Q) (k1 k2 : string) (g : bool) : Prop :=
  ∃ total', step total = Ok total'
    ∧ (∀ k, k ≠ k1 → k ≠ k2 → total' !! k = total !! k)
    ∧ is_Some (total' !! k1) ∧ is_Some (total' !! k2)
    ∧ (g = false → total' !! k1 = Some 0%Q ∧ total' !! k2 = Some 0%Q).

End Aggregator.

(** ** Objective classifier and judgment engine: [automation/monitor.py] *)

Module Monitor.

(** One entry of [CAMPAIGN_TYPE_CONFIG]. The flags are optional keys of the
    source dict, read with [.get(flag, False)]. *)
Record TypeConfig : Type := {
  display_name : string;
  primary_kpi : string;
  secondary_kpis : list string;
  is_traffic_campaign : option bool;
  ignore_conversions : option bool;
  is_asc_campaign : option bool;
  thresholds : gmap string Q;
}.

Definition cpf_thresholds : gmap string Q :=
  <["cpf_critical" := 200%Q]> (<["cpf_warning" := 100%Q]>
  (<["cpf_good" := 50%Q]> ∅)).

Definition roas_thresholds : gmap string Q :=
  <["roas_critical" := 1%Q]> (<["roas_warning" := 2%Q]>
  (<["roas_good" := 3%Q]> ∅)).

Definition traffic_config (name : string) (secondary : list string) : TypeConfig :=
  {| display_name := name; primary_kpi := "cpf"; secondary_kpis := secondary;
     is_traffic_campaign := Some true; ignore_conversions := Some true;
     is_asc_campaign := None; thresholds := cpf_thresholds |}.

Definition plain_config (name kpi : string) (secondary : list string)
    (th : gmap string Q) : TypeConfig :=
  {| display_name := name; primary_kpi := kpi; secondary_kpis := secondary;
     is_traffic_campaign := None; ignore_conversions := None;
     is_asc_campaign := None; thresholds := th |}.

Definition CAMPAIGN_TYPE_CONFIG : gmap string TypeConfig :=
  list_to_map [
    ("LINK_CLICKS", traffic_config "トラフィック/フォロー獲得" ["follows"; "cpc"]);
    ("POST_ENGAGEMENT",
       traffic_config "エンゲージメント/フォロワー獲得" ["follows"; "engagement_rate"]);
    ("OUTCOME_TRAFFIC", traffic_config "トラフィック/フォロー獲得" ["follows"; "cpc"]);
    ("OUTCOME_ENGAGEMENT",
       traffic_config "エンゲージメント/フォロー獲得" ["follows"; "engagement_rate"]);
    ("CONVERSIONS",
       plain_config "コンバージョン" "cpa" ["roas"; "cvr"; "ctr"]
         (<["cvr_warning" := (1 # 2)%Q]> (<["cpa_critical_ratio" := (13 # 10)%Q]>
          (<["cpa_warning_ratio" := 1%Q]> (<["cpa_good_ratio" := (7 # 10)%Q]> ∅)))));
    ("PRODUCT_CATALOG_SALES",
       plain_config "カタログ販売" "roas" ["cpa"; "cvr"] roas_thresholds);
    ("ASC",
       {| display_name := "Advantage+ ショッピング（ASC）"; primary_kpi := "roas";
          secondary_kpis := ["cpa"; "purchase_value"; "cvr"];
          is_traffic_campaign := None; ignore_conversions := None;
          is_asc_campaign := Some true;
          thresholds :=
            <["learning_phase_min_conversions" := 50%Q]>
            (<["cpa_warning_ratio" := (12 # 10)%Q]> roas_thresholds) |});
    ("OUTCOME_SALES",
       plain_config "売上" "roas" ["cpa"; "cvr"; "purchase_value"]
         roas_thresholds);
    ("REACH",
       plain_config "リーチ" "cpm" ["reach"; "frequency"]
         (<["frequency_warning" := 3%Q]> (<["cpm_warning" := 500%Q]>
          (<["cpm_good" := 300%Q]> ∅))));
    ("BRAND_AWARENESS",
       plain_config "ブランド認知" "cpm" ["reach"; "frequency"]
         (<["frequency_warning" := (5 # 2)%Q]> (<["cpm_warning" := 600%Q]>
          (<["cpm_good" := 400%Q]> ∅))));
    ("DEFAULT", plain_config "不明" "spend" ["ctr"; "cpc"] ∅)
  ].

(** [CAMPAIGN_TYPE_CONFIG[k]] *)
Definition config_item (k : string) : Res TypeConfig :=
  match CAMPAIGN_TYPE_CONFIG !! k with
  | Some c => Ok c
  | None => Raise KeyError
  end.

(** The lookup of [_analyze_campaign]: the Advantage+ flag wins over the
    objective; an unknown objective takes the ["DEFAULT"] entry. Returns the
    objective shown and its configuration. *)
Definition select_type_config (objective : string) (is_asc : bool)
    (smart_promotion_type : option string) : Res (string * TypeConfig) :=
  if is_asc || bool_decide (smart_promotion_type = Some "ADVANTAGE_PLUS_SHOPPING")
  then
    fallback ← config_item "PRODUCT_CATALOG_SALES";
    Ok ("ASC", default fallback (CAMPAIGN_TYPE_CONFIG !! "ASC"))
  else
    fallback ← config_item "DEFAULT";
    Ok (objective, default fallback (CAMPAIGN_TYPE_CONFIG !! objective)).

(** Templates of the issue messages, with the values they print. *)
Inductive IssueMessage : Type :=
  | CPF_soaring (cpf target : Q)            (* "CPF高騰" *)
  | CPF_caution (cpf target : Q)            (* "CPF注意" *)
  | Zero_follows_spending (spend : Q)       (* follows 0 while spending *)
  | ROAS_deficit (roas target : Q)          (* "ROAS赤字" *)
  | ROAS_drop (roas target : Q)             (* "ROAS低下" *)
  | CPA_exceeded (cpa target ratio : Q)     (* "CPA超過" *)
  | CPA_caution (cpa target : Q)            (* "CPA注意" *)
  | CTR_plunge (yesterday today change : Q) (* "CTR急落" *)
  | CVR_plunge (yesterday today change : Q) (* "CVR急落" *).

Record Issue : Type := {
  issue_severity : string;
  issue_message : IssueMessage;
}.

(** Templates of the positive remarks. *)
Inductive Positive : Type :=
  | Follows_today (follows : Q)
  | CPF_good (cpf target : Q)
  | ROAS_achieved (roas target : Q)
  | CPA_good (cpa target : Q).

(** One comparison entry: the metric, today's value, the key and value of the
    reference period, the change in percent, and the optional labels. *)
Record Comparison : Type := {
  metric : string;
  today_value : Q;
  reference_key : string;
  reference_value : Q;
  change_percent : Q;
  comparison : option string;
  direction : option string;
  note : option string;
}.

Inductive Summary : Type :=
  | Skipped_low_spend (spend : Q) (minimum : Q)
  | Needs_action (critical_count : nat)
  | Doing_well (positive_count : nat)
  | Caution (warning_count : nat)
  | Running_normally.

Record Judgment (B : Type) : Type := {
  status : string;
  severity : string;
  summary : Summary;
  issues : list Issue;
  positives : list Positive;
  comparisons : list Comparison;
  budget_status : option B;
}.
Arguments status {B} _.
Arguments severity {B} _.
Arguments summary {B} _.
Arguments issues {B} _.
Arguments positives {B} _.
Arguments comparisons {B} _.
Arguments budget_status {B} _.

(** The three lists the judgment appends to while it runs. *)
Record Findings : Type := {
  f_issues : list Issue;
  f_positives : list Positive;
  f_comparisons : list Comparison;
}.

Definition add_issue (sev : string) (m : IssueMessage) (f : Findings) : Findings :=
  {| f_issues := f_issues f ++ [{| issue_severity := sev; issue_message := m |}];
     f_positives := f_positives f; f_comparisons := f_comparisons f |}.

Definition add_positive (p : Positive) (f : Findings) : Findings :=
  {| f_issues := f_issues f; f_positives := f_positives f ++ [p];
     f_comparisons := f_comparisons f |}.

Definition add_comparison (c : Comparison) (f : Findings) : Findings :=
  {| f_issues := f_issues f; f_positives := f_positives f;
     f_comparisons := f_comparisons f ++ [c] |}.

(** [((a - b) / b) * 100] *)
Definition change_vs (a b : Q) : Res Q :=
  r ← pydiv (a - b) b; Ok (r * 100)%Q.

Definition MIN_DAILY_SPEND : Q := 1000%Q.

Section Judgment.
Context (thresholds : gmap string Q) (targets : gmap string Q).
Context (today yesterday avg_7d : gmap string Q).

(** The branch [primary_kpi == "cpf"]. *)
Definition judge_cpf (f : Findings) : Res Findings :=
  let cpf_today := dget today "cpf" 0 in
  let cpf_7d := dget avg_7d "cpf" 0 in
  let follows_today := dget today "follows" 0 in
  let target_cpf := dget targets "target_cpf" (dget thresholds "cpf_good" 50) in
  let f := if Qltb 0 follows_today
           then add_positive (Follows_today follows_today) f else f in
  if negb (Qeqb cpf_today 0) && Qltb 0 cpf_today then
    let f :=
      if Qleb cpf_today target_cpf then
        add_positive (CPF_good cpf_today target_cpf) f
      else if Qltb (dget thresholds "cpf_critical" 200) cpf_today then
        add_issue "critical" (CPF_soaring cpf_today target_cpf) f
      else if Qltb (dget thresholds "cpf_warning" 100) cpf_today then
        add_issue "warning" (CPF_caution cpf_today target_cpf) f
      else f in
    if negb (Qeqb cpf_7d 0) && Qltb 0 cpf_7d then
      cpf_change ← change_vs cpf_today cpf_7d;
      Ok (add_comparison
            {| metric := "CPF"; today_value := cpf_today;
               reference_key := "avg_7d"; reference_value := cpf_7d;
               change_percent := cpf_change; comparison := Some "vs7日平均";
               direction := None; note := None |} f)
    else Ok f
  else if Qeqb follows_today 0 && Qltb 0 (dget today "spend" 0) then
    Ok (add_issue "warning" (Zero_follows_spending (dget today "spend" 0)) f)
  else Ok f.

(** The branch [primary_kpi == "roas"]. *)
Definition judge_roas (f : Findings) : Res Findings :=
  let roas_today := dget today "roas" 0 in
  let roas_7d := dget avg_7d "roas" 0 in
  let target_roas := dget targets "target_roas" (dget thresholds "roas_good" 3) in
  let f :=
    if Qltb 0 roas_today then
      if Qleb target_roas roas_today then
        add_positive (ROAS_achieved roas_today target_roas) f
      else if Qltb roas_today (dget thresholds "roas_critical" 1) then
        add_issue "critical" (ROAS_deficit roas_today target_roas) f
      else if Qltb roas_today (dget thresholds "roas_warning" 2) then
        add_issue "warning" (ROAS_drop roas_today target_roas) f
      else f
    else f in
  if Qltb 0 roas_7d && Qltb 0 roas_today then
    roas_change ← change_vs roas_today roas_7d;
    Ok (add_comparison
          {| metric := "ROAS"; today_value := roas_today;
             reference_key := "avg_7d"; reference_value := roas_7d;
             change_percent := roas_change; comparison := None;
             direction := Some (if Qltb 0 roas_change then "up" else "down");
             note := None |} f)
  else Ok f.

(** The branch [primary_kpi == "cpa"]. [targets.get("target_cpa")] has no
    default: an absent target skips the ratio test. *)
Definition judge_cpa (f : Findings) : Res Findings :=
  let cpa_today := dget today "cpa" 0 in
  let cpa_yesterday := dget yesterday "cpa" 0 in
  let cpa_7d := dget avg_7d "cpa" 0 in
  f ← match targets !! "target_cpa" with
      | Some target_cpa =>
        if negb (Qeqb target_cpa 0) && Qltb 0 cpa_today then
          cpa_ratio ← pydiv cpa_today target_cpa;
          if Qleb cpa_ratio (dget thresholds "cpa_good_ratio" (7 # 10)) then
            Ok (add_positive (CPA_good cpa_today target_cpa) f)
          else if Qleb (dget thresholds "cpa_critical_ratio" (13 # 10)) cpa_ratio then
            Ok (add_issue "critical" (CPA_exceeded cpa_today target_cpa cpa_ratio) f)
          else if Qleb (dget thresholds "cpa_warning_ratio" 1) cpa_ratio then
            Ok (add_issue "warning" (CPA_caution cpa_today target_cpa) f)
          else Ok f
        else Ok f
      | None => Ok f
      end;
  f ← (if Qltb 0 cpa_yesterday && Qltb 0 cpa_today then
         change ← change_vs cpa_today cpa_yesterday;
         Ok (add_comparison
               {| metric := "CPA"; today_value := cpa_today;
                  reference_key := "yesterday"; reference_value := cpa_yesterday;
                  change_percent := change; comparison := Some "vs昨日";
                  direction := None; note := None |} f)
       else Ok f);
  if Qltb 0 cpa_7d && Qltb 0 cpa_today then
    change ← change_vs cpa_today cpa_7d;
    Ok (add_comparison
          {| metric := "CPA"; today_value := cpa_today;
             reference_key := "avg_7d"; reference_value := cpa_7d;
             change_percent := change; comparison := Some "vs7日平均";
             direction := None; note := None |} f)
  else Ok f.

(** CTR against yesterday: an issue only for a drop of more than 50% on a
    campaign that is not a traffic campaign; the comparison is always kept. *)
Definition check_ctr (is_traffic : bool) (f : Findings) : Res Findings :=
  let ctr_today := dget today "ctr" 0 in
  let ctr_yesterday := dget yesterday "ctr" 0 in
  if Qltb 0 ctr_yesterday && Qltb 0 ctr_today then
    ctr_change ← change_vs ctr_today ctr_yesterday;
    let f := if negb is_traffic && Qltb ctr_change (-50)
             then add_issue "warning"
                    (CTR_plunge ctr_yesterday ctr_today ctr_change) f
             else f in
    Ok (add_comparison
          {| metric := "CTR"; today_value := ctr_today;
             reference_key := "yesterday"; reference_value := ctr_yesterday;
             change_percent := ctr_change; comparison := Some "vs昨日";
             direction := None;
             note := Some (if is_traffic then "（トラフィックでは参考値）"
                           else "") |} f)
  else Ok f.

(** CVR against yesterday, skipped when conversions are ignored. *)
Definition check_cvr (ignore_cv : bool) (f : Findings) : Res Findings :=
  if negb ignore_cv then
    let cvr_today := dget today "cvr" 0 in
    let cvr_yesterday := dget yesterday "cvr" 0 in
    if Qltb 0 cvr_yesterday && Qltb 0 cvr_today then
      cvr_change ← change_vs cvr_today cvr_yesterday;
      let f := if Qltb cvr_change (-50)
               then add_issue "warning"
                      (CVR_plunge cvr_yesterday cvr_today cvr_change) f
               else f in
      Ok (add_comparison
            {| metric := "CVR"; today_value := cvr_today;
               reference_key := "yesterday"; reference_value := cvr_yesterday;
               change_percent := cvr_change; comparison := Some "vs昨日";
               direction := None; note := None |} f)
    else Ok f
  else Ok f.

(** Spend against yesterday and against the 7-day average: comparisons only. *)
Definition check_spend (spend_today : Q) (f : Findings) : Res Findings :=
  let spend_yesterday := dget yesterday "spend" 0 in
  let spend_7d := dget avg_7d "spend" 0 in
  f ← (if Qltb 0 spend_yesterday && Qltb 0 spend_today then
         spend_change ← change_vs spend_today spend_yesterday;
         Ok (add_comparison
               {| metric := "消化"; today_value := spend_today;
                  reference_key := "yesterday";
                  reference_value := spend_yesterday;
                  change_percent := spend_change;
                  comparison := Some "vs昨日";
                  direction := None; note := None |} f)
       else Ok f);
  if Qltb 0 spend_7d && Qltb 0 spend_today then
    spend_change_7d ← change_vs spend_today spend_7d;
    Ok (add_comparison
          {| metric := "消化"; today_value := spend_today;
             reference_key := "avg_7d"; reference_value := spend_7d;
             change_percent := spend_change_7d;
             comparison := Some "vs7日平均";
             direction := None; note := None |} f)
  else Ok f.

End Judgment.

(** [len([i for i in issues if i.get("severity") == sev])] *)
Definition count_severity (sev : string) (issues : list Issue) : nat :=
  length (filter (λ i, issue_severity i = sev) issues).

(** The status rule at the end of [_make_integrated_judgment]: status,
    severity and summary from the three counts. *)
Definition decide_status (critical_count warning_count positive_count : nat)
    : string * string * Summary :=
  if (0 <? critical_count)%nat then
    ("critical", "high", Needs_action critical_count)
  else if (0 <? positive_count)%nat && (warning_count <? positive_count)%nat then
    ("opportunity", "none", Doing_well positive_count)
  else if (0 <? warning_count)%nat && (positive_count <? warning_count)%nat then
    ("warning", "medium", Caution warning_count)
  else
    ("normal", "none", Running_normally).

(** The final verdict over the collected findings. *)
Definition verdict {B} (budget_status : B) (f : Findings) : Judgment B :=
  let critical_count := count_severity "critical" (f_issues f) in
  let warning_count := count_severity "warning" (f_issues f) in
  let positive_count := length (f_positives f) in
  let '(st, sev, sm) :=
    decide_status critical_count warning_count positive_count in
  {| status := st; severity := sev; summary := sm;
     issues := f_issues f; positives := f_positives f;
     comparisons := f_comparisons f; budget_status := Some budget_status |}.

(** [periods.get("today", {}).get("spend", 0)] *)
Definition today_spend (periods : gmap string (gmap string Q)) : Q :=
  dget (default ∅ (periods !! "today")) "spend" 0.

Definition _make_integrated_judgment {B} (campaign_name objective : string)
    (type_config : TypeConfig) (periods : gmap string (gmap string Q))
    (budget_status : B) (targets : gmap string Q) : Res (Judgment B) :=
  let today := default ∅ (periods !! "today") in
  let yesterday := default ∅ (periods !! "yesterday") in
  let avg_7d := default ∅ (periods !! "last_7d") in
  let spend_today := today_spend periods in
  if Qltb spend_today MIN_DAILY_SPEND then
    Ok {| status := "insufficient_data"; severity := "none";
          summary := Skipped_low_spend spend_today MIN_DAILY_SPEND;
          issues := []; positives := []; comparisons := [];
          budget_status := None |}
  else
    let f := {| f_issues := []; f_positives := []; f_comparisons := [] |} in
    let th := thresholds type_config in
    let is_traffic := default false (is_traffic_campaign type_config) in
    let ignore_cv := default false (ignore_conversions type_config) in
    f ← (if String.eqb (primary_kpi type_config) "cpf" then
           judge_cpf th targets today avg_7d f
         else if String.eqb (primary_kpi type_config) "roas" then
           judge_roas th targets today avg_7d f
         else if String.eqb (primary_kpi type_config) "cpa" then
           judge_cpa th targets today yesterday avg_7d f
         else Ok f);
    f ← check_ctr today yesterday is_traffic f;
    f ← check_cvr today yesterday ignore_cv f;
    f ← check_spend yesterday avg_7d spend_today f;
    Ok (verdict budget_status f).

(** The classification and judgment of [_analyze_campaign], given the
    periods, the budget status and the targets it fetched. *)
Definition judge_campaign {B} (campaign_name objective : string) (is_asc : bool)
    (smart_promotion_type : option string)
    (periods : gmap string (gmap string Q)) (budget_status : B)
    (targets : gmap string Q) : Res (Judgment B) :=
  '(objective, type_config) ←
    select_type_config objective is_asc smart_promotion_type;
  _make_integrated_judgment campaign_name objective type_config periods
    budget_status targets.

(** The traffic scenario: today = {spend: 5000, follows: 80, cpf: 62.5}. *)
Definition traffic_today : gmap string Q :=
  <["cpf" := (125 # 2)%Q]> (<["follows" := 80%Q]> (<["spend" := 5000%Q]> ∅)).

(** The CPF comparison entry against a 7-day average [cpf_7d]. *)
Definition cpf_comparison (cpf_today cpf_7d : Q) : Comparison :=
  {| metric := "CPF"; today_value := cpf_today;
     reference_key := "avg_7d"; reference_value := cpf_7d;
     change_percent := ((cpf_today - cpf_7d) / cpf_7d * 100)%Q;
     comparison := Some "vs7日平均"; direction := None; note := None |}.

(** The traffic scenario with a 7-day average cpf of 50 and target cpf 50. *)
Definition scenario_periods : gmap string (gmap string Q) :=
  <["last_7d" := <["cpf" := 50%Q]> ∅]> (<["today" := traffic_today]> ∅).

Definition scenario_targets : gmap string Q := <["target_cpf" := 50%Q]> ∅.

(** A day with spend 999 and otherwise alarming metrics. *)
Definition low_spend_periods : gmap string (gmap string Q) :=
  <["today" := <["roas" := (1 # 10)%Q]> (<["cpf" := 900%Q]>
                (<["spend" := 999%Q]> ∅))]> ∅.

(** The verdict as a function of the three counts. *)
Definition verdict_rule (critical_count warning_count positive_count : nat)
    (status severity : string) : Prop :=
  ((0 < critical_count)%nat → status = "critical" ∧ severity = "high")
  ∧ (critical_count = 0%nat → (warning_count < positive_count)%nat →
     status = "opportunity" ∧ severity = "none")
  ∧ (critical_count = 0%nat → (positive_count < warning_count)%nat →
     status = "warning" ∧ severity = "medium")
  ∧ (critical_count = 0%nat → positive_count = warning_count →
     status = "normal" ∧ severity = "none").

End Monitor.

(** ** Actions and collaborators shared by the executor and the learner *)

(** The keys of [action["params"]] that the executor reads. A missing
    [params] dict is the record with no key set. *)
Record Params : Type := {
  increase_percent : option Q;
  new_budget : option Q;
  new_status : option string;
}.

(** A proposed action: [action.get("type")], [action.get("account_id")],
    [action.get("campaign_id")] and [action.get("params", {})]. *)
Record Action : Type := {
  action_type : option string;
  account_id : option string;
  campaign_id : option string;
  params : Params;
}.

(** [action.get("type") == s] *)
Definition type_is (a : Action) (s : string) : bool :=
  bool_decide (action_type a = Some s).

(** Truth value of an optional string ([None] and [""] are false). *)
Definition truthy_str (s : option string) : bool :=
  match s with
  | Some s => negb (String.eqb s "")
  | None => false
  end.

(** Truth value of an optional number ([None] and [0] are false). *)
Definition truthy_num (x : option Q) : bool :=
  match x with
  | Some x => negb (Qeqb x 0)
  | None => false
  end.

(** Calls made on the ad-platform collaborator, as a spy records them. *)
Inductive Call : Type :=
  | Get_managers (account : option string)
  | Get_campaign_insights (campaign : option string)
  | Update_campaign_budget (campaign : option string) (daily_budget : Z)
  | Update_campaign_status (campaign : option string) (status : string).

(** The ad-platform collaborator behind [self.agent]. Every answer may depend
    on the calls made so far and may be an exception.
    - [meta_connected]: [self.agent and self.agent.meta_initialized];
    - [get_managers]: whether [_get_managers(account_id)] is truthy;
    - [get_campaign_insights]: the metrics of the last 7 days, or [None];
    - [update_campaign_budget], [update_campaign_status]: the success flag. *)
Record Platform : Type := {
  meta_connected : bool;
  get_managers : list Call → option string → Res bool;
  get_campaign_insights :
    list Call → option string → Res (option (gmap string Q));
  update_campaign_budget : list Call → option string → Z → Res bool;
  update_campaign_status : list Call → option string → string → Res bool;
}.

(** ** Outcome learner: [automation/learning.py] *)

Module Learning.

Record LearningRecord : Type := {
  rec_id : string;
  rec_action : Action;
  rec_campaign_id : option string;
  rec_account_id : option string;
  rec_executed_at : Z;
  analyze_after : Z;
  rec_baseline : gmap string Q;
  rec_status : string;
}.

(** Templates of [effect_detail]. *)
Inductive EffectDetail : Type :=
  | CPA_improved (before after change : Q)
  | CPA_worsened (before after change : Q)
  | ROAS_improved (before after change : Q)
  | ROAS_worsened (before after change : Q)
  | CPF_improved (before after change : Q)
  | CPF_worsened (before after change : Q)
  | Budget_cut_CPA_held (before after : Q)
  | Spend_stopped (daily_spend : Q)
  | No_clear_effect.

Record Effect : Type := {
  verdict : string;
  detail : EffectDetail;
  confidence : Q;
}.

Record Learning : Type := {
  l_id : string;
  l_action : Action;
  l_campaign_id : option string;
  l_account_id : option string;
  l_executed_at : Z;
  l_analyzed_at : Z;
  l_baseline : gmap string Q;
  l_after : gmap string Q;
  l_effect : string;
  l_effect_detail : EffectDetail;
  l_confidence : Q;
}.

(** The two lists an [ActionLearner] holds. *)
Record ActionLearner : Type := {
  learnings : list Learning;
  pending : list LearningRecord;
}.

(** The fixed delay of 24 hours, in seconds. *)
Definition ANALYSIS_DELAY : Z := 24 * 3600.

Definition record_action_with_baseline (record_id : string) (now : Z)
    (action : Action) (campaign_id account_id : option string)
    (baseline_metrics : gmap string Q) (L : ActionLearner)
    : string * ActionLearner :=
  let record :=
    {| rec_id := record_id; rec_action := action;
       rec_campaign_id := campaign_id; rec_account_id := account_id;
       rec_executed_at := now; analyze_after := now + ANALYSIS_DELAY;
       rec_baseline := baseline_metrics; rec_status := "pending_analysis" |} in
  (record_id, {| learnings := learnings L; pending := pending L ++ [record] |}).

(** [calc_change] of [_determine_effect]. *)
Definition calc_change (before after : Q) : Res Q :=
  if negb (Qeqb before 0) && Qltb 0 before then
    r ← pydiv (after - before) before; Ok (r * 100)%Q
  else Ok 0%Q.

Definition mk_effect (v : string) (d : EffectDetail) (c : Q) : Effect :=
  {| verdict := v; detail := d; confidence := c |}.

Definition _determine_effect (action_type : string)
    (baseline current : gmap string Q) : Res Effect :=
  let baseline_cpa := dget baseline "cpa" 0 in
  let baseline_roas := dget baseline "roas" 0 in
  let baseline_spend := dget baseline "spend" 0 in
  let baseline_cpf := dget baseline "cpf" 0 in
  let current_cpa := dget current "cpa" 0 in
  let current_roas := dget current "roas" 0 in
  let current_spend := dget current "spend" 0 in
  let current_cpf := dget current "cpf" 0 in
  cpa_change ← calc_change baseline_cpa current_cpa;
  roas_change ← calc_change baseline_roas current_roas;
  spend_change ← calc_change baseline_spend current_spend;
  cpf_change ← calc_change baseline_cpf current_cpf;
  let neutral := mk_effect "neutral" No_clear_effect (1 # 2) in
  if String.eqb action_type "budget_increase"
     || String.eqb action_type "budget_change" then
    if Qltb 0 current_cpa && Qltb 0 baseline_cpa && Qltb cpa_change (-10) then
      Ok (mk_effect "improved"
            (CPA_improved baseline_cpa current_cpa cpa_change) (8 # 10))
    else if Qltb 0 current_cpa && Qltb 0 baseline_cpa && Qltb 20 cpa_change then
      Ok (mk_effect "worsened"
            (CPA_worsened baseline_cpa current_cpa cpa_change) (8 # 10))
    else if Qltb 0 current_roas && Qltb 0 baseline_roas
            && Qltb 10 roas_change then
      Ok (mk_effect "improved"
            (ROAS_improved baseline_roas current_roas roas_change) (8 # 10))
    else if Qltb 0 current_roas && Qltb 0 baseline_roas
            && Qltb roas_change (-20) then
      Ok (mk_effect "worsened"
            (ROAS_worsened baseline_roas current_roas roas_change) (8 # 10))
    else if Qltb 0 current_cpf && Qltb 0 baseline_cpf
            && Qltb cpf_change (-10) then
      Ok (mk_effect "improved"
            (CPF_improved baseline_cpf current_cpf cpf_change) (8 # 10))
    else if Qltb 0 current_cpf && Qltb 0 baseline_cpf
            && Qltb 20 cpf_change then
      Ok (mk_effect "worsened"
            (CPF_worsened baseline_cpf current_cpf cpf_change) (8 # 10))
    else Ok neutral
  else if String.eqb action_type "budget_decrease" then
    if Qltb 0 current_cpa && Qltb 0 baseline_cpa && Qltb cpa_change 10 then
      Ok (mk_effect "improved"
            (Budget_cut_CPA_held baseline_cpa current_cpa) (7 # 10))
    else Ok neutral
  else if String.eqb action_type "pause" then
    Ok (mk_effect "improved" (Spend_stopped baseline_spend) (9 # 10))
  else Ok neutral.

(** The metrics kept as [after]. *)
Definition after_metrics (current : gmap string Q) : gmap string Q :=
  <["cpf" := dget current "cpf" 0]> (<["ctr" := dget current "ctr" 0]>
  (<["roas" := dget current "roas" 0]> (<["cpa" := dget current "cpa" 0]>
  (<["spend" := dget current "spend" 0]> ∅)))).

(** The body of the [try] of [_analyze_action_effect]: the calls it makes are
    appended to the log; an exception of a collaborator leaves the [try]. *)
Definition analyze_body (P : Platform) (now : Z) (record : LearningRecord)
    (calls : list Call) : Res (option Learning) * list Call :=
  let action := rec_action record in
  let atype := default "" (action_type action) in
  let calls1 := (calls ++ [Get_managers (rec_account_id record)])%list in
  match get_managers P calls (rec_account_id record) with
  | Raise e => (Raise e, calls1)
  | Ok false => (Ok None, calls1)
  | Ok true =>
    let calls2 :=
      (calls1 ++ [Get_campaign_insights (rec_campaign_id record)])%list in
    match get_campaign_insights P calls1 (rec_campaign_id record) with
    | Raise e => (Raise e, calls2)
    | Ok None => (Ok None, calls2)
    | Ok (Some current) =>
      if (size current =? 0)%nat then (Ok None, calls2)
      else
        (effect ← _determine_effect atype (rec_baseline record) current;
         Ok (Some {| l_id := rec_id record; l_action := action;
                     l_campaign_id := rec_campaign_id record;
                     l_account_id := rec_account_id record;
                     l_executed_at := rec_executed_at record;
                     l_analyzed_at := now;
                     l_baseline := rec_baseline record;
                     l_after := after_metrics current;
                     l_effect := verdict effect;
                     l_effect_detail := detail effect;
                     l_confidence := confidence effect |}),
         calls2)
    end
  end.

(** [_analyze_action_effect]: every exception becomes [None]. *)
Definition _analyze_action_effect (P : Platform) (now : Z)
    (record : LearningRecord) (calls : list Call)
    : option Learning * list Call :=
  match analyze_body P now record calls with
  | (Ok r, calls) => (r, calls)
  | (Raise _, calls) => (None, calls)
  end.

(** What the loop of [analyze_pending_actions] carries along. *)
Record LoopState : Type := {
  ls_learnings : list Learning;
  ls_analyzed : list Learning;
  ls_still_pending : list LearningRecord;
  ls_calls : list Call;
}.

(** One iteration of [for record in self.pending]. *)
Definition analyze_step (P : Platform) (now : Z) (s : LoopState)
    (record : LearningRecord) : LoopState :=
  if (now >=? analyze_after record)%Z then
    match _analyze_action_effect P now record (ls_calls s) with
    | (Some result, calls) =>
      {| ls_learnings := ls_learnings s ++ [result];
         ls_analyzed := ls_analyzed s ++ [result];
         ls_still_pending := ls_still_pending s;
         ls_calls := calls |}
    | (None, calls) =>
      {| ls_learnings := ls_learnings s; ls_analyzed := ls_analyzed s;
         ls_still_pending := ls_still_pending s; ls_calls := calls |}
    end
  else
    {| ls_learnings := ls_learnings s; ls_analyzed := ls_analyzed s;
       ls_still_pending := ls_still_pending s ++ [record];
       ls_calls := ls_calls s |}.

(** [analyze_pending_actions]: returns the analysed results, the learner
    afterwards and the call log afterwards. [now] is the clock reading at
    entry; the later readings only stamp [analyzed_at] and are taken equal
    to it. *)
Definition analyze_pending_actions (P : Platform) (now : Z)
    (calls : list Call) (L : ActionLearner)
    : list Learning * ActionLearner * list Call :=
  if negb (meta_connected P) then ([], L, calls)
  else
    let s := foldl (analyze_step P now)
               {| ls_learnings := learnings L; ls_analyzed := [];
                  ls_still_pending := []; ls_calls := calls |}
               (pending L) in
    (ls_analyzed s,
     {| learnings := ls_learnings s; pending := ls_still_pending s |},
     ls_calls s).

(** Where a result of the analysis loop came from: a record of the list whose
    [analyze_after] had elapsed, analysed under some state of the call log. *)
Definition from_elapsed (P : Platform) (now : Z) (l : list LearningRecord)
    (res : Learning) : Prop :=
  ∃ r cs, r ∈ l ∧ (analyze_after r <= now)%Z
          ∧ (_analyze_action_effect P now r cs).1 = Some res.

(** A connected platform whose insights are unavailable. *)
Definition no_insights_platform : Platform :=
  {| meta_connected := true;
     get_managers := λ _ _, Ok true;
     get_campaign_insights := λ _ _, Raise CollaboratorError;
     update_campaign_budget := λ _ _ _, Ok true;
     update_campaign_status := λ _ _ _, Ok true |}.

(** A pause of campaign [c1], recorded at time 0 with baseline spend 20000. *)
Definition sample_record : LearningRecord :=
  {| rec_id := "r1";
     rec_action := {| action_type := Some "pause"; account_id := Some "a1";
                      campaign_id := Some "c1";
                      params := {| increase_percent := None;
                                   new_budget := None; new_status := None |} |};
     rec_campaign_id := Some "c1"; rec_account_id := Some "a1";
     rec_executed_at := 0; analyze_after := ANALYSIS_DELAY;
     rec_baseline := <["spend" := 20000%Q]> ∅;
     rec_status := "pending_analysis" |}.

Definition sample_learner : ActionLearner :=
  {| learnings := []; pending := [sample_record] |}.

End Learning.

(** ** Action queue and executor: [automation/actions.py] *)

Module Actions.

(** Why a safety check refused. *)
Inductive SafetyReason : Type :=
  | Increase_over_limit (increase_percent limit : Q)
  | Budget_over_limit (new_budget limit : Q).

(** Templates of the [message] and [error] texts. *)
Inductive Message : Type :=
  | Skipped_notify_only
  | Safety_check_failed (reason : SafetyReason)
  | Safety_refused (reason : SafetyReason)
  | Safety_check_failure
  | Unsupported_action_type (t : option string)
  | Meta_not_connected
  | Missing_campaign_or_budget
  | Missing_campaign
  | Managers_unavailable
  | Budget_changed (new_budget : Q)
  | Budget_update_failed
  | Budget_change_error (e : Exn)
  | Status_changed (status : string)
  | Status_update_failed
  | Status_change_error (e : Exn)
  | Action_not_found (action_id : string)
  | Action_rejected (action_id : string).

(** The result dict of an execution; absent keys are [None]. *)
Record ExecResult : Type := {
  success : bool;
  executed : option bool;
  mode_note : option string;
  message : option Message;
  error : option Message;
  result_action : option Action;
}.

Definition failure (m : Message) : ExecResult :=
  {| success := false; executed := Some false; mode_note := None;
     message := Some m; error := None; result_action := None |}.

(** [self.safety_limits], set once in [__init__] and never reassigned. *)
Record SafetyLimits : Type := {
  max_budget_increase_percent : Q;
  max_daily_budget : Q;
  min_learning_days : Q;
  require_cv_for_increase : bool;
}.

Definition safety_limits : SafetyLimits :=
  {| max_budget_increase_percent := 20; max_daily_budget := 500000;
     min_learning_days := 3; require_cv_for_increase := true |}.

(** The dict [_safety_check] returns. *)
Record SafetyCheck : Type := {
  passed : bool;
  reason : option SafetyReason;
}.

Definition _safety_check (action : Action) : SafetyCheck :=
  if type_is action "budget_increase" then
    let increase_percent := default 0%Q (increase_percent (params action)) in
    if Qltb (max_budget_increase_percent safety_limits) increase_percent then
      {| passed := false;
         reason := Some (Increase_over_limit increase_percent
                           (max_budget_increase_percent safety_limits)) |}
    else
      let new_budget := default 0%Q (new_budget (params action)) in
      if Qltb (max_daily_budget safety_limits) new_budget then
        {| passed := false;
           reason := Some (Budget_over_limit new_budget
                             (max_daily_budget safety_limits)) |}
      else {| passed := true; reason := None |}
  else {| passed := true; reason := None |}.

(** *** The queue *)

(** An entry of the pending list, and of the history once approved or
    rejected; the optional fields are the keys added along the way. *)
Record QueuedAction : Type := {
  id : string;
  created_at : Z;
  status : string;
  action : Action;
  approved_at : option Z;
  rejected_at : option Z;
  reject_reason : option string;
  executed_at : option Z;
  result : option ExecResult;
}.

(** A history entry: a queued action, or the record of a direct execution
    (which has no ["id"] and no ["status"] key). *)
Inductive HistoryItem : Type :=
  | Queued (q : QueuedAction)
  | Direct_execution (a : Action) (r : ExecResult) (executed_at : Z).

Record ActionQueue : Type := {
  pending : list QueuedAction;
  history : list HistoryItem;
}.

Definition add_action (action_id : string) (now : Z) (a : Action)
    (q : ActionQueue) : string * ActionQueue :=
  let queued_action :=
    {| id := action_id; created_at := now; status := "pending"; action := a;
       approved_at := None; rejected_at := None; reject_reason := None;
       executed_at := None; result := None |} in
  (action_id,
   {| pending := pending q ++ [queued_action]; history := history q |}).

(** The first entry of the pending list with the given id, and the list
    without it ([for i, action in enumerate(...)] up to [pop(i)]). *)
Fixpoint take_first (action_id : string) (l : list QueuedAction)
    : option (QueuedAction * list QueuedAction) :=
  match l with
  | [] => None
  | a :: l =>
    if String.eqb (id a) action_id then Some (a, l)
    else match take_first action_id l with
         | Some (found, rest) => Some (found, a :: rest)
         | None => None
         end
  end.

Definition mark_approved (now : Z) (a : QueuedAction) : QueuedAction :=
  {| id := id a; created_at := created_at a; status := "approved";
     action := action a; approved_at := Some now;
     rejected_at := rejected_at a; reject_reason := reject_reason a;
     executed_at := executed_at a; result := result a |}.

Definition mark_rejected (now : Z) (why : string) (a : QueuedAction)
    : QueuedAction :=
  {| id := id a; created_at := created_at a; status := "rejected";
     action := action a; approved_at := approved_at a;
     rejected_at := Some now; reject_reason := Some why;
     executed_at := executed_at a; result := result a |}.

Definition approve (action_id : string) (now : Z) (q : ActionQueue)
    : option QueuedAction * ActionQueue :=
  match take_first action_id (pending q) with
  | Some (a, rest) =>
    let a := mark_approved now a in
    (Some a, {| pending := rest; history := history q ++ [Queued a] |})
  | None => (None, q)
  end.

Definition reject (action_id : string) (why : string) (now : Z)
    (q : ActionQueue) : option QueuedAction * ActionQueue :=
  match take_first action_id (pending q) with
  | Some (a, rest) =>
    let a := mark_rejected now why a in
    (Some a, {| pending := rest; history := history q ++ [Queued a] |})
  | None => (None, q)
  end.

Definition add_to_history (item : HistoryItem) (q : ActionQueue) : ActionQueue :=
  {| pending := pending q; history := history q ++ [item] |}.

Definition set_executed (now : Z) (r : ExecResult) (a : QueuedAction)
    : QueuedAction :=
  {| id := id a; created_at := created_at a; status := "executed";
     action := action a; approved_at := approved_at a;
     rejected_at := rejected_at a; reject_reason := reject_reason a;
     executed_at := Some now; result := Some r |}.

(** The loop of [mark_executed]: the first history entry with the id is
    patched; reading ["id"] of a direct-execution entry met before it raises
    [KeyError]. *)
Fixpoint mark_first (action_id : string) (r : ExecResult) (now : Z)
    (h : list HistoryItem) : Res (list HistoryItem) :=
  match h with
  | [] => Ok []
  | Queued a :: h =>
    if String.eqb (id a) action_id then Ok (Queued (set_executed now r a) :: h)
    else h' ← mark_first action_id r now h; Ok (Queued a :: h')
  | Direct_execution _ _ _ :: _ => Raise KeyError
  end.

Definition mark_executed (action_id : string) (r : ExecResult) (now : Z)
    (q : ActionQueue) : Res ActionQueue :=
  h ← mark_first action_id r now (history q);
  Ok {| pending := pending q; history := h |}.

Definition clear_pending (q : ActionQueue) : ActionQueue :=
  {| pending := []; history := history q |}.

(** *** The executor *)

(** The state of an [ActionExecutor] together with the spy log of the calls
    made on the ad platform. *)
Record Executor : Type := {
  mode : string;
  queue : ActionQueue;
  learner : Learning.ActionLearner;
  calls : list Call;
}.

(** State and exception monad of the executor: a raised exception keeps
    the state reached so far. *)
Definition M (A : Type) : Type := Executor → Res A * Executor.

#[global] Instance M_ret : MRet M := λ _ a st, (Ok a, st).
#[global] Instance M_bind : MBind M := λ _ _ f m st,
  match m st with
  | (Ok a, st) => f a st
  | (Raise e, st) => (Raise e, st)
  end.

(** [try: m  except Exception as e: h e] *)
Definition try_except {A} (m : M A) (h : Exn → M A) : M A := λ st,
  match m st with
  | (Ok a, st) => (Ok a, st)
  | (Raise e, st) => h e st
  end.

(** A call on the collaborator: logged, then answered. *)
Definition collaborate {A} (c : Call) (answer : list Call → Res A) : M A :=
  λ st, (answer (calls st),
         {| mode := mode st; queue := queue st; learner := learner st;
            calls := calls st ++ [c] |}).

Definition with_queue (f : ActionQueue → ActionQueue) : M unit := λ st,
  (Ok tt, {| mode := mode st; queue := f (queue st); learner := learner st;
             calls := calls st |}).

Definition with_learner
    (f : Learning.ActionLearner → Learning.ActionLearner) : M unit := λ st,
  (Ok tt, {| mode := mode st; queue := queue st; learner := f (learner st);
             calls := calls st |}).

Definition get_mode : M string := λ st, (Ok (mode st), st).

Definition set_mode (new_mode : string) : M unit := λ st,
  (Ok tt, {| mode := new_mode; queue := queue st; learner := learner st;
             calls := calls st |}).

Definition raise {A} (e : Exn) : M A := λ st, (Raise e, st).

(** The baseline kept for the learner. *)
Definition baseline_of (insights : gmap string Q) : gmap string Q :=
  <["cpf" := dget insights "cpf" 0]> (<["ctr" := dget insights "ctr" 0]>
  (<["roas" := dget insights "roas" 0]> (<["cpa" := dget insights "cpa" 0]>
  (<["spend" := dget insights "spend" 0]> ∅)))).

(** The inner [try] of [_execute_budget_change]: a failed fetch leaves the
    baseline empty. *)
Definition fetch_baseline (P : Platform) (campaign_id : option string)
    : M (gmap string Q) :=
  try_except
    (insights ← collaborate (Get_campaign_insights campaign_id)
                  (λ cs, get_campaign_insights P cs campaign_id);
     match insights with
     | Some i => if (size i =? 0)%nat then mret ∅ else mret (baseline_of i)
     | None => mret ∅
     end)
    (λ _, mret ∅).

Definition _execute_budget_change (P : Platform) (record_id : string)
    (now : Z) (action : Action) (increase : bool) : M ExecResult :=
  if negb (meta_connected P) then mret (failure Meta_not_connected)
  else
    let account := account_id action in
    let campaign := campaign_id action in
    let new_budget := new_budget (params action) in
    if negb (truthy_str campaign) || negb (truthy_num new_budget) then
      mret (failure Missing_campaign_or_budget)
    else
      try_except
        (managers ← collaborate (Get_managers account)
                      (λ cs, get_managers P cs account);
         if negb managers then mret (failure Managers_unavailable)
         else
           baseline ← fetch_baseline P campaign;
           let budget := default 0%Q new_budget in
           updated ← (collaborate
                   (Update_campaign_budget campaign (py_int budget))
                   (λ cs, update_campaign_budget P cs campaign (py_int budget))
                 : M bool);
           if (updated : bool) then
             (if negb (size baseline =? 0)%nat then
                with_learner (λ L,
                  (Learning.record_action_with_baseline record_id now action
                     campaign account baseline L).2)
              else mret tt);;
             mret {| success := true; executed := Some true;
                     mode_note := None;
                     message := Some (Budget_changed budget); error := None;
                     result_action := Some action |}
           else mret (failure Budget_update_failed))
        (λ e, mret (failure (Budget_change_error e))).

Definition _execute_status_change (P : Platform) (action : Action)
    (status : string) : M ExecResult :=
  if negb (meta_connected P) then mret (failure Meta_not_connected)
  else
    let account := account_id action in
    let campaign := campaign_id action in
    let new_status := default status (new_status (params action)) in
    if negb (truthy_str campaign) then mret (failure Missing_campaign)
    else
      try_except
        (managers ← collaborate (Get_managers account)
                      (λ cs, get_managers P cs account);
         if negb managers then mret (failure Managers_unavailable)
         else
           updated ← (collaborate (Update_campaign_status campaign new_status)
                   (λ cs, update_campaign_status P cs campaign new_status)
                 : M bool);
           if (updated : bool) then
             mret {| success := true; executed := Some true;
                     mode_note := None;
                     message := Some (Status_changed new_status);
                     error := None; result_action := Some action |}
           else mret (failure Status_update_failed))
        (λ e, mret (failure (Status_change_error e))).

Definition execute (P : Platform) (record_id : string) (now : Z)
    (action : Action) : M ExecResult :=
  m ← get_mode;
  if String.eqb m "notify_only" then
    mret {| success := true; executed := Some false;
            mode_note := Some "notify_only";
            message := Some Skipped_notify_only; error := None;
            result_action := Some action |}
  else
    let safety_check := _safety_check action in
    if negb (passed safety_check) then
      match reason safety_check with
      | Some why =>
        mret {| success := false; executed := Some false; mode_note := None;
                message := Some (Safety_check_failed why); error := None;
                result_action := Some action |}
      | None => raise KeyError
      end
    else if type_is action "budget_change" then
      _execute_budget_change P record_id now action true
    else if type_is action "budget_increase" then
      _execute_budget_change P record_id now action true
    else if type_is action "budget_decrease" then
      _execute_budget_change P record_id now action false
    else if type_is action "status_change" then
      _execute_status_change P action
        (default "PAUSED" (new_status (params action)))
    else if type_is action "pause" then
      _execute_status_change P action "PAUSED"
    else if type_is action "resume" then
      _execute_status_change P action "ACTIVE"
    else
      mret (failure (Unsupported_action_type (action_type action))).

Definition propose_action (action_id : string) (now : Z) (a : Action)
    : M string := λ st,
  let '(i, q) := add_action action_id now a (queue st) in
  (Ok i, {| mode := mode st; queue := q; learner := learner st;
            calls := calls st |}).

Definition not_found (action_id : string) : ExecResult :=
  {| success := false; executed := None; mode_note := None;
     message := Some (Action_not_found action_id); error := None;
     result_action := None |}.

(** [self.queue.approve(action_id)] on the executor's queue. *)
Definition queue_approve (action_id : string) (now : Z)
    : M (option QueuedAction) := λ st,
  let '(a, q) := approve action_id now (queue st) in
  (Ok a, {| mode := mode st; queue := q; learner := learner st;
            calls := calls st |}).

(** [self.queue.reject(action_id, reason)] on the executor's queue. *)
Definition queue_reject (action_id why : string) (now : Z)
    : M (option QueuedAction) := λ st,
  let '(a, q) := reject action_id why now (queue st) in
  (Ok a, {| mode := mode st; queue := q; learner := learner st;
            calls := calls st |}).

(** [self.queue.mark_executed(action_id, result)] on the executor's queue. *)
Definition queue_mark_executed (action_id : string) (r : ExecResult) (now : Z)
    : M unit := λ st,
  match mark_executed action_id r now (queue st) with
  | Ok q => (Ok tt, {| mode := mode st; queue := q; learner := learner st;
                       calls := calls st |})
  | Raise e => (Raise e, st)
  end.

Definition approve_action (P : Platform) (record_id : string) (now : Z)
    (action_id : string) : M ExecResult :=
  approved ← queue_approve action_id now;
  match approved with
  | None => mret (not_found action_id)
  | Some a =>
    r ← execute P record_id now (action a);
    queue_mark_executed action_id r now;;
    mret r
  end.

Definition reject_action (action_id why : string) (now : Z) : M ExecResult :=
  rejected ← queue_reject action_id why now;
  match rejected with
  | None => mret (not_found action_id)
  | Some _ =>
    mret {| success := true; executed := None; mode_note := None;
            message := Some (Action_rejected action_id); error := None;
            result_action := None |}
  end.

Definition direct_budget_action (campaign account : string) (new_budget : Q)
    : Action :=
  {| action_type := Some "budget_change"; account_id := Some account;
     campaign_id := Some campaign;
     params := {| increase_percent := None; new_budget := Some new_budget;
                  new_status := None |} |}.

Definition execute_budget_change_direct (P : Platform) (record_id : string)
    (now : Z) (campaign : string) (new_budget : Q) (account : string)
    : M ExecResult :=
  let action := direct_budget_action campaign account new_budget in
  let safety := _safety_check action in
  if negb (passed safety) then
    mret {| success := false; executed := None; mode_note := None;
            message := None;
            error := Some (match reason safety with
                           | Some why => Safety_refused why
                           | None => Safety_check_failure
                           end);
            result_action := None |}
  else
    r ← _execute_budget_change P record_id now action true;
    with_queue (add_to_history (Direct_execution action r now));;
    mret r.

Definition direct_status_action (campaign account new_status : string)
    : Action :=
  {| action_type := Some "status_change"; account_id := Some account;
     campaign_id := Some campaign;
     params := {| increase_percent := None; new_budget := None;
                  new_status := Some new_status |} |}.

Definition execute_status_change_direct (P : Platform) (now : Z)
    (campaign new_status account : string) : M ExecResult :=
  let action := direct_status_action campaign account new_status in
  r ← _execute_status_change P action new_status;
  with_queue (add_to_history (Direct_execution action r now));;
  mret r.

(** *** Operator sessions *)

(** One call on the executor, with the values it draws: generated ids and
    the clock reading are given with the call. *)
Inductive Op : Type :=
  | Propose (action_id : string) (a : Action)
  | Approve (action_id record_id : string)
  | Reject (action_id why : string)
  | Direct_budget (campaign : string) (new_budget : Q)
                  (account record_id : string)
  | Direct_status (campaign new_status account : string)
  | Set_mode (m : string)
  | Clear_pending.

(** The state after a call; a raised exception keeps the state it reached. *)
Definition run_op (P : Platform) (now : Z) (op : Op) (st : Executor)
    : Executor :=
  match op with
  | Propose i a => (propose_action i now a st).2
  | Approve i r => (approve_action P r now i st).2
  | Reject i why => (reject_action i why now st).2
  | Direct_budget c b a r => (execute_budget_change_direct P r now c b a st).2
  | Direct_status c s a => (execute_status_change_direct P now c s a st).2
  | Set_mode m => (set_mode m st).2
  | Clear_pending => (with_queue clear_pending st).2
  end.

Definition run (P : Platform) (ops : list (Z * Op)) (st : Executor)
    : Executor :=
  foldl (λ st e, run_op P e.1 e.2 st) st ops.

Fixpoint history_ids (h : list HistoryItem) : list string :=
  match h with
  | [] => []
  | Queued a :: h => id a :: history_ids h
  | Direct_execution _ _ _ :: h => history_ids h
  end.

(** The ids the queue knows: pending ones, then those in the history. *)
Definition queue_ids (q : ActionQueue) : list string :=
  map id (pending q) ++ history_ids (history q).

(** Every id generated for a proposal during the session is new to the
    queue it enters (ids are unique). *)
Fixpoint fresh_ids (P : Platform) (ops : list (Z * Op)) (st : Executor)
    : Prop :=
  match ops with
  | [] => True
  | (now, op) :: ops =>
    match op with
    | Propose i _ => i ∉ queue_ids (queue st)
    | _ => True
    end ∧ fresh_ids P ops (run_op P now op st)
  end.

Definition pending_entry_ok (a : QueuedAction) : Prop :=
  status a = "pending" ∧ approved_at a = None ∧ rejected_at a = None
  ∧ executed_at a = None ∧ result a = None.

(** The three shapes of a queued action in the history: approved (execution
    not recorded), rejected, or executed after an approval. *)
Definition history_entry_ok (h : HistoryItem) : Prop :=
  match h with
  | Direct_execution _ _ _ => True
  | Queued a =>
    (status a = "approved" ∧ is_Some (approved_at a) ∧ rejected_at a = None
     ∧ result a = None)
    ∨ (status a = "rejected" ∧ is_Some (rejected_at a) ∧ approved_at a = None
       ∧ result a = None)
    ∨ (status a = "executed" ∧ is_Some (approved_at a) ∧ rejected_at a = None
       ∧ is_Some (result a))
  end.

(** Well-formed queues: unique ids, pending entries untouched, history
    entries in one of their three shapes. *)
Definition wf (q : ActionQueue) : Prop :=
  NoDup (queue_ids q) ∧ Forall pending_entry_ok (pending q)
  ∧ Forall history_entry_ok (history q).

(** How an entry changes when it moves from the pending list to the
    history: rejected, approved, or approved and then marked executed. *)
Definition moved (a x : QueuedAction) : Prop :=
  (∃ t why, x = mark_rejected t why a)
  ∨ (∃ t, x = mark_approved t a)
  ∨ (∃ t t' r, x = set_executed t' r (mark_approved t a)).

(** The changes one call on the executor can make to its queue. *)
Inductive queue_step : ActionQueue → ActionQueue → Prop :=
  | qs_same q : queue_step q q
  | qs_propose i t a q :
      i ∉ queue_ids q → queue_step q (add_action i t a q).2
  | qs_move i a rest x q :
      take_first i (pending q) = Some (a, rest) → moved a x →
      queue_step q {| pending := rest; history := history q ++ [Queued x] |}
  | qs_direct a r t q :
      queue_step q (add_to_history (Direct_execution a r t) q)
  | qs_clear q : queue_step q (clear_pending q).

(** An id that was rejected: it is not pending, and the history holds it
    only as rejected entries without a result. *)
Definition rejected_for_good (i : string) (q : ActionQueue) : Prop :=
  (i ∉ map id (pending q))
  ∧ i ∈ history_ids (history q)
  ∧ ∀ a, Queued a ∈ history q → id a = i →
         status a = "rejected" ∧ result a = None.

(** What a computation leaves alone: the queue and the mode. *)
Definition keeps_queue {A} (m : M A) : Prop :=
  ∀ st, queue (m st).2 = queue st ∧ mode (m st).2 = mode st.

(** The empty executor that [__init__] builds when no file exists. *)
Definition new_executor (m : string) : Executor :=
  {| mode := m; queue := {| pending := []; history := [] |};
     learner := {| Learning.learnings := []; Learning.pending := [] |};
     calls := [] |}.

(** A connected platform that accepts every update and has no insights. *)
Definition accepting_platform : Platform :=
  {| meta_connected := true;
     get_managers := λ _ _, Ok true;
     get_campaign_insights := λ _ _, Ok None;
     update_campaign_budget := λ _ _ _, Ok true;
     update_campaign_status := λ _ _ _, Ok true |}.

(** A budget increase of 50%, from 10000 to 15000. *)
Definition increase_50_percent : Action :=
  {| action_type := Some "budget_increase"; account_id := Some "a1";
     campaign_id := Some "c1";
     params := {| increase_percent := Some 50%Q; new_budget := Some 15000%Q;
                  new_status := None |} |}.

(** A pause of campaign [c2]. *)
Definition pause_c2 : Action :=
  {| action_type := Some "pause"; account_id := Some "a1";
     campaign_id := Some "c2";
     params := {| increase_percent := None; new_budget := None;
                  new_status := None |} |}.

(** A fresh executor after one proposal, with id [x1]. *)
Definition queued_executor : Executor :=
  (propose_action "x1" 0 increase_50_percent
     (new_executor "approval_required")).2.

(** A session after the rejection of [x1]: a new proposal, an attempt to
    approve [x1], a direct budget change, the approval of the new proposal. *)
Definition sample_session : list (Z * Op) :=
  [(2, Propose "x2" pause_c2); (3, Approve "x1" "r1");
   (4, Direct_budget "c1" 600000 "a1" "r2"); (5, Approve "x2" "r3")].

End Actions.

(** ** Recommendation requester: the reply handling of
       [PerformanceMonitor._generate_recommendations] *)

Module Recommender.

(** A Python [str]: the sequence of its code points. *)
Definition text : Type := list N.

(** The text of an ASCII literal. *)
Definition lit (s : string) : text :=
  map N_of_ascii (list_ascii_of_string s).

Definition ch (a : ascii) : N := N_of_ascii a.

Fixpoint is_prefix (p s : text) : bool :=
  match p, s with
  | [], _ => true
  | a :: p, b :: s => N.eqb a b && is_prefix p s
  | _ :: _, [] => false
  end.

(** [sub in s] *)
Fixpoint contains (sub s : text) : bool :=
  is_prefix sub s ||
  match s with
  | [] => false
  | _ :: s => contains sub s
  end.

(** [s.split(sep)] for a separator that is not empty: [cur] holds the piece
    being read, reversed, and [skip] the characters of a separator just
    matched that are still to be passed over. *)
Fixpoint split_go (sep s cur : text) (skip : nat) : list text :=
  match s with
  | [] => [rev cur]
  | c :: s' =>
    match skip with
    | S k => split_go sep s' cur k
    | O =>
      if is_prefix sep s then rev cur :: split_go sep s' [] (length sep - 1)
      else split_go sep s' (c :: cur) 0
    end
  end.

Definition split (sep s : text) : list text := split_go sep s [] 0.

(** [l[i]] *)
Definition index {A} (l : list A) (i : nat) : Res A :=
  match l !! i with
  | Some x => Ok x
  | None => Raise IndexError
  end.

(** [c.isspace()] *)
Definition is_space (c : N) : bool :=
  ((9 <=? c) && (c <=? 13) || (28 <=? c) && (c <=? 32) || (c =? 133)
   || (c =? 160) || (c =? 5760) || (8192 <=? c) && (c <=? 8202)
   || (c =? 8232) || (c =? 8233) || (c =? 8239) || (c =? 8287)
   || (c =? 12288))%N.

Fixpoint lstrip (s : text) : text :=
  match s with
  | c :: r => if is_space c then lstrip r else s
  | [] => []
  end.

(** [s.strip()] *)
Definition strip (s : text) : text := rev (lstrip (rev (lstrip s))).

(** *** [json.loads] *)

(** The Python value of a JSON text. An object is the [dict] built from its
    pairs: keys in the order of their first occurrence, the last value of a
    repeated key. *)
#[warnings="-register-all"]
Inductive JSON : Type :=
  | JNull
  | JBool (b : bool)
  | JNumber (q : Q)
  | JNaN
  | JInfinity (negative : bool)
  | JString (s : text)
  | JArray (l : list JSON)
  | JObject (m : list (text * JSON)).

Definition text_eqb (a b : text) : bool := bool_decide (a = b).

(** [d[k] = v] *)
Fixpoint dict_set (k : text) (v : JSON) (d : list (text * JSON))
    : list (text * JSON) :=
  match d with
  | [] => [(k, v)]
  | (k', v') :: d =>
    if text_eqb k' k then (k', v) :: d else (k', v') :: dict_set k v d
  end.

(** The whitespace of JSON: space, tab, line feed, carriage return. *)
Definition is_json_ws (c : N) : bool :=
  ((c =? 32) || (c =? 9) || (c =? 10) || (c =? 13))%N.

Fixpoint skip_ws (s : text) : text :=
  match s with
  | c :: r => if is_json_ws c then skip_ws r else s
  | [] => []
  end.

Definition is_digit (c : N) : bool := ((48 <=? c) && (c <=? 57))%N.

(** The leading digits of a text, as numbers, and what follows them. *)
Fixpoint take_digits (s : text) : list N * text :=
  match s with
  | c :: r =>
    if is_digit c then
      let '(ds, rest) := take_digits r in ((c - 48)%N :: ds, rest)
    else ([], s)
  | [] => ([], [])
  end.

Definition digits_value (ds : list N) : N :=
  foldl (λ acc d, (acc * 10 + d)%N) 0%N ds.

(** The integer part [0|[1-9][0-9]*]. *)
Definition int_part (s : text) : option (list N * text) :=
  match s with
  | c :: r =>
    if (c =? 48)%N then Some ([0%N], r)
    else if is_digit c then Some (take_digits s)
    else None
  | [] => None
  end.

(** The optional fraction [\.[0-9]+]. *)
Definition frac_part (s : text) : list N * text :=
  match s with
  | c :: r =>
    if (c =? 46)%N then
      match take_digits r with
      | ([], _) => ([], s)
      | (fs, rest) => (fs, rest)
      end
    else ([], s)
  | [] => ([], s)
  end.

(** The optional exponent [[eE][-+]?[0-9]+], as an integer. *)
Definition exp_part (s : text) : option Z * text :=
  match s with
  | c :: r =>
    if ((c =? 101) || (c =? 69))%N then
      let '(negative, r') :=
        match r with
        | d :: r' =>
          if (d =? 45)%N then (true, r')
          else if (d =? 43)%N then (false, r') else (false, r)
        | [] => (false, r)
        end in
      match take_digits r' with
      | ([], _) => (None, s)
      | (es, rest) =>
        let e := Z.of_N (digits_value es) in
        (Some (if negative then (- e)%Z else e), rest)
      end
    else (None, s)
  | [] => (None, s)
  end.

(** What the interpreter that runs the decoder allows it.
    - [recursion_depth]: how many arrays and objects may be open inside one
      another; opening one more raises [RecursionError]. It is what the
      recursion limit leaves when [json.loads] is called.
    - [int_max_str_digits]: how many digits an integer literal may have;
      with more, [int] raises [ValueError]. It is [sys.int_max_str_digits],
      which is 0 (no limit) or at least 640. *)
Record Interpreter : Type := {
  recursion_depth : nat;
  int_max_str_digits : nat;
}.

(** The magnitude that the digits of a literal denote, exactly. *)
Definition magnitude (ip fp : list N) (e : Z) : Q :=
  let mantissa := Z.of_N (digits_value (ip ++ fp)) in
  let scale := (e - Z.of_nat (length fp))%Z in
  if (0 <=? scale)%Z then inject_Z (mantissa * 10 ^ scale)
  else Qmake mantissa (Z.to_pos (10 ^ (- scale))).

(** [2 ** k] *)
Definition pow2 (k : Z) : Q :=
  if (0 <=? k)%Z then inject_Z (2 ^ k) else Qmake 1 (Z.to_pos (2 ^ (- k))).

(** The binade of a positive number: the [e] with [2^e <= q < 2^(e+1)]. *)
Definition binade (q : Q) : Z :=
  let e := (Z.log2 (Qnum q) - Z.log2 (Z.pos (Qden q)))%Z in
  if Qltb q (pow2 e) then (e - 1)%Z else e.

(** [float(numstr)] on a magnitude. What a reply denotes is data, so the
    decoder's floats are modelled with their rounding: the nearest binary64
    number (53 bits, exponents from -1022 to 1023, subnormals below), ties to
    the even significand; [None] is infinity. *)
Definition to_double (q : Q) : option Q :=
  if Qeqb q 0 then Some 0%Q
  else
    let e := Z.max (binade q) (-1022) in
    let quantum := pow2 (e - 52) in
    let r := (inject_Z (round_half_even (q / quantum)) * quantum)%Q in
    if Qleb (pow2 1024) r then None else Some r.

(** A number at the head of the text, if there is one: an integer literal is
    an [int], within the digit limit; a literal with a fraction or an
    exponent is a [float]. *)
Definition parse_number (py : Interpreter) (s : text)
    : option (Res (JSON * text)) :=
  let '(negative, s1) :=
    match s with
    | c :: r => if (c =? 45)%N then (true, r) else (false, s)
    | [] => (false, s)
    end in
  match int_part s1 with
  | None => None
  | Some (ip, r) =>
    let '(fp, r) := frac_part r in
    let '(e, r) := exp_part r in
    match fp, e with
    | [], None =>
      if (0 <? int_max_str_digits py)%nat
         && (int_max_str_digits py <? length ip)%nat
      then Some (Raise ValueError)
      else
        let n := Z.of_N (digits_value ip) in
        Some (Ok (JNumber (inject_Z (if negative then (- n)%Z else n)), r))
    | _, _ =>
      match to_double (magnitude ip fp (default 0%Z e)) with
      | Some q => Some (Ok (JNumber (if negative then (- q)%Q else q), r))
      | None => Some (Ok (JInfinity negative, r))
      end
    end
  end.

Definition hex_value (c : N) : option N :=
  if is_digit c then Some (c - 48)%N
  else if ((97 <=? c) && (c <=? 102))%N then Some (c - 87)%N
  else if ((65 <=? c) && (c <=? 70))%N then Some (c - 55)%N
  else None.

(** Four hexadecimal digits. *)
Definition hex4 (s : text) : option (N * text) :=
  match s with
  | a :: b :: c :: d :: r =>
    match hex_value a, hex_value b, hex_value c, hex_value d with
    | Some a, Some b, Some c, Some d =>
      Some ((((a * 16 + b) * 16 + c) * 16 + d)%N, r)
    | _, _, _, _ => None
    end
  | _ => None
  end.

(** The character of a one-letter escape. *)
Definition escape_char (c : N) : option N :=
  if (c =? 34)%N then Some 34%N
  else if (c =? 92)%N then Some 92%N
  else if (c =? 47)%N then Some 47%N
  else if (c =? 98)%N then Some 8%N
  else if (c =? 102)%N then Some 12%N
  else if (c =? 110)%N then Some 10%N
  else if (c =? 114)%N then Some 13%N
  else if (c =? 116)%N then Some 9%N
  else None.

(** A low surrogate escape at the head of the text. *)
Definition low_surrogate (s : text) : option (N * text) :=
  match s with
  | b :: u :: r =>
    if ((b =? 92) && (u =? 117))%N then
      match hex4 r with
      | Some (lo, r) =>
        if ((56320 <=? lo) && (lo <=? 57343))%N then Some (lo, r) else None
      | None => None
      end
    else None
  | _ => None
  end.

(** The body of a string literal after its opening quote (strict mode):
    the text up to the closing quote, and what follows it. [fuel] bounds the
    number of characters and escapes read. *)
Fixpoint scan_string (fuel : nat) (s acc : text) : Res (text * text) :=
  match fuel with
  | O => Raise JSONDecodeError
  | S fuel =>
    match s with
    | [] => Raise JSONDecodeError
    | c :: r =>
      if (c =? 34)%N then Ok (rev acc, r)
      else if (c =? 92)%N then
        match r with
        | [] => Raise JSONDecodeError
        | e :: r' =>
          if (e =? 117)%N then
            match hex4 r' with
            | None => Raise JSONDecodeError
            | Some (uni, r'') =>
              if ((55296 <=? uni) && (uni <=? 56319))%N then
                match low_surrogate r'' with
                | Some (lo, r3) =>
                  scan_string fuel r3
                    ((65536 + ((uni - 55296) * 1024 + (lo - 56320)))%N :: acc)
                | None => scan_string fuel r'' (uni :: acc)
                end
              else scan_string fuel r'' (uni :: acc)
            end
          else
            match escape_char e with
            | Some x => scan_string fuel r' (x :: acc)
            | None => Raise JSONDecodeError
            end
        end
      else if (c <? 32)%N then Raise JSONDecodeError
      else scan_string fuel r (c :: acc)
    end
  end.

(** [scan_once], [JSONArray] and [JSONObject] of the decoder. [fuel] bounds
    the calls of the model; [loads] gives enough of it for every text.
    [depth] is how many arrays and objects may still be opened: the decoder
    enters a recursive call for each one it opens and leaves it when the
    array or object is closed. *)
Fixpoint scan_once (py : Interpreter) (fuel depth : nat) (s : text)
    : Res (JSON * text) :=
  match fuel with
  | O => Raise JSONDecodeError
  | S fuel =>
    match s with
    | [] => Raise JSONDecodeError
    | c :: r =>
      if (c =? 34)%N then
        '(str, r) ← scan_string (length r) r []; Ok (JString str, r)
      else if (c =? 123)%N then
        match depth with
        | O => Raise RecursionError
        | S depth =>
          let r := skip_ws r in
          match r with
          | d :: r' =>
            if (d =? 125)%N then Ok (JObject [], r')
            else parse_members py fuel depth r []
          | [] => Raise JSONDecodeError
          end
        end
      else if (c =? 91)%N then
        match depth with
        | O => Raise RecursionError
        | S depth =>
          let r := skip_ws r in
          match r with
          | d :: r' =>
            if (d =? 93)%N then Ok (JArray [], r')
            else parse_elements py fuel depth r []
          | [] => Raise JSONDecodeError
          end
        end
      else if is_prefix (lit "null") s then Ok (JNull, drop 4 s)
      else if is_prefix (lit "true") s then Ok (JBool true, drop 4 s)
      else if is_prefix (lit "false") s then Ok (JBool false, drop 5 s)
      else
        match parse_number py s with
        | Some x => x
        | None =>
          if is_prefix (lit "NaN") s then Ok (JNaN, drop 3 s)
          else if is_prefix (lit "Infinity") s then
            Ok (JInfinity false, drop 8 s)
          else if is_prefix (lit "-Infinity") s then
            Ok (JInfinity true, drop 9 s)
          else Raise JSONDecodeError
        end
    end
  end
with parse_elements (py : Interpreter) (fuel depth : nat) (s : text)
    (acc : list JSON) : Res (JSON * text) :=
  match fuel with
  | O => Raise JSONDecodeError
  | S fuel =>
    '(v, r) ← scan_once py fuel depth s;
    match skip_ws r with
    | d :: r' =>
      if (d =? 93)%N then Ok (JArray (acc ++ [v]), r')
      else if (d =? 44)%N then
        parse_elements py fuel depth (skip_ws r') (acc ++ [v])
      else Raise JSONDecodeError
    | [] => Raise JSONDecodeError
    end
  end
with parse_members (py : Interpreter) (fuel depth : nat) (s : text)
    (acc : list (text * JSON)) : Res (JSON * text) :=
  match fuel with
  | O => Raise JSONDecodeError
  | S fuel =>
    match s with
    | q :: r =>
      if (q =? 34)%N then
        '(key, r) ← scan_string (length r) r [];
        match skip_ws r with
        | d :: r =>
          if (d =? 58)%N then
            '(v, r) ← scan_once py fuel depth (skip_ws r);
            match skip_ws r with
            | d :: r' =>
              if (d =? 125)%N then Ok (JObject (dict_set key v acc), r')
              else if (d =? 44)%N then
                parse_members py fuel depth (skip_ws r')
                  (dict_set key v acc)
              else Raise JSONDecodeError
            | [] => Raise JSONDecodeError
            end
          else Raise JSONDecodeError
        | [] => Raise JSONDecodeError
        end
      else Raise JSONDecodeError
    | [] => Raise JSONDecodeError
    end
  end.

(** [json.loads(s)]: one value between optional whitespace, nothing else. *)
Definition loads (py : Interpreter) (s : text) : Res JSON :=
  '(v, r) ← scan_once py (2 * length s + 2) (recursion_depth py) (skip_ws s);
  match skip_ws r with
  | [] => Ok v
  | _ :: _ => Raise JSONDecodeError
  end.

(** *** The reply *)

Definition FENCE_JSON : text := lit "```json".
Definition FENCE : text := lit "```".

(** The payload cut out of the reply: inside a json fence, inside a plain
    fence, or the whole reply; stripped. *)
Definition extract_payload (response_text : text) : Res text :=
  if contains FENCE_JSON response_text then
    after ← index (split FENCE_JSON response_text) 1;
    inside ← index (split FENCE after) 0;
    Ok (strip inside)
  else if contains FENCE response_text then
    after ← index (split FENCE response_text) 1;
    inside ← index (split FENCE after) 0;
    Ok (strip inside)
  else Ok (strip response_text).

(** The end of the [try] of [_generate_recommendations], from the reply of
    the LLM collaborator to the returned value. *)
Definition decode_reply (py : Interpreter) (response_text : text)
    : Res JSON :=
  json_str ← extract_payload response_text;
  loads py json_str.

(** [_generate_recommendations] as a function of the collaborator's answer:
    an exception anywhere in the [try] gives the empty list. *)
Definition _generate_recommendations (py : Interpreter) (reply : Res text)
    : JSON :=
  match reply ≫= decode_reply py with
  | Ok v => v
  | Raise _ => JArray []
  end.

(** [len(v)] of a returned list. *)
Definition entries (v : JSON) : nat :=
  match v with
  | JArray l => length l
  | _ => 0
  end.

(** A character that can begin an element of an array: neither JSON
    whitespace nor the closing bracket. *)
Definition value_start (c : N) : bool :=
  negb (is_json_ws c) && negb (c =? 93)%N.

(** [e] is the text of one JSON value [v] for an interpreter that lets it
    open [depth] arrays and objects: wherever it stands before a comma or a
    closing bracket, the decoder reads [v] from it and stops there. *)
Definition parses_to (py : Interpreter) (depth : nat) (e : text) (v : JSON)
    : Prop :=
  (∃ c e', e = c :: e' ∧ value_start c = true)
  ∧ ∀ fuel rest,
      (2 * length e ≤ fuel)%nat →
      (∃ d r, rest = d :: r ∧ (d = 44%N ∨ d = 93%N)) →
      scan_once py fuel depth (e ++ rest) = Ok (v, rest).

(** The element texts joined by commas. *)
Fixpoint array_body (es : list text) : text :=
  match es with
  | [] => []
  | [e] => e
  | e :: es => e ++ 44%N :: array_body es
  end.

(** The text of a JSON array with the given element texts. *)
Definition array_text (es : list text) : text :=
  91%N :: array_body es ++ [93%N].

(** A string literal of JSON: the ASCII text between double quotes. *)
Definition quoted (s : string) : text := 34%N :: lit s ++ [34%N].

(** The text of a recommendation record with three of its fields. *)
Definition record_text (priority campaign action : string) : text :=
  lit "{" ++ quoted "priority" ++ lit ": " ++ quoted priority ++ lit ", "
  ++ quoted "campaign_name" ++ lit ": " ++ quoted campaign ++ lit ", "
  ++ quoted "action_type" ++ lit ": " ++ quoted action ++ lit "}".

Definition record_value (priority campaign action : string) : JSON :=
  JObject [(lit "priority", JString (lit priority));
           (lit "campaign_name", JString (lit campaign));
           (lit "action_type", JString (lit action))].

(** Four recommendation records, and the values they denote. *)
Definition sample_records : list text :=
  [record_text "high" "A" "budget_increase";
   record_text "high" "B" "pause";
   record_text "medium" "C" "budget_decrease";
   record_text "low" "D" "none"].

Definition sample_values : list JSON :=
  [record_value "high" "A" "budget_increase";
   record_value "high" "B" "pause";
   record_value "medium" "C" "budget_decrease";
   record_value "low" "D" "none"].

(** A reply that holds the four records in a json fence. *)
Definition four_records : text :=
  lit "Recommended:" ++ [10%N] ++ FENCE_JSON ++ [10%N]
  ++ array_text sample_records ++ [10%N] ++ FENCE.

(** [n] arrays inside one another, the innermost empty. *)
Definition nested (n : nat) : text := repeat 91%N n ++ repeat 93%N n.

(** The integer literal of a 1 followed by [n] zeros. *)
Definition power_of_ten (n : nat) : text := 49%N :: repeat 48%N n.

(** An interpreter with the default limits of CPython, called with 100
    frames in use: a recursion limit of 1000 and 4300 digits. *)
Definition cpython : Interpreter :=
  {| recursion_depth := 900; int_max_str_digits := 4300 |}.

End Recommender.

(** ** Python list slices *)

(** [l[start:]] for an integer [start]: a negative start counts from the
    end, and both ends are clipped to the list. *)
Definition slice_from {A} (start : Z) (l : list A) : list A :=
  let n := Z.of_nat (length l) in
  let lower := if (start <? 0)%Z then Z.max (n + start) 0 else Z.min start n in
  drop (Z.to_nat lower) l.

(** [ActionQueue.get_history]: [self.history[-limit:]]. *)

(** ** Calls, outcomes and history of the executor *)

Module ExecutorTraces.
Import Actions.

(** The calls a budget change makes when nothing stops it, in order. *)
Definition budget_calls (a : Action) : list Call :=
  [Get_managers (account_id a); Get_campaign_insights (campaign_id a);
   Update_campaign_budget (campaign_id a)
     (py_int (default 0%Q (new_budget (params a))))].

(** The calls a status change makes when nothing stops it. *)
Definition status_calls (a : Action) (status : string) : list Call :=
  [Get_managers (account_id a);
   Update_campaign_status (campaign_id a)
     (default status (new_status (params a)))].

(** The executor with more calls in its log and another learner. *)
Definition after_calls (st : Executor) (new : list Call)
    (L : Learning.ActionLearner) : Executor :=
  {| mode := mode st; queue := queue st; learner := L;
     calls := calls st ++ new |}.

(** The three action types that [execute] sends to the budget change. *)
Definition budget_type (a : Action) : bool :=
  type_is a "budget_change" || type_is a "budget_increase"
  || type_is a "budget_decrease".

(** The three action types that [execute] sends to the status change. *)
Definition status_type (a : Action) : bool :=
  type_is a "status_change" || type_is a "pause" || type_is a "resume".

(** The [status] argument [execute] passes for a status type. *)
Definition dispatched_status (a : Action) : string :=
  if type_is a "status_change" then default "PAUSED" (new_status (params a))
  else if type_is a "pause" then "PAUSED" else "ACTIVE".

(** The [increase] argument [execute] passes for a budget type. *)
Definition dispatched_increase (a : Action) : bool :=
  type_is a "budget_change" || type_is a "budget_increase".

(** The calls [execute] makes for an action when nothing stops it. *)
Definition platform_calls (a : Action) : list Call :=
  if budget_type a then budget_calls a
  else if status_type a then status_calls a (dispatched_status a)
  else [].

(** The answers of the platform that let [execute] carry an action out,
    from the call log [log]: the safety check passes, the agent is
    connected, the action names a campaign, the managers are there, and the
    update of the action's type answers true. The answer of the insights
    fetch is no part of it. *)
Definition platform_accepts (P : Platform) (a : Action) (log : list Call)
    : Prop :=
  passed (_safety_check a) = true
  ∧ meta_connected P = true
  ∧ truthy_str (campaign_id a) = true
  ∧ get_managers P log (account_id a) = Ok true
  ∧ (budget_type a = true
     ∧ truthy_num (new_budget (params a)) = true
     ∧ update_campaign_budget P (log ++ take 2 (budget_calls a))
         (campaign_id a) (py_int (default 0%Q (new_budget (params a))))
       = Ok true
     ∨ budget_type a = false ∧ status_type a = true
       ∧ update_campaign_status P
           (log ++ take 1 (status_calls a (dispatched_status a)))
           (campaign_id a)
           (default (dispatched_status a) (new_status (params a)))
         = Ok true).

(** A history entry written by a direct execution. *)
Definition is_direct (h : HistoryItem) : bool :=
  match h with
  | Direct_execution _ _ _ => true
  | Queued _ => false
  end.

(** The executor with another queue. *)
Definition with_queue_of (st : Executor) (q : ActionQueue) : Executor :=
  {| mode := mode st; queue := q; learner := learner st; calls := calls st |}.

(** [ActionQueue.get_history]: [self.history[-limit:]]. *)
Definition get_history (limit : Z) (q : ActionQueue) : list HistoryItem :=
  slice_from (- limit) (history q).

(** [ActionExecutor.get_action_history] *)
Definition get_action_history (limit : Z) : M (list HistoryItem) := λ st,
  (Ok (get_history limit (queue st)), st).

(** A budget increase of 10%, from 10000 to 11000. *)
Definition increase_10_percent : Action :=
  {| action_type := Some "budget_increase"; account_id := Some "a1";
     campaign_id := Some "c1";
     params := {| increase_percent := Some 10%Q; new_budget := Some 11000%Q;
                  new_status := None |} |}.

(** A platform whose agent is not connected. *)
Definition offline_platform : Platform :=
  {| meta_connected := false;
     get_managers := λ _ _, Ok true;
     get_campaign_insights := λ _ _, Ok None;
     update_campaign_budget := λ _ _ _, Ok true;
     update_campaign_status := λ _ _ _, Ok true |}.

(** An executor after a direct pause of [c1] and the proposal [x2]. *)
Definition executor_after_direct : Executor :=
  run accepting_platform
    [(1, Direct_status "c1" "PAUSED" "a1"); (2, Propose "x2" pause_c2)]
    (new_executor "approval_required").

End ExecutorTraces.

(** ** Statistics of the learner: [automation/learning.py] *)

Module LearnerStats.
Import Learning.

(** The loop of [get_similar_learnings] over the learnings, newest first. *)
Fixpoint similar_loop (action_type : string) (limit : Z) (l : list Learning)
    (similar : list Learning) : list Learning :=
  match l with
  | [] => similar
  | learning :: l =>
    if type_is (l_action learning) action_type then
      let similar := similar ++ [learning] in
      if (Z.of_nat (length similar) >=? limit)%Z then similar
      else similar_loop action_type limit l similar
    else similar_loop action_type limit l similar
  end.

Definition get_similar_learnings (action_type : string) (limit : Z)
    (L : ActionLearner) : list Learning :=
  similar_loop action_type limit (rev (learnings L)) [].

(** The three counters of [get_success_rate]. *)
Record Counts : Type := {
  c_total : Z;
  c_improved : Z;
  c_worsened : Z;
}.

Definition count_step (action_type : string) (c : Counts)
    (learning : Learning) : Counts :=
  if type_is (l_action learning) action_type then
    let effect := l_effect learning in
    {| c_total := c_total c + 1;
       c_improved := if String.eqb effect "improved" then c_improved c + 1
                     else c_improved c;
       c_worsened := if String.eqb effect "improved" then c_worsened c
                     else if String.eqb effect "worsened" then c_worsened c + 1
                     else c_worsened c |}
  else c.

Record SuccessRate : Type := {
  sr_total : Z;
  sr_improved : Z;
  sr_worsened : Z;
  sr_neutral : Z;
  success_rate : Q;
}.

Definition get_success_rate (action_type : string) (L : ActionLearner)
    : Res SuccessRate :=
  let c := foldl (count_step action_type)
             {| c_total := 0; c_improved := 0; c_worsened := 0 |}
             (learnings L) in
  rate ← (if (0 <? c_total c)%Z then
            r ← pydiv (inject_Z (c_improved c)) (inject_Z (c_total c));
            Ok (r * 100)%Q
          else Ok 0%Q);
  Ok {| sr_total := c_total c; sr_improved := c_improved c;
        sr_worsened := c_worsened c;
        sr_neutral := c_total c - c_improved c - c_worsened c;
        success_rate := rate |}.

Record LearningSummary : Type := {
  total_learnings : nat;
  pending_analysis : nat;
  by_action_type : list (string * SuccessRate);
  recent_learnings : list Learning;
}.

Definition get_learning_summary (L : ActionLearner) : Res LearningSummary :=
  budget_increase ← get_success_rate "budget_increase" L;
  budget_decrease ← get_success_rate "budget_decrease" L;
  pause ← get_success_rate "pause" L;
  resume ← get_success_rate "resume" L;
  Ok {| total_learnings := length (learnings L);
        pending_analysis := length (pending L);
        by_action_type := [("budget_increase", budget_increase);
                           ("budget_decrease", budget_decrease);
                           ("pause", pause); ("resume", resume)];
        recent_learnings := match learnings L with
                            | [] => []
                            | _ :: _ => slice_from (-5) (learnings L)
                            end |}.

(** The learnings of an action type. *)
Definition of_type (wanted : string) (l : list Learning) : list Learning :=
  filter (λ x, action_type (l_action x) = Some wanted) l.


(** The learnings with a given effect. *)
Definition with_effect (e : string) (l : list Learning) : list Learning :=
  filter (λ x, l_effect x = e) l.

End LearnerStats.

(** ** Runs of the analysis *)

Module LearnerRuns.
Import Learning.

(** A platform on which every analysis finds its data: the agent is
    connected, the managers exist and the insights of every campaign are a
    dict that is not empty. *)
Definition insights_available (P : Platform) : Prop :=
  meta_connected P = true
  ∧ (∀ cs account, get_managers P cs account = Ok true)
  ∧ (∀ cs campaign, ∃ current,
       get_campaign_insights P cs campaign = Ok (Some current)
       ∧ size current ≠ 0%nat).

(** [res] is the learning made from the record [r] at time [now]. *)
Definition learned_from (now : Z) (r : LearningRecord) (res : Learning) : Prop :=
  l_id res = rec_id r ∧ l_action res = rec_action r
  ∧ l_campaign_id res = rec_campaign_id r
  ∧ l_account_id res = rec_account_id r
  ∧ l_executed_at res = rec_executed_at r ∧ l_analyzed_at res = now
  ∧ l_baseline res = rec_baseline r
  ∧ l_effect res ∈ ["improved"; "worsened"; "neutral"].

(** A connected platform that reports a CPA of 800 for every campaign. *)
Definition reporting_platform : Platform :=
  {| meta_connected := true;
     get_managers := λ _ _, Ok true;
     get_campaign_insights := λ _ _, Ok (Some (<["cpa" := 800%Q]> ∅));
     update_campaign_budget := λ _ _ _, Ok true;
     update_campaign_status := λ _ _ _, Ok true |}.


(** Insights that hold a CPA of 1000, and of 800. *)
Definition cpa_1000 : gmap string Q := <["cpa" := 1000%Q]> ∅.
Definition cpa_800 : gmap string Q := <["cpa" := 800%Q]> ∅.

End LearnerRuns.

(** ** Shapes of the findings of a judgment *)

Module JudgmentShapes.
Import Monitor.

(** What a step may add to the findings: [extra] issues and [pos]
    positives, appended. *)
Definition adds (f f' : Findings) (extra : list Issue) (pos : list Positive)
    : Prop :=
  f_issues f' = f_issues f ++ extra ∧ f_positives f' = f_positives f ++ pos.

(** The secondary checks: an issue they add is a warning about the CTR or
    the CVR. *)
Definition secondary_issue (i : Issue) : Prop :=
  issue_severity i = "warning"
  ∧ ∃ a b c, issue_message i = CTR_plunge a b c
             ∨ issue_message i = CVR_plunge a b c.

(** A day with spend 5000 and a CPF of 250. *)
Definition soaring_periods : gmap string (gmap string Q) :=
  <["today" := <["cpf" := 250%Q]> (<["spend" := 5000%Q]> ∅)]> ∅.

End JudgmentShapes.

(** ** Periods of a campaign: [automation/monitor.py] *)

Module Periods.
Import Aggregator.

(** The cumulative keys that [_calculate_daily_average] divides. *)
Definition CUMULATIVE_KEYS : list string :=
  ["spend"; "impressions"; "clicks"; "conversions"; "reach"; "follows";
   "page_engagements"; "link_clicks"].

(** [f"{key}_total"] *)
Definition total_key (key : string) : string := String.append key "_total".

(** One iteration of the loop over the cumulative keys: a key that is
    present with a value that is not zero is divided by [days], and the
    original value is kept under the total key. *)
Definition average_key (perf : gmap string Q) (days : Z)
    (averaged : gmap string Q) (key : string) : Res (gmap string Q) :=
  match averaged !! key with
  | Some v =>
    if negb (Qeqb v 0) then
      q ← pydiv v (inject_Z days);
      let averaged := <[key := q]> averaged in
      original ← item perf key;
      Ok (<[total_key key := original]> averaged)
    else Ok averaged
  | None => Ok averaged
  end.

Definition _calculate_daily_average (perf : gmap string Q) (days : Z)
    : Res (gmap string Q) :=
  if (size perf =? 0)%nat || (days <=? 0)%Z then Ok perf
  else
    averaged ← foldl (λ acc key, averaged ← acc;
                                 average_key perf days averaged key)
                (Ok perf) CUMULATIVE_KEYS;
    if Qltb 0 (dget averaged "follows" 0) && Qltb 0 (dget averaged "spend" 0)
    then
      spend ← item averaged "spend";
      follows ← item averaged "follows";
      r ← pydiv spend follows;
      Ok (<["cpf" := py_round r 2]> averaged)
    else Ok averaged.

(** The periods fetched for a campaign: name and date preset. *)
Definition period_configs : list (string * string) :=
  [("today", "today"); ("yesterday", "yesterday"); ("last_7d", "last_7d");
   ("last_30d", "last_30d")].

(** The body of the [try] for one period. [fetch preset] is the answer of
    [get_campaign_insights(date_preset=preset, campaign_ids=[campaign_id])]
    for the campaign at hand; each preset is fetched once. *)
Definition period_performance (fetch : string → Res (list (gmap string Q)))
    (period_name date_preset : string) : Res (gmap string Q) :=
  insights ← fetch date_preset;
  match insights with
  | [] => Ok ∅
  | _ :: _ =>
    perf ← _aggregate_insights insights;
    if String.eqb period_name "last_7d" then _calculate_daily_average perf 7
    else if String.eqb period_name "last_30d" then
      _calculate_daily_average perf 30
    else Ok perf
  end.

(** [_get_multi_period_performance]: a period whose fetch or aggregation
    raises is the empty dict. *)
Definition _get_multi_period_performance
    (fetch : string → Res (list (gmap string Q)))
    : gmap string (gmap string Q) :=
  foldl (λ periods pc,
           <[pc.1 := match period_performance fetch pc.1 pc.2 with
                     | Ok perf => perf
                     | Raise _ => ∅
                     end]> periods)
        ∅ period_configs.

(** What the daily average makes of a value of a cumulative key. *)
Definition daily (days : Z) (v : Q) : Q :=
  if Qeqb v 0 then v else (v / inject_Z days)%Q.

(** The keys of an aggregate that the daily average leaves alone. *)
Definition RATE_KEYS : list string :=
  ["ctr"; "cpm"; "cpc"; "cvr"; "cpa"; "roas"; "conversion_value"].

End Periods.


(** ** Campaign targets: [automation/targets.py] *)

Module Targets.

(** A value of a targets dict: a number, a text, or the time stamp that
    [isoformat] prints. *)
Inductive Value : Type :=
  | Num (q : Q)
  | Str (s : string)
  | Stamp (t : Z).

(** [TargetManager.targets], with its two keys, each of which a file read
    by [_load_targets] may lack. Writing the file, whose failure
    [_save_targets] logs and swallows, is outside the model. *)
Record TargetManager : Type := {
  defaults : option (gmap string (gmap string Value));
  campaigns : option (gmap string (gmap string Value));
}.

(** The value of [_load_targets] when there is no readable file. *)
Definition initial_targets : TargetManager :=
  {| defaults := Some (<["sales" := <["target_roas" := Num 3%Q]>
                                     (<["target_cpa" := Num 5000%Q]> ∅)]>
                      (<["traffic" := <["cpf_critical" := Num 200%Q]>
                                      (<["cpf_warning" := Num 100%Q]>
                                      (<["target_cpf" := Num 50%Q]> ∅))]> ∅));
     campaigns := Some ∅ |}.

(** [get_all_campaign_targets] *)
Definition get_all_campaign_targets (tm : TargetManager)
    : gmap string (gmap string Value) :=
  default ∅ (campaigns tm).

(** [get_defaults] *)
Definition get_defaults (tm : TargetManager)
    : gmap string (gmap string Value) :=
  default ∅ (defaults tm).

(** [get_campaign_targets]. The id [None] is the id of a campaign dict
    without the key [id]; it is a key of no dict of campaigns. *)
Definition get_campaign_targets (tm : TargetManager)
    (campaign_id : option string) (campaign_type : string)
    : gmap string Value :=
  match campaign_id ≫= (λ i, default ∅ (campaigns tm) !! i) with
  | Some entry => entry
  | None => default ∅ (default ∅ (defaults tm) !! campaign_type)
  end.

(** [{"name": campaign_name, **targets, "updated_at": now}]: a later key
    replaces an earlier one. *)
Definition entry_of (campaign_name : string) (targets : gmap string Value)
    (now : Z) : gmap string Value :=
  <["updated_at" := Stamp now]> (targets ∪ <["name" := Str campaign_name]> ∅).

(** [set_campaign_targets], at the time [now]. *)
Definition set_campaign_targets (tm : TargetManager) (campaign_id : string)
    (campaign_name : string) (targets : gmap string Value) (now : Z)
    : TargetManager :=
  let campaigns := default ∅ (campaigns tm) in
  {| defaults := defaults tm;
     campaigns :=
       Some (<[campaign_id := entry_of campaign_name targets now]> campaigns) |}.

(** [set_default_targets] *)
Definition set_default_targets (tm : TargetManager) (campaign_type : string)
    (targets : gmap string Value) : TargetManager :=
  let defaults := default ∅ (defaults tm) in
  {| defaults := Some (<[campaign_type := targets]> defaults);
     campaigns := campaigns tm |}.

(** [remove_campaign_targets] *)
Definition remove_campaign_targets (tm : TargetManager) (campaign_id : string)
    : TargetManager :=
  if bool_decide (is_Some (default ∅ (campaigns tm) !! campaign_id)) then
    {| defaults := defaults tm;
       campaigns := delete campaign_id <$> campaigns tm |}
  else tm.

(** The targets as the judgment reads them: it reads [target_cpf],
    [target_roas] and [target_cpa], which hold numbers; the name and the
    time stamp of an entry are keys it never reads. *)
Definition numbers (d : gmap string Value) : gmap string Q :=
  omap (λ v, match v with Num q => Some q | _ => None end) d.

End Targets.


(** ** Account check: [automation/monitor.py] *)

Module AccountCheck.
Import Aggregator Monitor Recommender Periods Targets.

(** A campaign as [get_campaigns] lists it, with the keys that
    [_analyze_campaign] reads. [None] is a missing key (for the budget and
    the promotion type also the value [None]); the flag [is_asc] is read
    for its truth. *)
Record Campaign : Type := {
  c_id : option string;
  c_name : option string;
  c_objective : option string;
  c_daily_budget : option Q;
  c_is_asc : bool;
  c_smart_promotion_type : option string;
}.

(** The hour and the minute of a JST wall clock, in seconds. *)
Definition hour_of (now_jst : Z) : Z := (now_jst / 3600) mod 24.
Definition minute_of (now_jst : Z) : Z := (now_jst / 60) mod 60.

(** Templates of the budget messages, with the values they print. *)
Inductive BudgetMessage : Type :=
  | Budget_not_set                                     (* "日予算未設定" *)
  | Judgment_deferred (now_jst : Z) (spend_rate : Q)   (* "早朝のため判定保留" *)
  | Pace_behind (spend_rate : Q) (now_jst : Z) (expected_rate : Q)
  | Pace_ahead (spend_rate expected_rate : Q)
  | Pace_normal (spend_rate : Q) (now_jst : Z).

(** The dict of [_calculate_budget_status]; the numbers and the time are
    keys that the dict of an unset budget lacks. *)
Record BudgetStatus : Type := {
  bs_status : string;
  bs_message : BudgetMessage;
  bs_daily_budget : option Q;
  bs_today_spend : option Q;
  bs_spend_rate : option Q;
  bs_expected_rate : option Q;
  bs_current_time_jst : option Z;
}.

Definition _calculate_budget_status (now_jst : Z) (today_perf : gmap string Q)
    (daily_budget : Q) : Res BudgetStatus :=
  if Qeqb daily_budget 0 || Qleb daily_budget 0 then
    Ok {| bs_status := "unknown"; bs_message := Budget_not_set;
          bs_daily_budget := None; bs_today_spend := None;
          bs_spend_rate := None; bs_expected_rate := None;
          bs_current_time_jst := None |}
  else
    let today_spend := dget today_perf "spend" 0 in
    spend_rate ← (if Qltb 0 daily_budget then
                    r ← pydiv today_spend daily_budget; Ok (r * 100)%Q
                  else Ok 0%Q);
    let hours_passed :=
      (inject_Z (hour_of now_jst) + inject_Z (minute_of now_jst) / 60)%Q in
    let expected_rate := (hours_passed / 24 * 100)%Q in
    let '(status, message) :=
      if Qltb hours_passed 6 then
        ("early_morning", Judgment_deferred now_jst spend_rate)
      else if Qltb spend_rate (expected_rate * (3 # 10)) then
        ("under_pacing", Pace_behind spend_rate now_jst expected_rate)
      else if Qltb (expected_rate * (3 # 2)) spend_rate then
        ("over_pacing", Pace_ahead spend_rate expected_rate)
      else ("on_track", Pace_normal spend_rate now_jst) in
    Ok {| bs_status := status; bs_message := message;
          bs_daily_budget := Some daily_budget;
          bs_today_spend := Some today_spend;
          bs_spend_rate := Some spend_rate;
          bs_expected_rate := Some expected_rate;
          bs_current_time_jst := Some now_jst |}.

(** [type_config.get("special_notes", [])]: the key is one of the ASC
    entry, the entry with the flag [is_asc_campaign]. *)
Definition special_notes (type_config : TypeConfig) : list string :=
  if default false (is_asc_campaign type_config) then
    ["機械学習で最適化されているため、頻繁な変更は避ける";
     "クリエイティブの追加は効果的";
     "予算変更は20%以内に抑える";
     "学習フェーズ中は7日間は様子を見る"]
  else [].

(** The dict that [_analyze_campaign] returns. *)
Record CampaignResult : Type := {
  r_id : option string;
  r_name : string;
  r_objective : string;
  r_objective_display : string;
  r_daily_budget : Q;
  r_periods : gmap string (gmap string Q);
  r_budget_status : BudgetStatus;
  r_judgment : Judgment BudgetStatus;
  r_is_asc : bool;
  r_asc_notes : option (list string);
}.

(** [_analyze_campaign]. [fetch] answers the insight requests for this
    campaign, [now_jst] is the JST clock, and the target manager is [None]
    when it could not be loaded. *)
Definition _analyze_campaign (now_jst : Z)
    (target_manager : option TargetManager)
    (fetch : string → Res (list (gmap string Q))) (campaign : Campaign)
    : Res CampaignResult :=
  let campaign_id := c_id campaign in
  let campaign_name := default "Unknown" (c_name campaign) in
  let objective := default "DEFAULT" (c_objective campaign) in
  let daily_budget := default 0%Q (c_daily_budget campaign) in
  let is_asc := c_is_asc campaign in
  let smart_promotion_type := c_smart_promotion_type campaign in
  '(objective, type_config) ←
    select_type_config objective is_asc smart_promotion_type;
  let periods := _get_multi_period_performance fetch in
  budget_status ←
    _calculate_budget_status now_jst (default ∅ (periods !! "today"))
      daily_budget;
  let targets :=
    match target_manager with
    | Some tm =>
      let is_traffic := default false (is_traffic_campaign type_config) in
      let campaign_type := if is_traffic then "traffic" else "sales" in
      numbers (get_campaign_targets tm campaign_id campaign_type)
    | None => ∅
    end in
  judgment ←
    _make_integrated_judgment campaign_name objective type_config periods
      budget_status targets;
  let result_is_asc :=
    is_asc
    || bool_decide (smart_promotion_type = Some "ADVANTAGE_PLUS_SHOPPING") in
  Ok {| r_id := campaign_id; r_name := campaign_name;
        r_objective := objective;
        r_objective_display := display_name type_config;
        r_daily_budget := daily_budget; r_periods := periods;
        r_budget_status := budget_status; r_judgment := judgment;
        r_is_asc := result_is_asc;
        r_asc_notes := if result_is_asc
                       then Some (special_notes type_config) else None |}.

(** The dict of [_format_alert]; the comparison lines are kept as the
    comparisons they print. *)
Record Alert : Type := {
  a_type : string;
  a_severity : string;
  a_campaign_id : option string;
  a_campaign_name : string;
  a_objective : string;
  a_message : Summary;
  a_issues : list Issue;
  a_comparisons : list Comparison;
  a_today : gmap string Q;
  a_yesterday : gmap string Q;
  a_budget_status : option BudgetStatus;
}.

Definition _format_alert (campaign_result : CampaignResult) : Alert :=
  let judgment := r_judgment campaign_result in
  let comparison_text :=
    filter (λ c, Qeqb (change_percent c) 0 = false) (comparisons judgment) in
  let severity :=
    if String.eqb (status judgment) "critical" then "high" else "medium" in
  {| a_type := "performance_issue"; a_severity := severity;
     a_campaign_id := r_id campaign_result;
     a_campaign_name := r_name campaign_result;
     a_objective := r_objective_display campaign_result;
     a_message := summary judgment;
     a_issues := issues judgment;
     a_comparisons := comparison_text;
     a_today := default ∅ (r_periods campaign_result !! "today");
     a_yesterday := default ∅ (r_periods campaign_result !! "yesterday");
     a_budget_status := budget_status judgment |}.

(** Templates of the suggested action. *)
Inductive Suggestion : Type :=
  | Increase_budget (budget new_budget : Q)   (* "...に増額検討（+20%）" *)
  | Consider_increase                         (* "予算増額を検討" *)
  | No_suggestion.                            (* "" *)

Definition _suggest_action (campaign_result : CampaignResult) : Suggestion :=
  let judgment := r_judgment campaign_result in
  let budget := r_daily_budget campaign_result in
  if String.eqb (status judgment) "opportunity" then
    if Qltb 0 budget then
      let suggested_increase := py_int (budget * (2 # 10)) in
      Increase_budget budget (budget + inject_Z suggested_increase)
    else Consider_increase
  else No_suggestion.

(** The dict of [_format_opportunity]. *)
Record Opportunity : Type := {
  o_type : string;
  o_campaign_id : option string;
  o_campaign_name : string;
  o_objective : string;
  o_message : Summary;
  o_positives : list Positive;
  o_suggested_action : Suggestion;
}.

Definition _format_opportunity (campaign_result : CampaignResult)
    : Opportunity :=
  let judgment := r_judgment campaign_result in
  {| o_type := "opportunity";
     o_campaign_id := r_id campaign_result;
     o_campaign_name := r_name campaign_result;
     o_objective := r_objective_display campaign_result;
     o_message := summary judgment;
     o_positives := positives judgment;
     o_suggested_action := _suggest_action campaign_result |}.

(** The managers of an account: the campaign listing, and the insights of
    the campaign at a position of that listing for a date preset. *)
Record Managers : Type := {
  get_campaigns : Res (list Campaign);
  get_campaign_insights : nat → string → Res (list (gmap string Q));
}.

(** What the collaborators answer during one check of an account: whether
    the agent is connected, the managers ([None] when they could not be set
    up), the answer of the LLM to the prompt, the limits of the interpreter
    that decodes it, and the clocks. *)
Record World : Type := {
  connected : bool;
  managers : Res (option Managers);
  reply : Res text;
  python : Interpreter;
  now : Z;
  now_jst : Z;
}.

(** The dict that [check_account] fills; [error] is the key that an
    exception adds. *)
Record Checked : Type := {
  account_id : string;
  checked_at : Z;
  campaigns : list CampaignResult;
  alerts : list Alert;
  opportunities : list Opportunity;
  recommendations : JSON;
  error : option Exn;
}.

Inductive AccountResult : Type :=
  | Not_connected                 (* {"error": "Meta API未接続"} *)
  | No_managers                   (* {"error": "マネージャーの初期化に失敗しました"} *)
  | Account (r : Checked).

(** A campaign result that the check does not set aside. *)
Definition kept (c : CampaignResult) : Prop :=
  status (r_judgment c) ≠ "insufficient_data".

(** The loop over the campaigns, from position [i]: the three lists as they
    stand when the loop ends or an analysis raises, with that exception. *)
Fixpoint check_campaigns (analyze : nat → Campaign → Res CampaignResult)
    (i : nat) (listing : list Campaign)
    (cs : list CampaignResult) (al : list Alert) (op : list Opportunity)
    : list CampaignResult * list Alert * list Opportunity * option Exn :=
  match listing with
  | [] => (cs, al, op, None)
  | campaign :: listing =>
    match analyze i campaign with
    | Raise e => (cs, al, op, Some e)
    | Ok campaign_result =>
      let status := status (r_judgment campaign_result) in
      if String.eqb status "insufficient_data" then
        check_campaigns analyze (S i) listing cs al op
      else
        let cs := cs ++ [campaign_result] in
        if String.eqb status "critical" then
          check_campaigns analyze (S i) listing cs
            (al ++ [_format_alert campaign_result]) op
        else if String.eqb status "opportunity" then
          check_campaigns analyze (S i) listing cs al
            (op ++ [_format_opportunity campaign_result])
        else check_campaigns analyze (S i) listing cs al op
    end
  end.

Definition check_account (w : World) (target_manager : option TargetManager)
    (account : string) : AccountResult :=
  if negb (connected w) then Not_connected
  else
    let failed e cs al op :=
      Account {| account_id := account; checked_at := now w; campaigns := cs;
                 alerts := al; opportunities := op;
                 recommendations := JArray []; error := Some e |} in
    match managers w with
    | Raise e => failed e [] [] []
    | Ok None => No_managers
    | Ok (Some m) =>
      match get_campaigns m with
      | Raise e => failed e [] [] []
      | Ok listing =>
        let analyze i campaign :=
          _analyze_campaign (now_jst w) target_manager
            (get_campaign_insights m i) campaign in
        match check_campaigns analyze 0 listing [] [] [] with
        | (cs, al, op, Some e) => failed e cs al op
        | (cs, al, op, None) =>
          Account {| account_id := account; checked_at := now w;
                     campaigns := cs; alerts := al; opportunities := op;
                     recommendations :=
                       if bool_decide (al ≠ []) || bool_decide (op ≠ [])
                       then _generate_recommendations (python w) (reply w)
                       else JArray [];
                     error := None |}
        end
      end
    end.

(** [account_result.get("alerts", [])] and
    [account_result.get("opportunities", [])] *)
Definition alerts_of (r : AccountResult) : list Alert :=
  match r with Account c => alerts c | _ => [] end.
Definition opportunities_of (r : AccountResult) : list Opportunity :=
  match r with Account c => opportunities c | _ => [] end.

(** Templates of the status message of the summary. *)
Inductive StatusMessage : Type :=
  | Urgent (high_alerts : nat)         (* "緊急対応が必要" *)
  | To_confirm (total_alerts : nat)    (* "確認が必要" *)
  | Chances (total_opportunities : nat)
  | All_normal.

Record Overview : Type := {
  ov_status : string;
  ov_status_message : StatusMessage;
  ov_total_alerts : nat;
  ov_high_alerts : nat;
  ov_total_opportunities : nat;
  ov_accounts_checked : nat;
}.

(** [_generate_summary], over the three keys of the results it reads. *)
Definition _generate_summary (accounts : gmap string AccountResult)
    (all_alerts : list Alert) (all_opportunities : list Opportunity)
    : Overview :=
  let total_alerts := length all_alerts in
  let total_opportunities := length all_opportunities in
  let high_alerts :=
    length (filter (λ a, a_severity a = "high") all_alerts) in
  let '(status, status_message) :=
    if (0 <? high_alerts)%nat then ("critical", Urgent high_alerts)
    else if (0 <? total_alerts)%nat then ("warning", To_confirm total_alerts)
    else if (0 <? total_opportunities)%nat then
      ("opportunity", Chances total_opportunities)
    else ("normal", All_normal) in
  {| ov_status := status; ov_status_message := status_message;
     ov_total_alerts := total_alerts; ov_high_alerts := high_alerts;
     ov_total_opportunities := total_opportunities;
     ov_accounts_checked := size accounts |}.

Record Results : Type := {
  res_checked_at : Z;
  res_accounts : gmap string AccountResult;
  res_alerts : list Alert;
  res_opportunities : list Opportunity;
  res_summary : Overview;
}.

(** The loop of [check_all_accounts], from position [i]: [worlds i] is what
    the collaborators answer during the check at position [i].
    [check_account] catches what its collaborators raise, so the handler of
    this loop has nothing to catch. *)
Fixpoint check_accounts (worlds : nat → World)
    (target_manager : option TargetManager) (i : nat)
    (account_ids : list string) (accounts : gmap string AccountResult)
    (al : list Alert) (op : list Opportunity)
    : gmap string AccountResult * list Alert * list Opportunity :=
  match account_ids with
  | [] => (accounts, al, op)
  | account :: account_ids =>
    let account_result := check_account (worlds i) target_manager account in
    check_accounts worlds target_manager (S i) account_ids
      (<[account := account_result]> accounts)
      (al ++ alerts_of account_result)
      (op ++ opportunities_of account_result)
  end.

Definition check_all_accounts (started : Z) (worlds : nat → World)
    (target_manager : option TargetManager) (account_ids : list string)
    : Results :=
  let '(accounts, al, op) :=
    check_accounts worlds target_manager 0 account_ids ∅ [] [] in
  {| res_checked_at := started; res_accounts := accounts; res_alerts := al;
     res_opportunities := op;
     res_summary := _generate_summary accounts al op |}.

(** The check without anything to report. *)
Definition nothing_to_report (w : World) (account : string) : AccountResult :=
  Account {| account_id := account; checked_at := now w; campaigns := [];
             alerts := []; opportunities := []; recommendations := JArray [];
             error := None |}.

(** Two active campaigns of an account whose insight requests all fail. *)
Definition two_campaigns : list Campaign :=
  [{| c_id := Some "c1"; c_name := Some "A";
      c_objective := Some "OUTCOME_SALES"; c_daily_budget := Some 5000%Q;
      c_is_asc := false; c_smart_promotion_type := None |};
   {| c_id := Some "c2"; c_name := Some "B";
      c_objective := Some "OUTCOME_TRAFFIC"; c_daily_budget := None;
      c_is_asc := false; c_smart_promotion_type := None |}].

Definition outage : World :=
  {| connected := true;
     managers := Ok (Some {| get_campaigns := Ok two_campaigns;
                             get_campaign_insights :=
                               λ _ _, Raise CollaboratorError |});
     reply := Raise CollaboratorError; python := cpython; now := 0;
     now_jst := 0 |}.

End AccountCheck.

(** * Verification *)

(** ** Comparisons on numbers *)

Lemma Qltb_lt x y : Qltb x y = true <-> (x < y)%Q.
Proof.
  unfold Qltb. rewrite negb_true_iff, <- not_true_iff_false, Qle_bool_iff.
  split; [apply Qnot_le_lt | apply Qlt_not_le].
Qed.

Lemma Qltb_ge x y : Qltb x y = false <-> (y <= x)%Q.
Proof.
  unfold Qltb. rewrite negb_false_iff. apply Qle_bool_iff.
Qed.

Lemma Qleb_le x y : Qleb x y = true <-> (x <= y)%Q.
Proof. apply Qle_bool_iff. Qed.

Lemma Qeqb_eq x y : Qeqb x y = true <-> (x == y)%Q.
Proof. apply Qeq_bool_iff. Qed.

(** ** Properties of the metric aggregator *)

Section AggregatorFacts.
Import Aggregator.

Lemma pydiv_pos x y : Qltb 0 y = true → pydiv x y = Ok (x / y)%Q.
Proof.
  intros Hy. unfold pydiv.
  destruct (Qeqb y 0) eqn:E; [|reflexivity].
  apply Qeqb_eq in E. apply Qltb_lt in Hy.
  rewrite E in Hy. exfalso. exact (Qlt_irrefl 0 Hy).
Qed.

Lemma item_Some (total : gmap string Q) k v :
  total !! k = Some v → item total k = Ok v.
Proof. unfold item. intros ->. reflexivity. Qed.

Ltac step_tac :=
  eexists; split; [reflexivity|];
  repeat split;
  try (intros; rewrite !lookup_insert_ne by congruence; reflexivity);
  try (rewrite ?lookup_insert_eq, ?lookup_insert_ne by congruence;
       rewrite ?lookup_insert_eq; eauto; congruence);
  try congruence.

Lemma derive_ctr_cpm_ok total i c s :
  total !! "impressions" = Some i → total !! "clicks" = Some c →
  total !! "spend" = Some s →
  step_ok derive_ctr_cpm total "ctr" "cpm" (Qltb 0 i).
Proof.
  intros Hi Hc Hs. unfold step_ok, derive_ctr_cpm.
  rewrite (item_Some _ _ _ Hi). cbn.
  destruct (Qltb 0 i) eqn:G.
  - rewrite (item_Some _ _ _ Hc). cbn. rewrite (pydiv_pos _ _ G). cbn.
    rewrite (item_Some _ "spend" s), (item_Some _ "impressions" i)
      by (rewrite lookup_insert_ne by congruence; assumption).
    cbn. rewrite (pydiv_pos _ _ G). cbn. step_tac.
  - step_tac.
Qed.

Lemma derive_cpc_cvr_ok total c s v :
  total !! "clicks" = Some c → total !! "spend" = Some s →
  total !! "conversions" = Some v →
  step_ok derive_cpc_cvr total "cpc" "cvr" (Qltb 0 c).
Proof.
  intros Hc Hs Hv. unfold step_ok, derive_cpc_cvr.
  rewrite (item_Some _ _ _ Hc). cbn.
  destruct (Qltb 0 c) eqn:G.
  - rewrite (item_Some _ _ _ Hs). cbn. rewrite (pydiv_pos _ _ G). cbn.
    rewrite (item_Some _ "conversions" v), (item_Some _ "clicks" c)
      by (rewrite lookup_insert_ne by congruence; assumption).
    cbn. rewrite (pydiv_pos _ _ G). cbn. step_tac.
  - step_tac.
Qed.

Lemma derive_cpa_ok total s v :
  total !! "spend" = Some s → total !! "conversions" = Some v →
  step_ok derive_cpa total "cpa" "cpa" (Qltb 0 v).
Proof.
  intros Hs Hv. unfold step_ok, derive_cpa.
  rewrite (item_Some _ _ _ Hv). cbn.
  destruct (Qltb 0 v) eqn:G.
  - rewrite (item_Some _ _ _ Hs). cbn. rewrite (pydiv_pos _ _ G). cbn.
    step_tac.
  - step_tac.
Qed.

Lemma derive_roas_ok total s cv :
  total !! "spend" = Some s → total !! "conversion_value" = Some cv →
  step_ok derive_roas total "roas" "roas" (Qltb 0 s && Qltb 0 cv).
Proof.
  intros Hs Hv. unfold step_ok, derive_roas.
  rewrite (item_Some _ _ _ Hs), (item_Some _ _ _ Hv). cbn.
  destruct (Qltb 0 s) eqn:G; cbn; [destruct (Qltb 0 cv) eqn:G'; cbn|].
  - rewrite (pydiv_pos _ _ G). cbn. step_tac.
  - step_tac.
  - step_tac.
Qed.

Lemma derive_cpf_ok total s f :
  total !! "spend" = Some s → total !! "follows" = Some f →
  step_ok derive_cpf total "cpf" "cpf" (Qltb 0 f).
Proof.
  intros Hs Hf. unfold step_ok, derive_cpf.
  rewrite (item_Some _ _ _ Hf). cbn.
  destruct (Qltb 0 f) eqn:G.
  - rewrite (item_Some _ _ _ Hs). cbn. rewrite (pydiv_pos _ _ G). cbn.
    step_tac.
  - step_tac.
Qed.

Lemma totals_lookup insights_list :
  let T := totals insights_list in
  T !! "spend" = Some (sum_float "spend" insights_list)
  ∧ T !! "impressions" = Some (inject_Z (sum_int "impressions" insights_list))
  ∧ T !! "clicks" = Some (inject_Z (sum_int "clicks" insights_list))
  ∧ T !! "conversions" = Some (inject_Z (sum_int "conversions" insights_list))
  ∧ T !! "conversion_value" = Some (sum_float "conversion_value" insights_list)
  ∧ T !! "follows" = Some (inject_Z (sum_int "follows" insights_list)).
Proof.
  unfold totals; cbn zeta.
  repeat split;
    repeat (rewrite lookup_insert_ne by congruence); apply lookup_insert_eq.
Qed.

Lemma Qltb_inject_0 : Qltb 0 (inject_Z 0) = false.
Proof. reflexivity. Qed.

Lemma Qltb_0_Qeq x : (x == 0)%Q → Qltb 0 x = false.
Proof. intros H. apply Qltb_ge. rewrite H. apply Qle_refl. Qed.

Lemma dget_Some (d : gmap string Q) k v dflt :
  d !! k = Some v → dget d k dflt = v.
Proof. unfold dget. intros ->. reflexivity. Qed.

(** C10. [_aggregate_insights] returns on every list of insight records (no
    division raises), it writes every derived metric when the list is not
    empty, and a derived metric whose denominator total is zero reads as 0:
    CTR and CPM for zero impressions, ROAS for zero spend, CPA for zero
    conversions, CPC and CVR for zero clicks. *)
Theorem aggregate_insights_zero_denominators
    (insights_list : list (gmap string Q)) :
  ∃ total, _aggregate_insights insights_list = Ok total
    ∧ (insights_list ≠ [] →
       ∀ k, k ∈ ["ctr"; "cpm"; "cpc"; "cvr"; "cpa"; "roas"; "cpf"] →
            is_Some (total !! k))
    ∧ (sum_int "impressions" insights_list = 0 →
       dget total "ctr" 0 = 0%Q ∧ dget total "cpm" 0 = 0%Q)
    ∧ ((sum_float "spend" insights_list == 0)%Q → dget total "roas" 0 = 0%Q)
    ∧ (sum_int "conversions" insights_list = 0 → dget total "cpa" 0 = 0%Q)
    ∧ (sum_int "clicks" insights_list = 0 →
       dget total "cpc" 0 = 0%Q ∧ dget total "cvr" 0 = 0%Q).
Proof.
  destruct insights_list as [|i l].
  { exists ∅. cbn. repeat split; try reflexivity. intros H; congruence. }
  set (L := i :: l).
  destruct (totals_lookup L) as (Hs & Hi & Hc & Hv & Hcv & Hf).
  destruct (derive_ctr_cpm_ok _ _ _ _ Hi Hc Hs)
    as (T1 & E1 & K1 & P1 & P1' & Z1).
  assert (Hc1 : T1 !! "clicks" = Some (inject_Z (sum_int "clicks" L)))
    by (rewrite K1 by congruence; exact Hc).
  assert (Hs1 : T1 !! "spend" = Some (sum_float "spend" L))
    by (rewrite K1 by congruence; exact Hs).
  assert (Hv1 : T1 !! "conversions" = Some (inject_Z (sum_int "conversions" L)))
    by (rewrite K1 by congruence; exact Hv).
  assert (Hcv1 : T1 !! "conversion_value"
                 = Some (sum_float "conversion_value" L))
    by (rewrite K1 by congruence; exact Hcv).
  assert (Hf1 : T1 !! "follows" = Some (inject_Z (sum_int "follows" L)))
    by (rewrite K1 by congruence; exact Hf).
  destruct (derive_cpc_cvr_ok T1 _ _ _ Hc1 Hs1 Hv1)
    as (T2 & E2 & K2 & P2 & P2' & Z2).
  assert (Hs2 : T2 !! "spend" = Some (sum_float "spend" L))
    by (rewrite K2 by congruence; exact Hs1).
  assert (Hv2 : T2 !! "conversions" = Some (inject_Z (sum_int "conversions" L)))
    by (rewrite K2 by congruence; exact Hv1).
  assert (Hcv2 : T2 !! "conversion_value"
                 = Some (sum_float "conversion_value" L))
    by (rewrite K2 by congruence; exact Hcv1).
  assert (Hf2 : T2 !! "follows" = Some (inject_Z (sum_int "follows" L)))
    by (rewrite K2 by congruence; exact Hf1).
  destruct (derive_cpa_ok T2 _ _ Hs2 Hv2) as (T3 & E3 & K3 & P3 & _ & Z3).
  assert (Hs3 : T3 !! "spend" = Some (sum_float "spend" L))
    by (rewrite K3 by congruence; exact Hs2).
  assert (Hcv3 : T3 !! "conversion_value"
                 = Some (sum_float "conversion_value" L))
    by (rewrite K3 by congruence; exact Hcv2).
  assert (Hf3 : T3 !! "follows" = Some (inject_Z (sum_int "follows" L)))
    by (rewrite K3 by congruence; exact Hf2).
  destruct (derive_roas_ok T3 _ _ Hs3 Hcv3) as (T4 & E4 & K4 & P4 & _ & Z4).
  assert (Hs4 : T4 !! "spend" = Some (sum_float "spend" L))
    by (rewrite K4 by congruence; exact Hs3).
  assert (Hf4 : T4 !! "follows" = Some (inject_Z (sum_int "follows" L)))
    by (rewrite K4 by congruence; exact Hf3).
  destruct (derive_cpf_ok T4 _ _ Hs4 Hf4) as (T5 & E5 & K5 & P5 & _ & Z5).
  assert (Ectr : T5 !! "ctr" = T1 !! "ctr")
    by (rewrite K5, K4, K3, K2 by congruence; reflexivity).
  assert (Ecpm : T5 !! "cpm" = T1 !! "cpm")
    by (rewrite K5, K4, K3, K2 by congruence; reflexivity).
  assert (Ecpc : T5 !! "cpc" = T2 !! "cpc")
    by (rewrite K5, K4, K3 by congruence; reflexivity).
  assert (Ecvr : T5 !! "cvr" = T2 !! "cvr")
    by (rewrite K5, K4, K3 by congruence; reflexivity).
  assert (Ecpa : T5 !! "cpa" = T3 !! "cpa")
    by (rewrite K5, K4 by congruence; reflexivity).
  assert (Eroas : T5 !! "roas" = T4 !! "roas")
    by (rewrite K5 by congruence; reflexivity).
  exists T5. split.
  { change (_aggregate_insights L) with
      (derive_ctr_cpm (totals L) ≫= λ t, derive_cpc_cvr t ≫= λ t,
         derive_cpa t ≫= λ t, derive_roas t ≫= derive_cpf).
    rewrite E1; cbn. rewrite E2; cbn. rewrite E3; cbn. rewrite E4; cbn.
    exact E5. }
  split.
  { intros _ k Hk. repeat (apply elem_of_cons in Hk as [-> | Hk]);
      [rewrite Ectr | rewrite Ecpm | rewrite Ecpc | rewrite Ecvr
      | rewrite Ecpa | rewrite Eroas | | ]; try assumption.
    inversion Hk. }
  split.
  { intros H0. rewrite H0 in Z1. destruct (Z1 Qltb_inject_0) as [A B].
    split; apply dget_Some; congruence. }
  split.
  { intros H0. apply dget_Some. rewrite Eroas. apply Z4.
    rewrite (Qltb_0_Qeq _ H0). reflexivity. }
  split.
  { intros H0. rewrite H0 in Z3. apply dget_Some. rewrite Ecpa.
    apply (Z3 Qltb_inject_0). }
  intros H0. rewrite H0 in Z2. destruct (Z2 Qltb_inject_0) as [A B].
  split; apply dget_Some; congruence.
Qed.

End AggregatorFacts.

(** ** Properties of the judgment engine *)

Section MonitorFacts.
Import Monitor.

Lemma change_vs_pos a b :
  Qltb 0 b = true → change_vs a b = Ok ((a - b) / b * 100)%Q.
Proof. intros H. unfold change_vs. rewrite (pydiv_pos _ _ H). reflexivity. Qed.

Lemma pydiv_nonzero a b : Qeqb b 0 = false → pydiv a b = Ok (a / b)%Q.
Proof. intros H. unfold pydiv. rewrite H. reflexivity. Qed.

(** Case analysis on the guards of a judgment step; every division met on
    the way has a positive (or non-zero) divisor. *)
Ltac guards :=
  repeat match goal with
  | H : (_ && _) = true |- _ => apply andb_prop in H; destruct H
  | H : negb _ = true |- _ => apply negb_true_iff in H
  | H : Qltb 0 ?b = true |- context [change_vs ?a ?b] =>
      rewrite (change_vs_pos a b H); cbn
  | H : Qeqb ?b 0 = false |- context [pydiv ?a ?b] =>
      rewrite (pydiv_nonzero a b H); cbn
  | |- context [if ?c then _ else _] => destruct c eqn:?; cbn
  | |- context [match ?o with Some _ => _ | None => _ end] =>
      destruct o eqn:?; cbn
  end;
  try discriminate; try (eexists; reflexivity).

Lemma judge_cpf_total th targets today avg_7d f :
  ∃ f', judge_cpf th targets today avg_7d f = Ok f'.
Proof. unfold judge_cpf. cbn zeta. guards. Qed.

Lemma judge_roas_total th targets today avg_7d f :
  ∃ f', judge_roas th targets today avg_7d f = Ok f'.
Proof. unfold judge_roas. cbn zeta. guards. Qed.

Lemma judge_cpa_total th targets today yesterday avg_7d f :
  ∃ f', judge_cpa th targets today yesterday avg_7d f = Ok f'.
Proof. unfold judge_cpa. cbn zeta. guards. Qed.

Lemma check_ctr_total today yesterday is_traffic f :
  ∃ f', check_ctr today yesterday is_traffic f = Ok f'.
Proof. unfold check_ctr. cbn zeta. guards. Qed.

Lemma check_cvr_total today yesterday ignore_cv f :
  ∃ f', check_cvr today yesterday ignore_cv f = Ok f'.
Proof. unfold check_cvr. cbn zeta. guards. Qed.

Lemma check_spend_total yesterday avg_7d spend_today f :
  ∃ f', check_spend yesterday avg_7d spend_today f = Ok f'.
Proof. unfold check_spend. cbn zeta. guards. Qed.

Lemma decide_status_rule c w p :
  verdict_rule c w p (decide_status c w p).1.1 (decide_status c w p).1.2.
Proof.
  unfold verdict_rule, decide_status.
  repeat match goal with
  | |- context [(?a <? ?b)%nat] => destruct (Nat.ltb_spec a b)
  end;
  cbn [andb fst snd]; repeat split; intros; try reflexivity; lia.
Qed.

Lemma verdict_follows_rule {B} (bs : B) f :
  let j := verdict bs f in
  verdict_rule (count_severity "critical" (issues j))
               (count_severity "warning" (issues j))
               (length (positives j)) (status j) (severity j)
  ∧ issues j = f_issues f ∧ positives j = f_positives f
  ∧ comparisons j = f_comparisons f.
Proof.
  cbn zeta. unfold verdict.
  pose proof (decide_status_rule (count_severity "critical" (f_issues f))
                (count_severity "warning" (f_issues f))
                (length (f_positives f))) as R.
  destruct (decide_status _ _ _) as [[st sev] sm].
  cbn [issues positives comparisons status severity fst snd] in *.
  split; [exact R|]. repeat split.
Qed.

(** Above the noise floor the judgment is the verdict over findings that
    the steps collected, and every step returns. *)
Lemma judgment_above_floor {B} name objective type_config periods (bs : B)
    targets :
  Qltb (today_spend periods) MIN_DAILY_SPEND = false →
  ∃ f, _make_integrated_judgment name objective type_config periods bs targets
       = Ok (verdict bs f).
Proof.
  intros Hfloor. unfold _make_integrated_judgment. cbn zeta. rewrite Hfloor.
  set (f0 := {| f_issues := []; f_positives := []; f_comparisons := [] |}).
  set (today := default ∅ (periods !! "today")).
  set (yesterday := default ∅ (periods !! "yesterday")).
  set (avg_7d := default ∅ (periods !! "last_7d")).
  assert (H1 : ∃ f1,
    (if String.eqb (primary_kpi type_config) "cpf"
     then judge_cpf (thresholds type_config) targets today avg_7d f0
     else if String.eqb (primary_kpi type_config) "roas"
     then judge_roas (thresholds type_config) targets today avg_7d f0
     else if String.eqb (primary_kpi type_config) "cpa"
     then judge_cpa (thresholds type_config) targets today yesterday avg_7d f0
     else Ok f0) = Ok f1).
  { destruct (String.eqb _ "cpf"); [apply judge_cpf_total|].
    destruct (String.eqb _ "roas"); [apply judge_roas_total|].
    destruct (String.eqb _ "cpa"); [apply judge_cpa_total|].
    eexists; reflexivity. }
  destruct H1 as [f1 ->]. cbn.
  destruct (check_ctr_total today yesterday
              (default false (is_traffic_campaign type_config)) f1) as [f2 ->].
  cbn.
  destruct (check_cvr_total today yesterday
              (default false (ignore_conversions type_config)) f2) as [f3 ->].
  cbn.
  destruct (check_spend_total yesterday avg_7d (today_spend periods) f3)
    as [f4 ->].
  cbn. exists f4. reflexivity.
Qed.



(** C3. When today's spend is strictly below 1000 (a missing period or a
    missing spend counts as 0) the judgment is insufficient_data with no
    issue, no positive and no comparison, whatever the campaign type, the
    other periods, the other metrics and the targets are. *)
Theorem noise_floor_insufficient_data {B} name objective type_config periods
    (bs : B) targets :
  (today_spend periods < 1000)%Q →
  ∃ j, _make_integrated_judgment name objective type_config periods bs targets
       = Ok j
    ∧ status j = "insufficient_data" ∧ severity j = "none"
    ∧ issues j = [] ∧ positives j = [] ∧ comparisons j = []
    ∧ budget_status j = None.
Proof.
  intros Hspend. apply Qltb_lt in Hspend.
  unfold _make_integrated_judgment. cbn zeta.
  change MIN_DAILY_SPEND with 1000%Q. rewrite Hspend.
  eexists; split; [reflexivity|]. cbn. repeat split.
Qed.

Lemma noise_floor_insufficient_data_witness :
  (today_spend low_spend_periods < 1000)%Q
  ∧ ∃ j, _make_integrated_judgment "c" "OUTCOME_TRAFFIC"
           (traffic_config "t" []) low_spend_periods tt scenario_targets = Ok j
      ∧ status j = "insufficient_data" ∧ severity j = "none"
      ∧ issues j = [] ∧ positives j = [] ∧ comparisons j = []
      ∧ budget_status j = None.
Proof.
  split; [apply Qltb_lt; reflexivity|].
  apply (noise_floor_insufficient_data "c" "OUTCOME_TRAFFIC"
           (traffic_config "t" []) low_spend_periods tt scenario_targets).
  apply Qltb_lt; reflexivity.
Defined.

Lemma verdict_comparisons {B} (bs : B) f :
  comparisons (verdict bs f) = f_comparisons f.
Proof. apply (verdict_follows_rule bs f). Qed.

Lemma Qltb_pos_nonzero x : Qltb 0 x = true → Qeqb x 0 = false.
Proof.
  intros H. apply Qltb_lt in H. apply not_true_iff_false. intros E.
  apply Qeqb_eq in E. rewrite E in H. exact (Qlt_irrefl 0 H).
Qed.

(** The spend comparisons leave issues and positives alone and only append
    comparisons of the spend metric. *)
Lemma check_spend_appends yesterday avg_7d spend_today f :
  ∃ cs, check_spend yesterday avg_7d spend_today f
        = Ok {| f_issues := f_issues f; f_positives := f_positives f;
                f_comparisons := f_comparisons f ++ cs |}
    ∧ Forall (λ c, metric c = "消化") cs.
Proof.
  unfold check_spend. cbn zeta.
  destruct (Qltb 0 (dget yesterday "spend" 0) && Qltb 0 spend_today) eqn:E1;
    destruct (Qltb 0 (dget avg_7d "spend" 0) && Qltb 0 spend_today) eqn:E2;
    repeat match goal with
    | H : (_ && _) = true |- _ => apply andb_prop in H; destruct H
    | H : Qltb 0 ?b = true |- context [change_vs ?a ?b] =>
        rewrite (change_vs_pos a b H)
    end; cbn; unfold add_comparison; cbn.
  - eexists [_; _]. rewrite <- app_assoc. split; [reflexivity|].
    repeat constructor.
  - eexists [_]. split; [reflexivity|]. repeat constructor.
  - eexists [_]. split; [reflexivity|]. repeat constructor.
  - exists []. rewrite app_nil_r. destruct f. split; [reflexivity|constructor].
Qed.

(** The CPF branch on the traffic scenario. *)
Lemma judge_cpf_traffic_scenario targets avg_7d f :
  targets !! "target_cpf" = Some 50%Q →
  judge_cpf cpf_thresholds targets traffic_today avg_7d f
  = Ok (let f := add_positive (Follows_today 80) f in
        if Qltb 0 (dget avg_7d "cpf" 0)
        then add_comparison (cpf_comparison (125 # 2) (dget avg_7d "cpf" 0)) f
        else f).
Proof.
  intros Htarget. unfold judge_cpf.
  rewrite (dget_Some targets "target_cpf" 50 _ Htarget).
  change (dget traffic_today "cpf" 0) with (125 # 2)%Q.
  change (dget traffic_today "follows" 0) with 80%Q.
  change (dget cpf_thresholds "cpf_critical" 200) with 200%Q.
  change (dget cpf_thresholds "cpf_warning" 100) with 100%Q.
  cbn zeta.
  change (Qltb 0 80) with true.
  change (negb (Qeqb (125 # 2) 0) && Qltb 0 (125 # 2)) with true.
  change (Qleb (125 # 2) 50) with false.
  change (Qltb 200 (125 # 2)) with false.
  change (Qltb 100 (125 # 2)) with false.
  cbn match.
  destruct (Qltb 0 (dget avg_7d "cpf" 0)) eqn:E.
  - rewrite (Qltb_pos_nonzero _ E). cbn [negb andb].
    rewrite (change_vs_pos _ _ E). reflexivity.
  - rewrite andb_false_r. reflexivity.
Qed.

Lemma check_ctr_no_today_ctr yesterday is_traffic f :
  check_ctr traffic_today yesterday is_traffic f = Ok f.
Proof.
  unfold check_ctr. change (dget traffic_today "ctr" 0) with 0%Q.
  change (Qltb 0 0) with false. rewrite andb_false_r. reflexivity.
Qed.

Lemma filter_cpf_spend (cs : list Comparison) :
  Forall (λ c, metric c = "消化") cs →
  filter (λ c, metric c = "CPF") cs = [].
Proof.
  induction 1 as [|c cs Hc _ IH]; [reflexivity|].
  rewrite filter_cons_False; [exact IH|]. rewrite Hc. discriminate.
Qed.

(** C8, as the code has it. For an OUTCOME_TRAFFIC campaign with today =
    {spend: 5000, follows: 80, cpf: 62.5} and target cpf 50, whatever the
    other periods hold: the judgment is returned with no issue at all (62.5
    is above the target 50 but not above the warning threshold 100), its only
    positive is today's follows, its status is opportunity, and its CPF
    comparisons are the one entry against the 7-day average when that average
    is positive, and none otherwise. *)
Theorem traffic_scenario_judgment {B} name periods (bs : B) targets :
  periods !! "today" = Some traffic_today →
  targets !! "target_cpf" = Some 50%Q →
  let cpf_7d := dget (default ∅ (periods !! "last_7d")) "cpf" 0 in
  ∃ j, judge_campaign name "OUTCOME_TRAFFIC" false None periods bs targets = Ok j
    ∧ issues j = []
    ∧ positives j = [Follows_today 80]
    ∧ status j = "opportunity" ∧ severity j = "none"
    ∧ filter (λ c, metric c = "CPF") (comparisons j)
      = if Qltb 0 cpf_7d then [cpf_comparison (125 # 2) cpf_7d] else [].
Proof.
  intros Htoday Htarget cpf_7d.
  unfold judge_campaign.
  assert (Hsel : select_type_config "OUTCOME_TRAFFIC" false None
                 = Ok ("OUTCOME_TRAFFIC",
                       traffic_config "トラフィック/フォロー獲得"
                         ["follows"; "cpc"]))
    by (vm_compute; reflexivity).
  rewrite Hsel. cbn [mbind Res_bind].
  unfold _make_integrated_judgment, today_spend. rewrite Htoday.
  change (default ∅ (Some traffic_today)) with traffic_today.
  change (Qltb (dget traffic_today "spend" 0) MIN_DAILY_SPEND) with false.
  cbv beta iota zeta
      delta [primary_kpi thresholds is_traffic_campaign ignore_conversions
             traffic_config].
  change (String.eqb "cpf" "cpf") with true.
  change (default false (Some true)) with true.
  cbv iota.
  rewrite (judge_cpf_traffic_scenario targets _ _ Htarget).
  fold cpf_7d. cbn [mbind Res_bind]. rewrite check_ctr_no_today_ctr.
  cbn [mbind Res_bind]. unfold check_cvr. cbn [negb mbind Res_bind].
  match goal with
  | |- context [check_spend ?y ?a ?s ?f] =>
      destruct (check_spend_appends y a s f) as (cs & -> & Hcs)
  end.
  cbn [mbind Res_bind].
  eexists; split; [reflexivity|].
  pose proof (filter_cpf_spend cs Hcs) as Hnone.
  destruct (Qltb 0 cpf_7d);
    (split; [reflexivity|]); (split; [reflexivity|]);
    (split; [reflexivity|]); (split; [reflexivity|]);
    rewrite verdict_comparisons; cbn [f_comparisons add_comparison add_positive];
    rewrite filter_app, Hnone, app_nil_r; reflexivity.
Qed.

Lemma traffic_scenario_judgment_witness :
  ∃ j, judge_campaign "c" "OUTCOME_TRAFFIC" false None scenario_periods tt
         scenario_targets = Ok j
    ∧ issues j = []
    ∧ positives j = [Follows_today 80]
    ∧ status j = "opportunity" ∧ severity j = "none"
    ∧ filter (λ c, metric c = "CPF") (comparisons j)
      = [cpf_comparison (125 # 2) 50].
Proof.
  exact (traffic_scenario_judgment "c" scenario_periods tt scenario_targets
           eq_refl eq_refl).
Defined.

(** C8, the claim as stated fails: on the scenario (with a 7-day average cpf
    of 50) the judgment holds no warning issue, where the claim expects
    exactly one of the CPF caution class. *)
Lemma traffic_scenario_no_warning :
  ∃ j, judge_campaign "c" "OUTCOME_TRAFFIC" false None scenario_periods tt
         scenario_targets = Ok j
    ∧ count_severity "warning" (issues j) = 0%nat
    ∧ issues j = [].
Proof. eexists. split; [vm_compute; reflexivity|]. split; reflexivity. Qed.

End MonitorFacts.

(** ** Properties of the outcome learner *)

Section LearningFacts.
Import Learning.
Context (P : Platform) (now : Z).

Lemma from_elapsed_cons r l res : from_elapsed P now l res → from_elapsed P now (r :: l) res.
Proof.
  intros (r' & cs & Hin & Hle & He). exists r', cs.
  split; [right; exact Hin | split; assumption].
Qed.

(** The loop keeps, in order, exactly the records that have not elapsed, and
    appends to the learned history only results of elapsed records. *)
Lemma analyze_loop_spec (l : list LearningRecord) :
  ∀ s, let s' := foldl (analyze_step P now) s l in
    ls_still_pending s'
    = ls_still_pending s ++ filter (λ r, (now < analyze_after r)%Z) l
    ∧ ∃ new, ls_learnings s' = ls_learnings s ++ new
           ∧ ls_analyzed s' = ls_analyzed s ++ new
           ∧ Forall (from_elapsed P now l) new.
Proof.
  induction l as [|r l IH]; intros s; cbn zeta.
  { cbn. rewrite app_nil_r. split; [reflexivity|].
    exists []. rewrite !app_nil_r. repeat split. constructor. }
  cbn [foldl].
  destruct (IH (analyze_step P now s r)) as (Hp & new & Hl & Ha & Hn).
  rewrite Hp, Hl, Ha. clear Hp Hl Ha IH.
  unfold analyze_step.
  destruct (now >=? analyze_after r)%Z eqn:E.
  - apply Z.geb_le in E.
    rewrite filter_cons_False by lia.
    destruct (_analyze_action_effect P now r (ls_calls s)) as [[res|] cs] eqn:Ea;
      cbn [ls_still_pending ls_learnings ls_analyzed].
    + split; [reflexivity|]. exists (res :: new).
      rewrite <- !app_assoc. repeat split.
      constructor.
      * exists r, (ls_calls s). rewrite Ea.
        split; [left|split; [exact E|reflexivity]].
      * eapply Forall_impl; [exact Hn|]. intros x. apply from_elapsed_cons.
    + split; [reflexivity|]. exists new. repeat split.
      eapply Forall_impl; [exact Hn|]. intros x. apply from_elapsed_cons.
  - assert (now < analyze_after r)%Z as Hlt.
    { destruct (Z.geb_spec now (analyze_after r)); [discriminate|lia]. }
    rewrite filter_cons_True by exact Hlt.
    cbn [ls_still_pending ls_learnings ls_analyzed].
    rewrite <- app_assoc. split; [reflexivity|]. exists new. repeat split.
    eapply Forall_impl; [exact Hn|]. intros x. apply from_elapsed_cons.
Qed.

(** With the platform connected, the pending list afterwards is the list of
    the records that have not elapsed: an elapsed record leaves the pending
    list whether or not its analysis produced a result. *)
Lemma analyze_pending_connected calls L :
  meta_connected P = true →
  pending (analyze_pending_actions P now calls L).1.2
  = filter (λ r, (now < analyze_after r)%Z) (pending L)
  ∧ learnings (analyze_pending_actions P now calls L).1.2
    = learnings L ++ (analyze_pending_actions P now calls L).1.1
  ∧ Forall (from_elapsed P now (pending L))
           (analyze_pending_actions P now calls L).1.1.
Proof.
  intros Hc. unfold analyze_pending_actions. rewrite Hc. cbn [negb fst snd].
  destruct (analyze_loop_spec (pending L)
              {| ls_learnings := learnings L; ls_analyzed := [];
                 ls_still_pending := []; ls_calls := calls |})
    as (Hp & new & Hl & Ha & Hn).
  cbn [ls_learnings ls_analyzed ls_still_pending] in *.
  cbn [pending learnings]. rewrite Hp, Hl, Ha. cbn [app].
  repeat split. exact Hn.
Qed.

(** C7. A pending record whose [analyze_after] lies after [now] is still in
    the pending list after [analyze_pending_actions], and everything the call
    adds to the learned history (which is what it returns) is the analysis of
    a pending record whose [analyze_after] had elapsed. *)
Theorem analyze_pending_respects_delay calls L r :
  r ∈ pending L → (now < analyze_after r)%Z →
  r ∈ pending (analyze_pending_actions P now calls L).1.2
  ∧ learnings (analyze_pending_actions P now calls L).1.2
    = learnings L ++ (analyze_pending_actions P now calls L).1.1
  ∧ ∀ res, res ∈ (analyze_pending_actions P now calls L).1.1 →
      ∃ r' cs, r' ∈ pending L ∧ (analyze_after r' <= now)%Z ∧ r' ≠ r
               ∧ (_analyze_action_effect P now r' cs).1 = Some res.
Proof.
  intros Hin Hlt.
  destruct (meta_connected P) eqn:Hc.
  - destruct (analyze_pending_connected calls L Hc) as (Hp & Hl & Hn).
    split; [|split].
    + rewrite Hp. apply list_elem_of_filter. split; assumption.
    + exact Hl.
    + intros res Hres. rewrite Forall_forall in Hn.
      destruct (Hn res Hres) as (r' & cs & Hr' & Hle & He).
      exists r', cs. repeat split; try assumption. intros ->. lia.
  - unfold analyze_pending_actions. rewrite Hc. cbn [negb fst snd].
    split; [exact Hin|]. split; [rewrite app_nil_r; reflexivity|].
    intros res Hres. inversion Hres.
Qed.

End LearningFacts.

Section LearningScenarios.
Import Learning.

Lemma analyze_pending_respects_delay_witness :
  sample_record ∈ pending sample_learner
  ∧ (3600 < analyze_after sample_record)%Z
  ∧ sample_record
    ∈ pending (analyze_pending_actions no_insights_platform 3600 []
                 sample_learner).1.2.
Proof.
  split; [left|]. split; [reflexivity|].
  apply (analyze_pending_respects_delay no_insights_platform 3600 []
           sample_learner sample_record); [left|reflexivity].
Defined.

(** C4, the code at the failing input: one pending record whose 24 hours
    have elapsed, a connected platform whose insight fetch fails. After
    [analyze_pending_actions] the record is in neither list. *)
Lemma analyze_pending_loses_failed_record :
  (analyze_after sample_record <= 90000)%Z
  ∧ _analyze_action_effect no_insights_platform 90000 sample_record [] =
    (None, [Get_managers (Some "a1"); Get_campaign_insights (Some "c1")])
  ∧ (analyze_pending_actions no_insights_platform 90000 [] sample_learner).1
    = ([], {| learnings := []; pending := [] |}).
Proof. split; [discriminate|]. split; reflexivity. Qed.

End LearningScenarios.

(** ** Properties of the action queue and executor *)

Section ActionsFacts.
Import Actions.
Context (P : Platform).

Lemma type_is_true a s : action_type a = Some s → type_is a s = true.
Proof. intros H. unfold type_is. apply bool_decide_eq_true. exact H. Qed.

(** C1. Outside notify_only mode, [execute] on a budget_increase action whose
    increase_percent is above 20 or whose new_budget is above 500000 returns
    success = False with the reason of the failed safety check, and leaves
    the whole state as it was: the call log is unchanged, so no call reaches
    the ad platform. *)
Theorem execute_refuses_unsafe_increase record_id now a st :
  mode st ≠ "notify_only" →
  action_type a = Some "budget_increase" →
  (∃ p, increase_percent (params a) = Some p ∧ (20 < p)%Q)
  ∨ (∃ b, new_budget (params a) = Some b ∧ (500000 < b)%Q) →
  ∃ r why, execute P record_id now a st = (Ok r, st)
    ∧ success r = false ∧ executed r = Some false
    ∧ message r = Some (Safety_check_failed why)
    ∧ _safety_check a = {| passed := false; reason := Some why |}
    ∧ calls (execute P record_id now a st).2 = calls st.
Proof.
  intros Hmode Htype Hbound.
  assert (Hcheck : ∃ why,
            _safety_check a = {| passed := false; reason := Some why |}).
  { unfold _safety_check. rewrite (type_is_true _ _ Htype).
    cbn [max_budget_increase_percent max_daily_budget safety_limits].
    destruct (Qltb 20 (default 0%Q (increase_percent (params a)))) eqn:E1;
      [eexists; reflexivity|].
    destruct (Qltb 500000 (default 0%Q (new_budget (params a)))) eqn:E2;
      [eexists; reflexivity|].
    exfalso. destruct Hbound as [(p & Hp & Hlt) | (b & Hb & Hlt)].
    - rewrite Hp in E1. cbn in E1. apply Qltb_lt in Hlt. congruence.
    - rewrite Hb in E2. cbn in E2. apply Qltb_lt in Hlt. congruence. }
  destruct Hcheck as [why Hwhy].
  assert (Hrun : execute P record_id now a st
                 = (Ok {| success := false; executed := Some false;
                          mode_note := None;
                          message := Some (Safety_check_failed why);
                          error := None; result_action := Some a |}, st)).
  { unfold execute, get_mode, mbind, M_bind. cbn beta iota.
    apply String.eqb_neq in Hmode. rewrite Hmode, Hwhy. reflexivity. }
  eexists _, why. rewrite Hrun. repeat split; assumption.
Qed.

(** *** The queue *)

Lemma take_first_None i l : take_first i l = None ↔ i ∉ map id l.
Proof.
  induction l as [|a l IH]; cbn.
  - split; [intros _ H; inversion H|reflexivity].
  - destruct (String.eqb_spec (id a) i) as [E|E].
    + split; [discriminate|]. intros H. exfalso. apply H. rewrite E. left.
    + destruct (take_first i l) as [[found rest]|].
      * split; [discriminate|]. intros H. exfalso.
        apply (proj1 (not_elem_of_cons _ _ _)) in H. destruct H as [_ H].
        apply IH in H. discriminate.
      * split; [|reflexivity]. intros _.
        apply not_elem_of_cons. split; [congruence|]. apply IH. reflexivity.
Qed.

Lemma take_first_Some i l a rest :
  take_first i l = Some (a, rest) →
  id a = i ∧ ∃ l1 l2, l = l1 ++ a :: l2 ∧ rest = l1 ++ l2.
Proof.
  revert rest. induction l as [|b l IH]; intros rest; cbn; [discriminate|].
  destruct (String.eqb_spec (id b) i) as [E|E].
  - intros [= -> ->]. split; [exact E|]. exists [], rest. split; reflexivity.
  - destruct (take_first i l) as [[found rest']|]; [|discriminate].
    intros [= -> <-]. destruct (IH rest' eq_refl) as (Hid & l1 & l2 & -> & ->).
    split; [exact Hid|]. exists (b :: l1), l2. split; reflexivity.
Qed.

Lemma history_ids_app h1 h2 :
  history_ids (h1 ++ h2) = history_ids h1 ++ history_ids h2.
Proof.
  induction h1 as [|[a|a r t] h1 IH]; cbn; [reflexivity| |exact IH].
  rewrite IH. reflexivity.
Qed.

Lemma elem_of_history_ids i h :
  i ∈ history_ids h ↔ ∃ a, Queued a ∈ h ∧ id a = i.
Proof.
  induction h as [|[b|a' r' t'] h IH]; cbn.
  - split; [intros H; inversion H|intros (a & H & _); inversion H].
  - rewrite elem_of_cons, IH. split.
    + intros [->|(a & Ha & Hi)].
      * exists b. split; [left|reflexivity].
      * exists a. split; [right; exact Ha|exact Hi].
    + intros (a & Ha & Hi). apply elem_of_cons in Ha as [[= <-]|Ha].
      * left. symmetry. exact Hi.
      * right. exists a. split; assumption.
  - rewrite IH. split; intros (a & Ha & Hi); exists a; (split; [|exact Hi]).
    + right. exact Ha.
    + apply elem_of_cons in Ha as [Ha|Ha]; [discriminate|exact Ha].
Qed.

(** After an approval the new entry is the only one with its id, so
    [mark_executed] either patches that entry or stops with [KeyError] at a
    direct-execution entry before it. *)
Lemma mark_first_new_entry i r t h a :
  id a = i → i ∉ history_ids h →
  mark_first i r t (h ++ [Queued a]) = Ok (h ++ [Queued (set_executed t r a)])
  ∨ mark_first i r t (h ++ [Queued a]) = Raise KeyError.
Proof.
  intros Hid. induction h as [|[b|a' r' t'] h IH]; cbn; intros Hni.
  - left. rewrite (proj2 (String.eqb_eq _ _) Hid). reflexivity.
  - apply not_elem_of_cons in Hni as [Hne Hni].
    destruct (String.eqb_spec (id b) i) as [E|E]; [congruence|].
    destruct (IH Hni) as [-> | ->]; [left|right]; reflexivity.
  - right. reflexivity.
Qed.

(** *** What the executor's computations leave alone *)

Lemma keeps_ret {A} (a : A) : keeps_queue (mret a).
Proof. intros st. split; reflexivity. Qed.

Lemma keeps_raise {A} e : keeps_queue (@raise A e).
Proof. intros st. split; reflexivity. Qed.

Lemma keeps_bind {A B} (m : M A) (f : A → M B) :
  keeps_queue m → (∀ a, keeps_queue (f a)) → keeps_queue (m ≫= f).
Proof.
  intros Hm Hf st. unfold mbind, M_bind. specialize (Hm st).
  destruct (m st) as [[a|e] st1]; cbn [snd] in *; [|exact Hm].
  destruct (Hf a st1) as [H1 H2]. destruct Hm as [H3 H4].
  split; congruence.
Qed.

Lemma keeps_try {A} (m : M A) (h : Exn → M A) :
  keeps_queue m → (∀ e, keeps_queue (h e)) → keeps_queue (try_except m h).
Proof.
  intros Hm Hh st. unfold try_except. specialize (Hm st).
  destruct (m st) as [[a|e] st1]; cbn [snd] in *; [exact Hm|].
  destruct (Hh e st1) as [H1 H2]. destruct Hm as [H3 H4].
  split; congruence.
Qed.

Lemma keeps_collaborate {A} c (answer : list Call → Res A) :
  keeps_queue (collaborate c answer).
Proof. intros st. split; reflexivity. Qed.

Lemma keeps_with_learner f : keeps_queue (with_learner f).
Proof. intros st. split; reflexivity. Qed.

Lemma keeps_get_mode : keeps_queue get_mode.
Proof. intros st. split; reflexivity. Qed.

Lemma keeps_if {A} (b : bool) (m1 m2 : M A) :
  keeps_queue m1 → keeps_queue m2 → keeps_queue (if b then m1 else m2).
Proof. destruct b; auto. Qed.

Create HintDb keeps.
#[local] Hint Resolve keeps_ret keeps_raise keeps_collaborate
  keeps_with_learner keeps_get_mode : keeps.

Ltac keeps :=
  repeat first
    [ apply keeps_if
    | apply keeps_bind; [|intros ?]
    | apply keeps_try; [|intros ?]
    | solve [auto with keeps]
    | match goal with
      | |- keeps_queue (match ?x with _ => _ end) => destruct x
      end ].

Lemma keeps_fetch_baseline c : keeps_queue (fetch_baseline P c).
Proof. unfold fetch_baseline. keeps. Qed.

Lemma keeps_execute_budget_change record_id now a inc :
  keeps_queue (_execute_budget_change P record_id now a inc).
Proof.
  unfold _execute_budget_change. pose proof keeps_fetch_baseline. keeps.
Qed.

Lemma keeps_execute_status_change a s :
  keeps_queue (_execute_status_change P a s).
Proof. unfold _execute_status_change. keeps. Qed.

Lemma keeps_execute record_id now a : keeps_queue (execute P record_id now a).
Proof.
  unfold execute.
  pose proof keeps_execute_budget_change.
  pose proof keeps_execute_status_change. keeps.
Qed.

(** *** One call as a step of the queue *)

Lemma NoDup_pending_not_in_history q i a rest :
  NoDup (queue_ids q) → take_first i (pending q) = Some (a, rest) →
  i ∉ history_ids (history q).
Proof.
  unfold queue_ids. intros Hnd Htake Hin.
  destruct (take_first_Some _ _ _ _ Htake) as (Hid & l1 & l2 & Hl & _).
  apply NoDup_app in Hnd as (_ & Hdisj & _).
  apply (Hdisj i); [|exact Hin].
  rewrite Hl, map_app. cbn. rewrite Hid.
  apply elem_of_app. right. left.
Qed.

Lemma approve_action_step record_id t i st :
  NoDup (queue_ids (queue st)) →
  queue_step (queue st) (queue (approve_action P record_id t i st).2).
Proof.
  intros Hnd. unfold approve_action, mbind, M_bind, queue_approve, approve.
  destruct (take_first i (pending (queue st))) as [[a rest]|] eqn:Htake;
    cbn beta iota zeta; [|apply qs_same].
  set (st1 := {| mode := mode st;
                 queue := {| pending := rest;
                             history := history (queue st)
                                        ++ [Queued (mark_approved t a)] |};
                 learner := learner st; calls := calls st |}).
  destruct (keeps_execute record_id t (action (mark_approved t a)) st1)
    as [Hq _].
  destruct (execute P record_id t (action (mark_approved t a)) st1)
    as [[r|e] st2]; cbn [snd] in *.
  - unfold queue_mark_executed, mark_executed, mbind, Res_bind.
    rewrite Hq. cbn [history pending queue st1].
    destruct (mark_first_new_entry i r t (history (queue st))
                (mark_approved t a)) as [-> | ->].
    + apply (take_first_Some _ _ _ _ Htake).
    + exact (NoDup_pending_not_in_history _ _ _ _ Hnd Htake).
    + cbn. apply (qs_move i a rest _ _ Htake). right. right. eauto.
    + cbn. rewrite Hq. apply (qs_move i a rest _ _ Htake). right. left. eauto.
  - rewrite Hq. apply (qs_move i a rest _ _ Htake). right. left. eauto.
Qed.

Lemma reject_action_step why t i st :
  queue_step (queue st) (queue (reject_action i why t st).2).
Proof.
  unfold reject_action, mbind, M_bind, queue_reject, reject.
  destruct (take_first i (pending (queue st))) as [[a rest]|] eqn:Htake;
    cbn; [|apply qs_same].
  apply (qs_move i a rest _ _ Htake). left. eauto.
Qed.

Lemma direct_budget_step record_id t c b a st :
  queue_step (queue st)
    (queue (execute_budget_change_direct P record_id t c b a st).2).
Proof.
  unfold execute_budget_change_direct.
  destruct (negb (passed (_safety_check (direct_budget_action c a b))));
    [apply qs_same|].
  unfold mbind, M_bind.
  destruct (keeps_execute_budget_change record_id t
              (direct_budget_action c a b) true st) as [Hq _].
  destruct (_execute_budget_change P record_id t
              (direct_budget_action c a b) true st) as [[r|e] st1];
    cbn [snd] in *; rewrite <- Hq; [|apply qs_same].
  cbn. apply qs_direct.
Qed.

Lemma direct_status_step t c s a st :
  queue_step (queue st)
    (queue (execute_status_change_direct P t c s a st).2).
Proof.
  unfold execute_status_change_direct, mbind, M_bind.
  destruct (keeps_execute_status_change (direct_status_action c a s) s st)
    as [Hq _].
  destruct (_execute_status_change P (direct_status_action c a s) s st)
    as [[r|e] st1]; cbn [snd] in *; rewrite <- Hq; [|apply qs_same].
  cbn. apply qs_direct.
Qed.

Lemma run_op_step t op st :
  NoDup (queue_ids (queue st)) →
  match op with
  | Propose i _ => i ∉ queue_ids (queue st)
  | _ => True
  end →
  queue_step (queue st) (queue (run_op P t op st)).
Proof.
  intros Hnd Hfresh. destruct op; cbn [run_op].
  - unfold propose_action. cbn. apply (qs_propose _ _ _ _ Hfresh).
  - apply approve_action_step. exact Hnd.
  - apply reject_action_step.
  - apply direct_budget_step.
  - apply direct_status_step.
  - apply qs_same.
  - apply qs_clear.
Qed.

(** *** Invariants of the queue *)

Lemma moved_id a x : moved a x → id x = id a.
Proof.
  intros [(t & why & ->) | [(t & ->) | (t & t' & r & ->)]]; reflexivity.
Qed.

Lemma moved_entry_ok a x :
  pending_entry_ok a → moved a x → history_entry_ok (Queued x).
Proof.
  intros (Hs & Hap & Hrj & Hex & Hres).
  intros [(t & why & ->) | [(t & ->) | (t & t' & r & ->)]]; cbn.
  - right. left. repeat split; eauto.
  - left. repeat split; eauto.
  - right. right. repeat split; eauto.
Qed.

Lemma wf_step q q' : wf q → queue_step q q' → wf q'.
Proof.
  intros (Hnd & Hp & Hh) Hstep. destruct Hstep as
    [q | i t a q Hfresh | i a rest x q Htake Hmoved | a r t q | q].
  - repeat split; assumption.
  - unfold wf, queue_ids, add_action. cbn [snd pending history].
    split; [|split]; [| |exact Hh].
    + rewrite map_app. cbn [map]. rewrite <- app_assoc. cbn [app].
      rewrite <- Permutation_middle. constructor; assumption.
    + apply Forall_app. split; [exact Hp|].
      constructor; [|constructor]. repeat split.
  - destruct (take_first_Some _ _ _ _ Htake) as (Hid & l1 & l2 & Hl & ->).
    unfold wf, queue_ids in *. cbn [pending history]. rewrite Hl in Hnd, Hp.
    apply Forall_app in Hp as [Hp1 Hp2]. apply Forall_cons in Hp2 as [Hpa Hp2].
    split; [|split].
    + rewrite history_ids_app. cbn [history_ids]. rewrite (moved_id _ _ Hmoved).
      rewrite map_app in *. cbn [map] in Hnd.
      rewrite app_assoc, <- Permutation_cons_append.
      rewrite <- Permutation_middle in Hnd. exact Hnd.
    + apply Forall_app. split; assumption.
    + apply Forall_app. split; [exact Hh|].
      constructor; [|constructor]. exact (moved_entry_ok _ _ Hpa Hmoved).
  - unfold wf, queue_ids, add_to_history in *. cbn [pending history].
    split; [|split]; [|exact Hp|].
    + rewrite history_ids_app. cbn. rewrite app_nil_r. exact Hnd.
    + apply Forall_app. split; [exact Hh|]. constructor; [exact I|constructor].
  - unfold wf, queue_ids, clear_pending in *. cbn [pending history map app].
    split; [|split]; [|constructor|exact Hh].
    apply NoDup_app in Hnd as (_ & _ & Hnd). exact Hnd.
Qed.

Lemma rejected_step i q q' :
  rejected_for_good i q → queue_step q q' → rejected_for_good i q'.
Proof.
  intros (Hnp & Hin & Hrej) Hstep. destruct Hstep as
    [q | i' t a q Hfresh | i' a rest x q Htake Hmoved | a r t q | q].
  - exact (conj Hnp (conj Hin Hrej)).
  - unfold rejected_for_good, add_action. cbn [snd pending history].
    split; [|split]; [|exact Hin|exact Hrej].
    rewrite map_app. cbn [map]. intros Hi.
    apply elem_of_app in Hi as [Hi|Hi]; [exact (Hnp Hi)|].
    apply list_elem_of_singleton in Hi. cbn in Hi. rewrite <- Hi in Hfresh.
    apply Hfresh. unfold queue_ids. apply elem_of_app. right. exact Hin.
  - destruct (take_first_Some _ _ _ _ Htake) as (Hid & l1 & l2 & Hl & ->).
    assert (i' ≠ i) as Hne.
    { intros ->. apply Hnp. rewrite Hl, map_app. cbn [map]. rewrite Hid.
      apply elem_of_app. right. left. }
    unfold rejected_for_good. cbn [pending history].
    split; [|split].
    + intros Hi. apply Hnp. rewrite Hl. rewrite map_app in *. cbn [map].
      apply elem_of_app in Hi as [Hi|Hi]; apply elem_of_app;
        [left|right; right]; exact Hi.
    + rewrite history_ids_app. apply elem_of_app. left. exact Hin.
    + intros a0 Ha0 Hi0. apply elem_of_app in Ha0 as [Ha0|Ha0].
      * exact (Hrej a0 Ha0 Hi0).
      * apply list_elem_of_singleton in Ha0. injection Ha0 as ->.
        rewrite (moved_id _ _ Hmoved) in Hi0. congruence.
  - unfold rejected_for_good, add_to_history. cbn [pending history].
    split; [exact Hnp|]. split.
    + rewrite history_ids_app. apply elem_of_app. left. exact Hin.
    + intros a0 Ha0 Hi0. apply elem_of_app in Ha0 as [Ha0|Ha0].
      * exact (Hrej a0 Ha0 Hi0).
      * apply list_elem_of_singleton in Ha0. discriminate.
  - unfold rejected_for_good, clear_pending. cbn [pending history map].
    split; [|split; assumption]. intros H. inversion H.
Qed.

Lemma run_invariant i ops :
  ∀ st, wf (queue st) → rejected_for_good i (queue st) → fresh_ids P ops st →
        wf (queue (run P ops st)) ∧ rejected_for_good i (queue (run P ops st)).
Proof.
  induction ops as [|[t op] ops IH]; intros st Hwf Hrej Hfresh.
  - split; assumption.
  - destruct Hfresh as [Hf Hfresh]. cbn [run foldl fst snd].
    pose proof (run_op_step t op st (proj1 Hwf) Hf) as Hstep.
    apply IH; [exact (wf_step _ _ Hwf Hstep)
              |exact (rejected_step _ _ _ Hrej Hstep)|exact Hfresh].
Qed.

(** A successful [reject_action] moves the action to the history as
    rejected. *)
Lemma reject_action_success why t i st r st1 :
  wf (queue st) →
  reject_action i why t st = (Ok r, st1) → success r = true →
  wf (queue st1) ∧ rejected_for_good i (queue st1).
Proof.
  intros Hwf Hrun Hsucc.
  pose proof (reject_action_step why t i st) as Hstep. rewrite Hrun in Hstep.
  cbn [snd] in Hstep. split; [exact (wf_step _ _ Hwf Hstep)|].
  clear Hstep. revert Hrun.
  unfold reject_action, mbind, M_bind, queue_reject, reject.
  destruct (take_first i (pending (queue st))) as [[a rest]|] eqn:Htake;
    cbn beta iota zeta.
  2:{ intros [= <- <-]. discriminate. }
  intros [= _ <-]. cbn [queue pending history].
  destruct Hwf as (Hnd & Hp & Hh).
  pose proof (NoDup_pending_not_in_history _ _ _ _ Hnd Htake) as Hnh.
  destruct (take_first_Some _ _ _ _ Htake) as (Hid & l1 & l2 & Hl & ->).
  unfold queue_ids in Hnd. apply NoDup_app in Hnd as (Hnd & _ & _).
  rewrite Hl, map_app in Hnd. cbn [map] in Hnd.
  rewrite <- Permutation_middle in Hnd. apply NoDup_cons in Hnd as [Hnd _].
  rewrite Hl in Hp. apply Forall_app in Hp as [_ Hp].
  apply Forall_cons in Hp as [(_ & _ & _ & _ & Hres) _].
  unfold rejected_for_good. cbn [pending history]. split; [|split].
  - rewrite map_app, <- Hid. exact Hnd.
  - rewrite history_ids_app. apply elem_of_app. right. cbn. rewrite Hid. left.
  - intros a0 Ha0 Hi0. apply elem_of_app in Ha0 as [Ha0|Ha0].
    + exfalso. apply Hnh. apply elem_of_history_ids. eauto.
    + apply list_elem_of_singleton in Ha0. injection Ha0 as ->.
      split; [reflexivity|exact Hres].
Qed.

(** C5. From a well-formed queue, once [reject_action] has succeeded for an
    id, then after every further session of calls (proposals drawing new
    ids): the queue is still well formed; [approve] on that id finds no
    action; [approve_action] on it answers "not found" and leaves the whole
    state, call log included, as it was, so nothing is executed; the history
    holds the id only as rejected, without a result; and every entry of the
    history with status executed was approved, never rejected, and carries
    its result (a direct execution is an entry of its own kind, without id
    and status). *)
Theorem rejected_action_never_executes i why t st r st1 ops record_id t' :
  wf (queue st) →
  reject_action i why t st = (Ok r, st1) → success r = true →
  fresh_ids P ops st1 →
  let st' := run P ops st1 in
  wf (queue st')
  ∧ approve i t' (queue st') = (None, queue st')
  ∧ approve_action P record_id t' i st' = (Ok (not_found i), st')
  ∧ (∀ a, Queued a ∈ history (queue st') → id a = i →
          status a = "rejected" ∧ result a = None)
  ∧ (∀ a, Queued a ∈ history (queue st') → status a = "executed" →
          is_Some (approved_at a) ∧ rejected_at a = None
          ∧ is_Some (result a)).
Proof.
  intros Hwf Hrun Hsucc Hfresh st'.
  destruct (reject_action_success _ _ _ _ _ _ Hwf Hrun Hsucc) as [Hwf1 Hrej1].
  destruct (run_invariant i ops st1 Hwf1 Hrej1 Hfresh) as [Hwf' Hrej'].
  fold st' in Hwf', Hrej'.
  destruct Hrej' as (Hnp & Hin & Hrej).
  apply take_first_None in Hnp.
  split; [exact Hwf'|]. split; [|split; [|split]].
  - unfold approve. rewrite Hnp. reflexivity.
  - unfold approve_action, mbind, M_bind, queue_approve, approve.
    rewrite Hnp. cbn. destruct st'. reflexivity.
  - exact Hrej.
  - intros a Ha Hst. destruct Hwf' as (_ & _ & Hh).
    rewrite Forall_forall in Hh. specialize (Hh _ Ha). cbn in Hh.
    destruct Hh as [(Hs & _) | [(Hs & _) | (_ & H1 & H2 & H3)]];
      [congruence|congruence|]. repeat split; assumption.
Qed.

End ActionsFacts.

Section ActionsScenarios.
Import Actions.

Lemma execute_refuses_unsafe_increase_witness :
  ∃ r why, execute accepting_platform "r1" 0 increase_50_percent
             (new_executor "approval_required")
           = (Ok r, new_executor "approval_required")
    ∧ success r = false ∧ executed r = Some false
    ∧ message r = Some (Safety_check_failed why)
    ∧ _safety_check increase_50_percent
      = {| passed := false; reason := Some why |}
    ∧ calls (execute accepting_platform "r1" 0 increase_50_percent
               (new_executor "approval_required")).2 = [].
Proof.
  apply (execute_refuses_unsafe_increase accepting_platform "r1" 0
           increase_50_percent (new_executor "approval_required")).
  - discriminate.
  - reflexivity.
  - left. exists 50%Q. split; reflexivity.
Defined.

(** C6, the code at the failing input: a direct budget change to 600000 on
    a connected platform passes the safety check (the action it builds has
    type budget_change, which [_safety_check] does not bound), reaches
    [update_campaign_budget] and succeeds. *)
Lemma direct_budget_change_unbounded :
  (500000 < 600000)%Q
  ∧ _safety_check (direct_budget_action "c1" "a1" 600000)
    = {| passed := true; reason := None |}
  ∧ ∃ r st,
      execute_budget_change_direct accepting_platform "r1" 0 "c1" 600000 "a1"
        (new_executor "approval_required") = (Ok r, st)
      ∧ success r = true
      ∧ calls st = [Get_managers (Some "a1");
                    Get_campaign_insights (Some "c1");
                    Update_campaign_budget (Some "c1") 600000]
      ∧ history (queue st)
        = [Direct_execution (direct_budget_action "c1" "a1" 600000) r 0].
Proof.
  split; [reflexivity|]. split; [reflexivity|].
  eexists _, _. split; [vm_compute; reflexivity|]. repeat split.
Qed.

(** The safety check of the direct path never refuses: whatever the new
    budget, the action it checks is a budget_change. *)
Lemma direct_budget_check_always_passes campaign account new_budget :
  _safety_check (direct_budget_action campaign account new_budget)
  = {| passed := true; reason := None |}.
Proof. reflexivity. Qed.

Lemma rejected_action_never_executes_witness :
  wf (queue queued_executor)
  ∧ ∃ r st1, reject_action "x1" "no" 1 queued_executor = (Ok r, st1)
      ∧ success r = true
      ∧ fresh_ids accepting_platform sample_session st1
      ∧ approve_action accepting_platform "r9" 9 "x1"
          (run accepting_platform sample_session st1)
        = (Ok (not_found "x1"), run accepting_platform sample_session st1).
Proof.
  assert (Hwf : wf (queue queued_executor)).
  { split; [apply NoDup_singleton|].
    split; [repeat constructor|constructor]. }
  split; [exact Hwf|].
  eexists _, _. split; [reflexivity|]. split; [reflexivity|].
  assert (Hfresh : fresh_ids accepting_platform sample_session
                     (reject_action "x1" "no" 1 queued_executor).2).
  { cbn [fresh_ids sample_session]. split; [|repeat split].
    apply (bool_decide_unpack _). vm_compute. exact I. }
  split; [exact Hfresh|].
  apply (rejected_action_never_executes accepting_platform "x1" "no" 1
           queued_executor _ _ sample_session "r9" 9 Hwf eq_refl eq_refl
           Hfresh).
Defined.

End ActionsScenarios.

(** ** Properties of the recommendation requester *)

Section RecommenderFacts.
Import Recommender.

Lemma split_go_nonempty sep s : ∀ cur skip,
  (1 ≤ length (split_go sep s cur skip))%nat.
Proof.
  induction s as [|c s IH]; intros cur skip; cbn [split_go]; [cbn; lia|].
  destruct skip; [|apply IH].
  destruct (is_prefix sep (c :: s)); [cbn [length]; lia|apply IH].
Qed.

(** A separator that occurs in the text splits it in two pieces at least, so
    that [split(sep)[1]] exists. *)
Lemma contains_split_go sep s : ∀ cur,
  sep ≠ [] → contains sep s = true →
  (2 ≤ length (split_go sep s cur 0))%nat.
Proof.
  induction s as [|c s IH]; intros cur Hsep Hc.
  - destruct sep; [congruence|discriminate].
  - cbn [split_go]. cbn [contains] in Hc.
    destruct (is_prefix sep (c :: s)) eqn:E.
    + cbn [length].
      pose proof (split_go_nonempty sep s [] (length sep - 1)). lia.
    + cbn in Hc. apply IH; assumption.
Qed.

Lemma index_lt {A} (l : list A) i :
  (i < length l)%nat → ∃ x, index l i = Ok x.
Proof.
  intros H. unfold index. destruct (lookup_lt_is_Some_2 l i H) as [x ->].
  eauto.
Qed.

Lemma fenced_payload sep s :
  sep ≠ [] → contains sep s = true →
  ∃ p, (after ← index (split sep s) 1;
        inside ← index (split FENCE after) 0; Ok (strip inside)) = Ok p.
Proof.
  intros Hsep Hc.
  destruct (index_lt (split sep s) 1) as [after ->].
  { pose proof (contains_split_go sep s [] Hsep Hc). unfold split. lia. }
  cbn [mbind Res_bind].
  destruct (index_lt (split FENCE after) 0) as [inside ->].
  { pose proof (split_go_nonempty FENCE after [] 0). unfold split. lia. }
  cbn. eauto.
Qed.

(** Cutting the payload out of a reply never raises. *)
Lemma extract_payload_total reply : ∃ p, extract_payload reply = Ok p.
Proof.
  unfold extract_payload.
  destruct (contains FENCE_JSON reply) eqn:E1.
  { apply fenced_payload; [discriminate|exact E1]. }
  destruct (contains FENCE reply) eqn:E2.
  { apply fenced_payload; [discriminate|exact E2]. }
  eauto.
Qed.

Lemma parse_elements_unfold py fuel depth s acc :
  parse_elements py (S fuel) depth s acc
  = '(v, r) ← scan_once py fuel depth s;
    match skip_ws r with
    | d :: r' =>
      if (d =? 93)%N then Ok (JArray (acc ++ [v]), r')
      else if (d =? 44)%N then
        parse_elements py fuel depth (skip_ws r') (acc ++ [v])
      else Raise JSONDecodeError
    | [] => Raise JSONDecodeError
    end.
Proof. reflexivity. Qed.

Lemma value_start_skip_ws c s :
  value_start c = true → skip_ws (c :: s) = c :: s.
Proof.
  unfold value_start. intros H. apply andb_prop in H as [H _].
  apply negb_true_iff in H. cbn [skip_ws]. rewrite H. reflexivity.
Qed.

Lemma array_body_start py depth es vs :
  Forall2 (parses_to py depth) es vs → es ≠ [] →
  ∃ c b, array_body es = c :: b ∧ value_start c = true.
Proof.
  intros H Hne. destruct H as [|e v es vs [(c & e' & -> & Hc) _] H];
    [congruence|].
  destruct es; cbn; eauto.
Qed.

(** The loop of [JSONArray] reads every element of the body: none is
    dropped, whatever their number. *)
Lemma parse_elements_body py depth es vs :
  Forall2 (parses_to py depth) es vs → es ≠ [] →
  ∀ fuel acc tail,
    (2 * length (array_body es) + 1 ≤ fuel)%nat →
    parse_elements py fuel depth (array_body es ++ 93%N :: tail) acc
    = Ok (JArray (acc ++ vs), tail).
Proof.
  induction 1 as [|e v es vs He Hes IH]; intros Hne fuel acc tail Hfuel;
    [congruence|].
  destruct fuel as [|fuel]; [lia|]. rewrite parse_elements_unfold.
  destruct He as [_ He].
  destruct es as [|e2 es].
  - inversion Hes; subst. cbn [array_body] in *.
    rewrite (He fuel (93%N :: tail)) by (try lia; eauto).
    reflexivity.
  - assert (Hne2 : e2 :: es ≠ []) by discriminate.
    destruct (array_body_start _ _ _ _ Hes Hne2) as (c & b & Hb & Hc).
    change (array_body (e :: e2 :: es))
      with (e ++ 44%N :: array_body (e2 :: es)) in *.
    rewrite length_app in Hfuel. cbn [length] in Hfuel.
    rewrite <- app_assoc. cbn [app].
    rewrite (He fuel (44%N :: array_body (e2 :: es) ++ 93%N :: tail))
      by (try lia; eauto).
    cbn [mbind Res_bind]. cbn [skip_ws is_json_ws N.eqb Pos.eqb orb].
    change ((44 =? 93)%N) with false. change ((44 =? 44)%N) with true.
    cbn iota.
    rewrite Hb. cbn [app]. rewrite (value_start_skip_ws _ _ Hc).
    change (c :: b ++ 93%N :: tail) with ((c :: b) ++ 93%N :: tail).
    rewrite <- Hb. rewrite (IH Hne2) by lia.
    rewrite <- app_assoc. reflexivity.
Qed.

Lemma loads_array_text py depth es vs :
  recursion_depth py = S depth →
  Forall2 (parses_to py depth) es vs → es ≠ [] →
  loads py (array_text es) = Ok (JArray vs).
Proof.
  intros Hdepth H Hne. unfold loads, array_text. rewrite Hdepth.
  destruct (array_body_start _ _ _ _ H Hne) as (c & b & Hb & Hc).
  change (skip_ws (91%N :: array_body es ++ [93%N]))
    with (91%N :: array_body es ++ [93%N]).
  cbn [length Nat.mul Nat.add]. rewrite Nat.add_0_r, Nat.add_succ_r.
  cbn [Nat.add scan_once].
  change ((91 =? 34)%N) with false. change ((91 =? 123)%N) with false.
  change ((91 =? 91)%N) with true. cbn iota.
  rewrite Hb. cbn [app]. rewrite (value_start_skip_ws _ _ Hc).
  assert ((c =? 93)%N = false) as ->.
  { unfold value_start in Hc. apply andb_prop in Hc as [_ Hc].
    apply negb_true_iff in Hc. exact Hc. }
  change (c :: b ++ [93%N]) with ((c :: b) ++ 93%N :: []).
  rewrite <- Hb. rewrite (parse_elements_body py depth es vs H Hne).
  - reflexivity.
  - rewrite length_app. cbn [length]. lia.
Qed.

Lemma is_prefix_trans p q s :
  is_prefix p q = true → is_prefix q s = true → is_prefix p s = true.
Proof.
  revert q s. induction p as [|a p IH]; intros q s Hpq Hqs; [reflexivity|].
  destruct q as [|b q]; [discriminate|]. destruct s as [|c s]; [discriminate|].
  cbn in *. apply andb_prop in Hpq as [Hab Hpq].
  apply andb_prop in Hqs as [Hbc Hqs].
  apply N.eqb_eq in Hab, Hbc. subst. rewrite N.eqb_refl. cbn.
  exact (IH _ _ Hpq Hqs).
Qed.

Lemma contains_prefix p q s :
  is_prefix p q = true → contains q s = true → contains p s = true.
Proof.
  intros Hpq. induction s as [|c s IH]; cbn [contains]; intros H.
  - rewrite orb_false_r in *. exact (is_prefix_trans _ _ _ Hpq H).
  - apply orb_prop in H as [H|H].
    + rewrite (is_prefix_trans _ _ _ Hpq H). reflexivity.
    + rewrite (IH H). apply orb_true_r.
Qed.

Lemma strip_array_text es : strip (array_text es) = array_text es.
Proof.
  unfold strip, array_text. cbn [lstrip]. change (is_space 91) with false.
  cbn iota. change (91%N :: array_body es ++ [93%N])
    with ((91%N :: array_body es) ++ [93%N]).
  rewrite rev_app_distr. cbn [rev app lstrip].
  change (is_space 93) with false. cbn iota.
  change (93%N :: rev (array_body es) ++ [91%N])
    with ([93%N] ++ rev (91%N :: array_body es)).
  rewrite rev_app_distr, rev_involutive. reflexivity.
Qed.

(** A text without a backquote holds no fence. *)
Lemma no_backquote_no_fence s :
  Forall (λ c, c ≠ 96%N) s →
  contains FENCE_JSON s = false ∧ contains FENCE s = false.
Proof.
  intros H.
  assert (Hf : contains FENCE s = false).
  { induction H as [|c s Hc _ IH]; [reflexivity|].
    cbn [contains]. rewrite IH, orb_false_r.
    change FENCE with (96%N :: lit "``"). cbn [is_prefix].
    apply N.eqb_neq in Hc. rewrite N.eqb_sym, Hc. reflexivity. }
  split; [|exact Hf].
  destruct (contains FENCE_JSON s) eqn:E; [|reflexivity].
  apply (contains_prefix FENCE) in E; [congruence|reflexivity].
Qed.

(** A text that neither begins nor ends with white space is its own
    [strip]. *)
Lemma strip_ends a m b :
  is_space a = false → is_space b = false →
  strip (a :: m ++ [b]) = a :: m ++ [b].
Proof.
  intros Ha Hb. unfold strip. cbn [lstrip]. rewrite Ha.
  change (a :: m ++ [b]) with ((a :: m) ++ [b]).
  rewrite rev_app_distr. cbn [rev app lstrip]. rewrite Hb.
  change (b :: rev m ++ [a]) with ([b] ++ rev (a :: m)).
  rewrite rev_app_distr, rev_involutive. reflexivity.
Qed.

(** A reply without fence whose ends are not white space is its own
    payload. *)
Lemma bare_payload a m b :
  Forall (λ c, c ≠ 96%N) (a :: m ++ [b]) →
  is_space a = false → is_space b = false →
  extract_payload (a :: m ++ [b]) = Ok (a :: m ++ [b]).
Proof.
  intros H Ha Hb. unfold extract_payload.
  destruct (no_backquote_no_fence _ H) as [-> ->].
  rewrite (strip_ends a m b Ha Hb). reflexivity.
Qed.

(** More arrays inside one another than the interpreter allows: the decoder
    raises when it opens the first one beyond the limit. *)
Lemma scan_nested py : ∀ depth n fuel rest,
  (depth < n)%nat → (2 * depth + 1 ≤ fuel)%nat →
  scan_once py fuel depth (repeat 91%N n ++ rest) = Raise RecursionError.
Proof.
  induction depth as [|depth IH]; intros n fuel rest Hn Hfuel;
    (destruct n as [|n]; [lia|]); (destruct fuel as [|fuel]; [lia|]).
  - reflexivity.
  - destruct n as [|n]; [lia|]. destruct fuel as [|fuel]; [lia|].
    cbn [repeat app scan_once].
    change ((91 =? 34)%N) with false. change ((91 =? 123)%N) with false.
    change ((91 =? 91)%N) with true. cbn iota.
    change (skip_ws (91%N :: repeat 91%N n ++ rest))
      with (91%N :: repeat 91%N n ++ rest).
    change ((91 =? 93)%N) with false. cbn iota.
    rewrite parse_elements_unfold.
    change (91%N :: repeat 91%N n ++ rest) with (repeat 91%N (S n) ++ rest).
    rewrite IH by lia. reflexivity.
Qed.

Lemma loads_nested py n :
  (recursion_depth py < n)%nat → loads py (nested n) = Raise RecursionError.
Proof.
  intros Hn. unfold loads, nested.
  destruct n as [|n]; [lia|].
  change (skip_ws (repeat 91%N (S n) ++ repeat 93%N (S n)))
    with (repeat 91%N (S n) ++ repeat 93%N (S n)).
  rewrite scan_nested; [reflexivity | exact Hn |].
  rewrite length_app, !repeat_length. lia.
Qed.

Lemma take_digits_zeros n : take_digits (repeat 48%N n) = (repeat 0%N n, []).
Proof.
  induction n as [|n IH]; [reflexivity|].
  cbn [repeat take_digits]. change (is_digit 48) with true. cbn iota.
  rewrite IH. reflexivity.
Qed.

(** An integer literal with more digits than the interpreter allows. *)
Lemma loads_power_of_ten py n :
  (0 < int_max_str_digits py ≤ n)%nat →
  loads py (power_of_ten n) = Raise ValueError.
Proof.
  intros [H0 Hn]. unfold loads, power_of_ten.
  change (skip_ws (49%N :: repeat 48%N n)) with (49%N :: repeat 48%N n).
  cbn [length Nat.mul Nat.add]. rewrite Nat.add_succ_r.
  cbn [Nat.add scan_once].
  change ((49 =? 34)%N) with false. change ((49 =? 123)%N) with false.
  change ((49 =? 91)%N) with false.
  change (is_prefix (lit "null") (49%N :: repeat 48%N n)) with false.
  change (is_prefix (lit "true") (49%N :: repeat 48%N n)) with false.
  change (is_prefix (lit "false") (49%N :: repeat 48%N n)) with false.
  cbn iota. unfold parse_number.
  change ((49 =? 45)%N) with false. cbn iota. unfold int_part.
  change ((49 =? 48)%N) with false. change (is_digit 49) with true.
  cbn iota. cbn [take_digits]. change (is_digit 49) with true. cbn iota.
  rewrite take_digits_zeros. cbn [frac_part exp_part length].
  rewrite repeat_length.
  assert ((0 <? int_max_str_digits py)%nat = true) as ->
    by (apply Nat.ltb_lt; exact H0).
  assert ((int_max_str_digits py <? S n)%nat = true) as ->
    by (apply Nat.ltb_lt; lia).
  reflexivity.
Qed.

Lemma Forall_repeat_same {A} (Q : A → Prop) (x : A) n :
  Q x → Forall Q (repeat x n).
Proof. intros H. induction n; cbn [repeat]; constructor; assumption. Qed.

Lemma nested_chars n :
  ∃ m, nested (S n) = 91%N :: m ++ [93%N]
       ∧ Forall (λ c, c ≠ 96%N) (nested (S n)).
Proof.
  exists (repeat 91%N n ++ repeat 93%N n). split.
  - unfold nested. cbn [repeat app]. rewrite (repeat_cons n 93%N).
    rewrite app_assoc. reflexivity.
  - unfold nested. apply Forall_app.
    split; apply Forall_repeat_same; discriminate.
Qed.

Lemma power_of_ten_chars n :
  ∃ m, power_of_ten (S n) = 49%N :: m ++ [48%N]
       ∧ Forall (λ c, c ≠ 96%N) (power_of_ten (S n)).
Proof.
  exists (repeat 48%N n). split.
  - unfold power_of_ten. cbn [repeat]. rewrite (repeat_cons n 48%N).
    reflexivity.
  - unfold power_of_ten. constructor; [discriminate|].
    apply Forall_repeat_same. discriminate.
Qed.

(** C9, as the code has it. The requester returns what the reply decodes to
    and nothing less: cutting the payload out of the reply never raises, and
    the returned value is the decoded payload, or the empty list when the
    decoder raises. For a reply that is a JSON array without fences, whose
    elements the interpreter decodes, the returned list holds every element
    of the array: it has as many entries as the reply has, at most 3 only
    when the reply has at most 3. The decoder raises, and the list is empty,
    on a reply of more arrays inside one another than the recursion limit
    allows, and on an integer of more digits than the interpreter
    converts. *)
Theorem recommendations_are_the_decoded_reply (py : Interpreter) :
  (∀ reply, ∃ payload,
      extract_payload reply = Ok payload
      ∧ _generate_recommendations py (Ok reply)
        = match loads py payload with
          | Ok v => v
          | Raise _ => JArray []
          end)
  ∧ (∀ es vs depth,
      recursion_depth py = S depth →
      Forall2 (parses_to py depth) es vs → es ≠ [] →
      contains FENCE (array_text es) = false →
      _generate_recommendations py (Ok (array_text es)) = JArray vs
      ∧ entries (_generate_recommendations py (Ok (array_text es)))
        = length es)
  ∧ (∀ n, (recursion_depth py < n)%nat →
      loads py (nested n) = Raise RecursionError
      ∧ _generate_recommendations py (Ok (nested n)) = JArray [])
  ∧ (∀ n, (0 < int_max_str_digits py ≤ n)%nat →
      loads py (power_of_ten n) = Raise ValueError
      ∧ _generate_recommendations py (Ok (power_of_ten n)) = JArray []).
Proof.
  split; [|split; [|split]].
  - intros reply. destruct (extract_payload_total reply) as [p Hp].
    exists p. split; [exact Hp|].
    unfold _generate_recommendations, decode_reply.
    cbn [mbind Res_bind]. rewrite Hp. reflexivity.
  - intros es vs depth Hdepth H Hne Hfence.
    assert (Hrun : _generate_recommendations py (Ok (array_text es))
                   = JArray vs).
    { unfold _generate_recommendations, decode_reply, extract_payload.
      cbn [mbind Res_bind].
      destruct (contains FENCE_JSON (array_text es)) eqn:E.
      { apply (contains_prefix FENCE) in E; [congruence|reflexivity]. }
      rewrite Hfence. cbn [mbind Res_bind].
      rewrite strip_array_text,
        (loads_array_text py depth es vs Hdepth H Hne).
      reflexivity. }
    rewrite Hrun. split; [reflexivity|]. cbn [entries].
    symmetry. exact (Forall2_length _ _ _ H).
  - intros n Hn. split; [exact (loads_nested py n Hn)|].
    destruct n as [|n]; [lia|].
    destruct (nested_chars n) as (m & E & Hc).
    unfold _generate_recommendations, decode_reply. cbn [mbind Res_bind].
    rewrite E in Hc |- *. rewrite (bare_payload _ _ _ Hc eq_refl eq_refl).
    cbn [mbind Res_bind]. rewrite <- E, (loads_nested py (S n) Hn).
    reflexivity.
  - intros n Hn. split; [exact (loads_power_of_ten py n Hn)|].
    destruct n as [|n]; [lia|].
    destruct (power_of_ten_chars n) as (m & E & Hc).
    unfold _generate_recommendations, decode_reply. cbn [mbind Res_bind].
    rewrite E in Hc |- *. rewrite (bare_payload _ _ _ Hc eq_refl eq_refl).
    cbn [mbind Res_bind]. rewrite <- E, (loads_power_of_ten py (S n) Hn).
    reflexivity.
Qed.

End RecommenderFacts.

Section RecommenderScenarios.
Import Recommender.

Ltac record_parses :=
  split; [eexists _, _; split; reflexivity|];
  intros fuel rest Hf (d & r & -> & Hd);
  match type of Hf with
  | (2 * length ?e ≤ _)%nat =>
      let n := eval vm_compute in (length e) in
      change (length e) with n in Hf
  end;
  do 8 (destruct fuel as [|fuel]; [lia|]);
  destruct Hd as [-> | ->]; vm_compute; reflexivity.

Lemma sample_records_parse :
  Forall2 (parses_to cpython 899) sample_records sample_values.
Proof.
  unfold sample_records, sample_values.
  repeat (constructor; [record_parses|]). constructor.
Qed.

Lemma recommendations_are_the_decoded_reply_witness :
  _generate_recommendations cpython (Ok (array_text sample_records))
  = JArray sample_values
  ∧ entries (_generate_recommendations cpython
               (Ok (array_text sample_records)))
    = 4%nat.
Proof.
  apply (proj1 (proj2 (recommendations_are_the_decoded_reply cpython))
           sample_records sample_values 899%nat eq_refl
           sample_records_parse).
  - discriminate.
  - reflexivity.
Defined.

(** C9, the claim as stated fails: a reply whose fenced array holds four
    records comes back as a list of four entries. *)
Lemma four_records_returned :
  _generate_recommendations cpython (Ok four_records) = JArray sample_values
  ∧ entries (_generate_recommendations cpython (Ok four_records)) = 4%nat
  ∧ (3 < 4)%nat.
Proof. split; [vm_compute; reflexivity|]. split; [reflexivity|lia]. Qed.

End RecommenderScenarios.

(** Membership (or not) in a list of literals, by computation. *)
Ltac in_list := apply (bool_decide_unpack _); vm_compute; exact I.

(** ** Properties of the executor's calls *)

Section ExecutorFacts.
Import Actions ExecutorTraces.
Context (P : Platform).

Lemma fetch_baseline_outcome c st :
  ∃ b, fetch_baseline P c st
       = (Ok b, {| mode := mode st; queue := queue st; learner := learner st;
                   calls := calls st ++ [Get_campaign_insights c] |})
    ∧ (b = ∅
       ∨ ∃ i, get_campaign_insights P (calls st) c = Ok (Some i)
              ∧ b = baseline_of i).
Proof.
  unfold fetch_baseline, try_except, mbind, M_bind, collaborate.
  destruct (get_campaign_insights P (calls st) c) as [[i|]|e]; cbn.
  - destruct (size i =? 0)%nat; eexists; (split; [reflexivity|]); eauto.
  - eexists; split; [reflexivity|]; eauto.
  - eexists; split; [reflexivity|]; eauto.
Qed.

Lemma after_calls_nil st : after_calls st [] (learner st) = st.
Proof. unfold after_calls. rewrite app_nil_r. destruct st; reflexivity. Qed.

(** Every way a budget change can end. *)
Lemma execute_budget_change_outcome record_id now a inc st :
  ∃ r n L,
    _execute_budget_change P record_id now a inc st
    = (Ok r, after_calls st (take n (budget_calls a)) L)
    ∧ (meta_connected P = false ∨ truthy_str (campaign_id a) = false
       ∨ truthy_num (new_budget (params a)) = false → n = 0%nat)
    ∧ (executed r = Some false ∧ success r = false ∧ L = learner st
       ∨ executed r = Some true ∧ success r = true
         ∧ result_action r = Some a ∧ n = 3%nat
         ∧ meta_connected P = true ∧ truthy_str (campaign_id a) = true
         ∧ update_campaign_budget P
             (calls st ++ take 2 (budget_calls a)) (campaign_id a)
             (py_int (default 0%Q (new_budget (params a)))) = Ok true
         ∧ (L = learner st
            ∨ ∃ i, get_campaign_insights P
                     (calls st ++ take 1 (budget_calls a)) (campaign_id a)
                   = Ok (Some i)
                ∧ L = (Learning.record_action_with_baseline record_id now a
                         (campaign_id a) (account_id a) (baseline_of i)
                         (learner st)).2)).
Proof.
  unfold _execute_budget_change.
  destruct (meta_connected P) eqn:Hc; cbn [negb].
  2:{ exists (failure Meta_not_connected), 0%nat, (learner st).
      cbn [take]. rewrite after_calls_nil. split; [reflexivity|].
      split; [reflexivity|]. left. repeat split. }
  destruct (truthy_str (campaign_id a)) eqn:Hs; cbn [negb orb].
  2:{ exists (failure Missing_campaign_or_budget), 0%nat, (learner st).
      cbn [take]. rewrite after_calls_nil. split; [reflexivity|].
      split; [reflexivity|]. left. repeat split. }
  destruct (truthy_num (new_budget (params a))) eqn:Hn; cbn [negb].
  2:{ exists (failure Missing_campaign_or_budget), 0%nat, (learner st).
      cbn [take]. rewrite after_calls_nil. split; [reflexivity|].
      split; [reflexivity|]. left. repeat split. }
  unfold try_except, mbind, M_bind, collaborate at 1.
  destruct (get_managers P (calls st) (account_id a)) as [[|]|e] eqn:Hm.
  - cbn [negb].
    match goal with
    | |- context [fetch_baseline P ?c ?s] =>
        destruct (fetch_baseline_outcome c s) as (b & -> & Hbase)
    end.
    cbn [calls mode queue learner]. unfold collaborate. cbn [calls mode queue learner].
    rewrite <- app_assoc. cbn [app].
    destruct (update_campaign_budget P _ _ _) as [[|]|e] eqn:Hu.
    + destruct (size b =? 0)%nat eqn:Hb; cbn [negb].
      * eexists _, 3%nat, (learner st). split.
        { unfold mret, M_ret, after_calls, budget_calls. cbn [take].
          rewrite <- !app_assoc. reflexivity. }
        split; [intros [H|[H|H]]; congruence|].
        right. repeat split; try reflexivity; try exact Hu.
        left. reflexivity.
      * eexists _, 3%nat, _. split.
        { unfold with_learner, mret, M_ret, after_calls, budget_calls.
          cbn [take mode queue learner calls].
          rewrite <- !app_assoc. reflexivity. }
        split; [intros [H|[H|H]]; congruence|].
        right. repeat split; try reflexivity; try exact Hu.
        right. destruct Hbase as [-> | (i & Hi & ->)]; [discriminate|].
        exists i. split; [exact Hi|reflexivity].
    + eexists _, 3%nat, (learner st). split.
      { unfold mret, M_ret, after_calls, budget_calls. cbn [take].
        rewrite <- !app_assoc. reflexivity. }
      split; [intros [H|[H|H]]; congruence|]. left. repeat split.
    + eexists _, 3%nat, (learner st). split.
      { unfold mret, M_ret, after_calls, budget_calls. cbn [take].
        rewrite <- !app_assoc. reflexivity. }
      split; [intros [H|[H|H]]; congruence|]. left. repeat split.
  - eexists _, 1%nat, (learner st). split; [reflexivity|].
    split; [intros [H|[H|H]]; congruence|]. left. repeat split.
  - eexists _, 1%nat, (learner st). split; [reflexivity|].
    split; [intros [H|[H|H]]; congruence|]. left. repeat split.
Qed.

(** Every way a status change can end. *)
Lemma execute_status_change_outcome a status st :
  ∃ r n,
    _execute_status_change P a status st
    = (Ok r, after_calls st (take n (status_calls a status)) (learner st))
    ∧ (meta_connected P = false ∨ truthy_str (campaign_id a) = false →
       n = 0%nat)
    ∧ (executed r = Some false ∧ success r = false
       ∨ executed r = Some true ∧ success r = true
         ∧ result_action r = Some a ∧ n = 2%nat
         ∧ meta_connected P = true ∧ truthy_str (campaign_id a) = true
         ∧ update_campaign_status P
             (calls st ++ take 1 (status_calls a status)) (campaign_id a)
             (default status (new_status (params a))) = Ok true).
Proof.
  unfold _execute_status_change.
  destruct (meta_connected P) eqn:Hc; cbn [negb].
  2:{ exists (failure Meta_not_connected), 0%nat.
      cbn [take]. rewrite after_calls_nil. split; [reflexivity|].
      split; [reflexivity|]. left. repeat split. }
  destruct (truthy_str (campaign_id a)) eqn:Hs; cbn [negb].
  2:{ exists (failure Missing_campaign), 0%nat.
      cbn [take]. rewrite after_calls_nil. split; [reflexivity|].
      split; [reflexivity|]. left. repeat split. }
  unfold try_except, mbind, M_bind, collaborate at 1.
  destruct (get_managers P (calls st) (account_id a)) as [[|]|e] eqn:Hm.
  - cbn [negb]. unfold collaborate. cbn [calls mode queue learner].
    destruct (update_campaign_status P _ _ _) as [[|]|e] eqn:Hu.
    + eexists _, 2%nat. split.
      { unfold mret, M_ret, after_calls, status_calls. cbn [take].
        rewrite <- !app_assoc. reflexivity. }
      split; [intros [H|H]; congruence|].
      right. repeat split; reflexivity.
    + eexists _, 2%nat. split.
      { unfold mret, M_ret, after_calls, status_calls. cbn [take].
        rewrite <- !app_assoc. reflexivity. }
      split; [intros [H|H]; congruence|]. left. repeat split.
    + eexists _, 2%nat. split.
      { unfold mret, M_ret, after_calls, status_calls. cbn [take].
        rewrite <- !app_assoc. reflexivity. }
      split; [intros [H|H]; congruence|]. left. repeat split.
  - eexists _, 1%nat. split; [reflexivity|].
    split; [intros [H|H]; congruence|]. left. repeat split.
  - eexists _, 1%nat. split; [reflexivity|].
    split; [intros [H|H]; congruence|]. left. repeat split.
Qed.

Lemma safety_check_reason a :
  passed (_safety_check a) = false → ∃ why, reason (_safety_check a) = Some why.
Proof.
  unfold _safety_check.
  repeat match goal with
  | |- context [if ?c then _ else _] => destruct c
  end; cbn; intros; try discriminate; eauto.
Qed.

(** What [execute] does once the mode and the safety check let it through:
    the dispatch on the action type. *)
Lemma execute_dispatch record_id now a st :
  mode st ≠ "notify_only" → passed (_safety_check a) = true →
  execute P record_id now a st
  = if budget_type a then
      _execute_budget_change P record_id now a (dispatched_increase a) st
    else if status_type a then
      _execute_status_change P a (dispatched_status a) st
    else (Ok (failure (Unsupported_action_type (action_type a))), st).
Proof.
  intros Hmode Hpass. unfold execute, get_mode, mbind, M_bind.
  cbn beta iota. apply String.eqb_neq in Hmode. rewrite Hmode, Hpass.
  cbn [negb].
  unfold budget_type, status_type, dispatched_status, dispatched_increase.
  destruct (type_is a "budget_change") eqn:E1; cbn [orb]; [reflexivity|].
  destruct (type_is a "budget_increase") eqn:E2; cbn [orb]; [reflexivity|].
  destruct (type_is a "budget_decrease") eqn:E3; cbn [orb]; [reflexivity|].
  destruct (type_is a "status_change") eqn:E4; cbn [orb]; [reflexivity|].
  destruct (type_is a "pause") eqn:E5; cbn [orb]; [reflexivity|].
  destruct (type_is a "resume") eqn:E6; reflexivity.
Qed.

(** Every way [execute] can end: it returns a result, the calls it made are
    the first [n] of the calls of its action type, and [executed] is true
    only when the update was called and answered true. *)
Lemma execute_outcome record_id now a st :
  ∃ r n L,
    execute P record_id now a st
    = (Ok r, after_calls st (take n (platform_calls a)) L)
    ∧ (mode st = "notify_only" ∨ passed (_safety_check a) = false
       ∨ meta_connected P = false ∨ truthy_str (campaign_id a) = false
       ∨ budget_type a = true ∧ truthy_num (new_budget (params a)) = false →
       n = 0%nat)
    ∧ (executed r = Some false ∧ L = learner st
       ∧ (success r = true → mode st = "notify_only")
       ∨ executed r = Some true ∧ success r = true
         ∧ result_action r = Some a
         ∧ mode st ≠ "notify_only" ∧ passed (_safety_check a) = true
         ∧ meta_connected P = true ∧ truthy_str (campaign_id a) = true
         ∧ n = length (platform_calls a)
         ∧ (budget_type a = true
            ∧ update_campaign_budget P
                (calls st ++ take 2 (budget_calls a)) (campaign_id a)
                (py_int (default 0%Q (new_budget (params a)))) = Ok true
            ∧ (L = learner st
               ∨ ∃ i, get_campaign_insights P
                        (calls st ++ take 1 (budget_calls a)) (campaign_id a)
                      = Ok (Some i)
                   ∧ L = (Learning.record_action_with_baseline record_id now a
                            (campaign_id a) (account_id a) (baseline_of i)
                            (learner st)).2)
            ∨ budget_type a = false ∧ status_type a = true
              ∧ update_campaign_status P
                  (calls st ++ take 1 (status_calls a (dispatched_status a)))
                  (campaign_id a)
                  (default (dispatched_status a) (new_status (params a)))
                = Ok true
              ∧ L = learner st)).
Proof.
  destruct (String.eqb_spec (mode st) "notify_only") as [Hmode|Hmode].
  { eexists _, 0%nat, (learner st). cbn [take]. rewrite after_calls_nil.
    split.
    - unfold execute, get_mode, mbind, M_bind. cbn beta iota.
      rewrite (proj2 (String.eqb_eq _ _) Hmode). reflexivity.
    - split; [reflexivity|]. left. repeat split. intros _. exact Hmode. }
  destruct (passed (_safety_check a)) eqn:Hpass.
  2:{ destruct (safety_check_reason a Hpass) as [why Hwhy].
      eexists _, 0%nat, (learner st). cbn [take]. rewrite after_calls_nil.
      split.
      - unfold execute, get_mode, mbind, M_bind. cbn beta iota.
        apply String.eqb_neq in Hmode. rewrite Hmode, Hpass, Hwhy.
        reflexivity.
      - split; [reflexivity|]. left. repeat split. discriminate. }
  rewrite (execute_dispatch record_id now a st Hmode Hpass).
  unfold platform_calls.
  destruct (budget_type a) eqn:Hb.
  - destruct (execute_budget_change_outcome record_id now a
                (dispatched_increase a) st)
      as (r & n & L & -> & Hn & Hr).
    exists r, n, L. split; [reflexivity|]. split.
    + intros [H|[H|[H|[H|[_ H]]]]]; try congruence; apply Hn; auto.
    + destruct Hr as [(H1 & H2 & H3) | (H1 & H2 & H3 & H4 & H5 & H6 & H7 & H8)].
      * left. repeat split; try assumption. congruence.
      * right. repeat split; try assumption; try exact H4.
        left. repeat split; assumption.
  - destruct (status_type a) eqn:Hs.
    + destruct (execute_status_change_outcome a (dispatched_status a) st)
        as (r & n & -> & Hn & Hr).
      exists r, n, (learner st). split; [reflexivity|]. split.
      * intros [H|[H|[H|[H|[H _]]]]]; try congruence; apply Hn; auto.
      * destruct Hr as [(H1 & H2) | (H1 & H2 & H3 & H4 & H5 & H6 & H7)].
        -- left. repeat split; try assumption. congruence.
        -- right. repeat split; try assumption; try exact H4.
           right. repeat split; assumption.
    + eexists _, 0%nat, (learner st). cbn [take]. rewrite after_calls_nil.
      split; [reflexivity|]. split; [reflexivity|]. left. repeat split.
      discriminate.
Qed.

Lemma after_calls_fields st new L :
  mode (after_calls st new L) = mode st
  ∧ queue (after_calls st new L) = queue st
  ∧ learner (after_calls st new L) = L
  ∧ calls (after_calls st new L) = calls st ++ new.
Proof. repeat split. Qed.

(** When a budget change succeeds. *)
Lemma budget_change_success record_id now a inc st :
  ∃ r st', _execute_budget_change P record_id now a inc st = (Ok r, st')
    ∧ (success r = true
       ↔ meta_connected P = true ∧ truthy_str (campaign_id a) = true
         ∧ truthy_num (new_budget (params a)) = true
         ∧ get_managers P (calls st) (account_id a) = Ok true
         ∧ update_campaign_budget P (calls st ++ take 2 (budget_calls a))
             (campaign_id a) (py_int (default 0%Q (new_budget (params a))))
           = Ok true).
Proof.
  unfold _execute_budget_change.
  destruct (meta_connected P) eqn:Hc; cbn [negb].
  2:{ eexists _, _. split; [reflexivity|].
      split; [discriminate | intros (H & _); discriminate H]. }
  destruct (truthy_str (campaign_id a)) eqn:Hs; cbn [negb orb].
  2:{ eexists _, _. split; [reflexivity|].
      split; [discriminate | intros (_ & H & _); discriminate H]. }
  destruct (truthy_num (new_budget (params a))) eqn:Hn; cbn [negb].
  2:{ eexists _, _. split; [reflexivity|].
      split; [discriminate | intros (_ & _ & H & _); discriminate H]. }
  unfold try_except, mbind, M_bind, collaborate at 1.
  destruct (get_managers P (calls st) (account_id a)) as [[|]|e] eqn:Hm.
  - cbn [negb].
    match goal with
    | |- context [fetch_baseline P ?c ?s] =>
        destruct (fetch_baseline_outcome c s) as (b & -> & Hbase)
    end.
    cbn [calls mode queue learner]. unfold collaborate.
    cbn [calls mode queue learner].
    rewrite <- app_assoc. cbn [app].
    destruct (update_campaign_budget P _ _ _) as [[|]|e] eqn:Hu.
    + destruct (size b =? 0)%nat; cbn [negb];
        (eexists _, _; split; [reflexivity|]);
        (split; [intros _; repeat split; exact Hu | reflexivity]).
    + eexists _, _. split; [reflexivity|].
      split; [discriminate|].
      intros (_ & _ & _ & _ & H). cbn [budget_calls take] in H. congruence.
    + eexists _, _. split; [reflexivity|].
      split; [discriminate|].
      intros (_ & _ & _ & _ & H). cbn [budget_calls take] in H. congruence.
  - eexists _, _. split; [reflexivity|].
    split; [discriminate | intros (_ & _ & _ & H & _); discriminate H].
  - eexists _, _. split; [reflexivity|].
    split; [discriminate | intros (_ & _ & _ & H & _); discriminate H].
Qed.

(** When a status change succeeds. *)
Lemma status_change_success a status st :
  ∃ r st', _execute_status_change P a status st = (Ok r, st')
    ∧ (success r = true
       ↔ meta_connected P = true ∧ truthy_str (campaign_id a) = true
         ∧ get_managers P (calls st) (account_id a) = Ok true
         ∧ update_campaign_status P
             (calls st ++ take 1 (status_calls a status)) (campaign_id a)
             (default status (new_status (params a))) = Ok true).
Proof.
  unfold _execute_status_change.
  destruct (meta_connected P) eqn:Hc; cbn [negb].
  2:{ eexists _, _. split; [reflexivity|].
      split; [discriminate | intros (H & _); discriminate H]. }
  destruct (truthy_str (campaign_id a)) eqn:Hs; cbn [negb].
  2:{ eexists _, _. split; [reflexivity|].
      split; [discriminate | intros (_ & H & _); discriminate H]. }
  unfold try_except, mbind, M_bind, collaborate at 1.
  destruct (get_managers P (calls st) (account_id a)) as [[|]|e] eqn:Hm.
  - cbn [negb]. unfold collaborate. cbn [calls mode queue learner].
    destruct (update_campaign_status P _ _ _) as [[|]|e] eqn:Hu.
    + eexists _, _. split; [reflexivity|].
      split; [intros _; repeat split; exact Hu | reflexivity].
    + eexists _, _. split; [reflexivity|].
      split; [discriminate|].
      intros (_ & _ & _ & H). cbn [status_calls take] in H. congruence.
    + eexists _, _. split; [reflexivity|].
      split; [discriminate|].
      intros (_ & _ & _ & H). cbn [status_calls take] in H. congruence.
  - eexists _, _. split; [reflexivity|].
    split; [discriminate | intros (_ & _ & H & _); discriminate H].
  - eexists _, _. split; [reflexivity|].
    split; [discriminate | intros (_ & _ & H & _); discriminate H].
Qed.

(** Outside the notify_only mode [execute] succeeds exactly when the
    platform accepts the action. *)
Lemma execute_success record_id now a st :
  mode st ≠ "notify_only" →
  ∃ r st', execute P record_id now a st = (Ok r, st')
    ∧ (success r = true ↔ platform_accepts P a (calls st)).
Proof.
  intros Hmode. unfold platform_accepts.
  destruct (passed (_safety_check a)) eqn:Hpass.
  2:{ destruct (safety_check_reason a Hpass) as [why Hwhy].
      eexists _, _. split.
      - unfold execute, get_mode, mbind, M_bind. cbn beta iota.
        apply String.eqb_neq in Hmode. rewrite Hmode, Hpass, Hwhy.
        reflexivity.
      - split; [discriminate | intros (H & _); discriminate H]. }
  rewrite (execute_dispatch record_id now a st Hmode Hpass).
  destruct (budget_type a) eqn:Hb.
  - destruct (budget_change_success record_id now a (dispatched_increase a)
                st) as (r & st' & -> & Hr).
    exists r, st'. split; [reflexivity|]. rewrite Hr. split.
    + intros (H1 & H2 & H3 & H4 & H5). repeat split; try assumption.
      left. repeat split; assumption.
    + intros (_ & H1 & H2 & H4 & [(_ & H3 & H5) | (H & _)]);
        [repeat split; assumption | discriminate H].
  - destruct (status_type a) eqn:Hs.
    + destruct (status_change_success a (dispatched_status a) st)
        as (r & st' & -> & Hr).
      exists r, st'. split; [reflexivity|]. rewrite Hr. split.
      * intros (H1 & H2 & H3 & H4). repeat split; try assumption.
        right. repeat split; assumption.
      * intros (_ & H1 & H2 & H3 & [(H & _) | (_ & _ & H4)]);
          [discriminate H | repeat split; assumption].
    + eexists _, _. split; [reflexivity|]. split; [discriminate|].
      intros (_ & _ & _ & _ & [(H & _) | (_ & H & _)]); discriminate H.
Qed.

(** X1. [execute] always returns a result: an exception raised by the
    managers or by the update is caught and reported in a result with
    success = False, and so is an answer of theirs that is not true; an
    exception of the insights fetch is swallowed and decides nothing.
    Outside the notify_only mode the result is a success exactly when the
    safety check passes, the agent is connected, the action names a
    campaign (and a budget, for a budget type), the managers are there and
    the update answers true. [execute] leaves the mode, the queue and the
    learned history alone, only appends to the call log (a prefix of the
    calls of the action's type), and reports success only when it executed
    the action or the mode is notify_only. *)
Theorem execute_never_raises record_id now a st :
  ∃ r st', execute P record_id now a st = (Ok r, st')
    ∧ mode st' = mode st ∧ queue st' = queue st
    ∧ Learning.learnings (learner st') = Learning.learnings (learner st)
    ∧ (∃ n, calls st' = calls st ++ take n (platform_calls a))
    ∧ (success r = true → executed r = Some true ∨ mode st = "notify_only")
    ∧ (executed r = Some true → success r = true)
    ∧ (mode st ≠ "notify_only" →
       (success r = true ↔ platform_accepts P a (calls st))).
Proof.
  destruct (execute_outcome record_id now a st) as (r & n & L & E & _ & Hr).
  exists r, (after_calls st (take n (platform_calls a)) L).
  split; [exact E|]. split; [reflexivity|]. split; [reflexivity|].
  cbn [after_calls learner calls].
  assert (Hiff : mode st ≠ "notify_only" →
                 (success r = true ↔ platform_accepts P a (calls st))).
  { intros Hmode.
    destruct (execute_success record_id now a st Hmode)
      as (r' & st' & E' & Hr').
    rewrite E in E'. injection E' as -> _. exact Hr'. }
  destruct Hr as [(H1 & -> & H3) | (H1 & H2 & _ & _ & _ & _ & _ & _ & HL)].
  - split; [reflexivity|]. split; [eauto|]. split; [auto|].
    split; [congruence | exact Hiff].
  - split.
    + destruct HL as [(_ & _ & [-> | (b & _ & ->)]) | (_ & _ & _ & ->)];
        reflexivity.
    + split; [eauto|]. split; [auto|]. split; [auto | exact Hiff].
Qed.

Lemma py_int_le x k :
  (x <= inject_Z k)%Q → (0 <= k)%Z → (py_int x <= k)%Z.
Proof.
  unfold py_int, Qle. destruct x as [p q]. cbn. intros H Hk.
  destruct (Z.le_gt_cases 0 p) as [Hp|Hp].
  - apply Z.quot_le_upper_bound; lia.
  - pose proof (Z.quot_opp_l p (Z.pos q) ltac:(lia)) as E.
    assert (0 <= - p ÷ Z.pos q)%Z by (apply Z.quot_pos; lia). lia.
Qed.

Lemma safety_check_passed_increase a :
  action_type a = Some "budget_increase" → passed (_safety_check a) = true →
  (default 0%Q (increase_percent (params a)) <= 20)%Q
  ∧ (default 0%Q (new_budget (params a)) <= 500000)%Q.
Proof.
  intros Ht. unfold _safety_check. rewrite (type_is_true _ _ Ht).
  cbn [max_budget_increase_percent max_daily_budget safety_limits].
  destruct (Qltb 20 _) eqn:E1; [discriminate|].
  destruct (Qltb 500000 _) eqn:E2; [discriminate|].
  intros _. split; apply Qltb_ge; assumption.
Qed.

(** X2. A result with executed = True is given only after the platform
    accepted the update: it is a success, it carries the action, and the last
    call of the log is the update of the action's campaign (the budget update
    with [int(new_budget)], or a status update), answered true. *)
Theorem executed_means_platform_accepted record_id now a st r st' :
  execute P record_id now a st = (Ok r, st') → executed r = Some true →
  success r = true ∧ result_action r = Some a
  ∧ ∃ log,
      (calls st' = log ++ [Update_campaign_budget (campaign_id a)
                             (py_int (default 0%Q (new_budget (params a))))]
       ∧ update_campaign_budget P log (campaign_id a)
           (py_int (default 0%Q (new_budget (params a)))) = Ok true)
      ∨ (∃ s, calls st' = log ++ [Update_campaign_status (campaign_id a) s]
              ∧ update_campaign_status P log (campaign_id a) s = Ok true).
Proof.
  intros Hrun Hex.
  destruct (execute_outcome record_id now a st) as (r0 & n & L & E & _ & Hr).
  rewrite E in Hrun. injection Hrun as -> <-.
  destruct Hr as [(H1 & _) | (_ & H2 & H3 & _ & _ & _ & _ & -> & HL)];
    [congruence|].
  split; [exact H2|]. split; [exact H3|].
  cbn [after_calls calls]. rewrite firstn_all. unfold platform_calls.
  destruct HL as [(-> & Hu & _) | (-> & -> & Hu & _)].
  - exists (calls st ++ take 2 (budget_calls a)). left.
    split; [|exact Hu]. rewrite <- app_assoc. reflexivity.
  - exists (calls st ++ take 1 (status_calls a (dispatched_status a))). right.
    eexists. split; [|exact Hu]. rewrite <- app_assoc. reflexivity.
Qed.

(** X3. [execute] makes no call on the ad platform and leaves the whole
    executor as it was, with executed = False, when the agent is not
    connected, when the action has no campaign_id (missing or empty), or when
    a budget action has no new_budget (missing or 0). *)
Theorem execute_without_target_makes_no_call record_id now a st :
  meta_connected P = false ∨ truthy_str (campaign_id a) = false
  ∨ budget_type a = true ∧ truthy_num (new_budget (params a)) = false →
  ∃ r, execute P record_id now a st = (Ok r, st) ∧ executed r = Some false.
Proof.
  intros H.
  destruct (execute_outcome record_id now a st) as (r & n & L & -> & Hn & Hr).
  assert (n = 0%nat) as -> by (apply Hn; tauto).
  destruct Hr as [(H1 & -> & _) | (_ & _ & _ & _ & _ & _ & _ & Hlen & HL)].
  - exists r. cbn [take]. rewrite after_calls_nil. split; [reflexivity|exact H1].
  - exfalso. unfold platform_calls in Hlen.
    destruct HL as [(Hb & _) | (Hb & Hs & _)].
    + rewrite Hb in Hlen. discriminate.
    + rewrite Hb, Hs in Hlen. discriminate.
Qed.

(** X4. Executing a budget_increase action never sends a budget above the
    limit: every [update_campaign_budget] call that [execute] adds to the log
    is for the action's campaign, with [int(new_budget)], which is at most
    500000, and the action's increase_percent is at most 20. *)
Theorem budget_increase_calls_within_limits record_id now a st :
  action_type a = Some "budget_increase" →
  ∃ new, calls (execute P record_id now a st).2 = calls st ++ new
    ∧ ∀ c b, Update_campaign_budget c b ∈ new →
        c = campaign_id a
        ∧ b = py_int (default 0%Q (new_budget (params a)))
        ∧ (b <= 500000)%Z
        ∧ (default 0%Q (increase_percent (params a)) <= 20)%Q.
Proof.
  intros Ht.
  destruct (execute_outcome record_id now a st) as (r & n & L & -> & Hn & _).
  exists (take n (platform_calls a)). split; [reflexivity|].
  intros c b Hin.
  destruct (passed (_safety_check a)) eqn:Hpass.
  2:{ rewrite Hn in Hin by tauto. inversion Hin. }
  destruct (safety_check_passed_increase a Ht Hpass) as [Hp Hb].
  apply elem_of_take in Hin as (k & Hk & _).
  unfold platform_calls, budget_type in Hk.
  rewrite (type_is_true _ _ Ht), orb_true_r in Hk. cbn [orb] in Hk.
  destruct k as [|[|[|k]]]; cbn in Hk; try discriminate.
  injection Hk as <- <-. repeat split; [|exact Hp].
  apply py_int_le; [exact Hb|lia].
Qed.

(** X5. [execute] never touches the learned history and adds at most one
    pending learning record: only for a budget type, only after the update
    succeeded and the baseline fetch returned insights. The record holds the
    action and the five baseline metrics and is due 86400 seconds (24 hours)
    after the execution. A status change (pause, resume, status_change) is
    never recorded. *)
Theorem execute_learning_records record_id now a st :
  let st' := (execute P record_id now a st).2 in
  Learning.learnings (learner st') = Learning.learnings (learner st)
  ∧ (budget_type a = false → learner st' = learner st)
  ∧ (Learning.pending (learner st') = Learning.pending (learner st)
     ∨ budget_type a = true
       ∧ (∃ r, (execute P record_id now a st).1 = Ok r
               ∧ executed r = Some true)
       ∧ ∃ log i,
           get_campaign_insights P log (campaign_id a) = Ok (Some i)
           ∧ Learning.pending (learner st')
             = Learning.pending (learner st)
               ++ [{| Learning.rec_id := record_id;
                      Learning.rec_action := a;
                      Learning.rec_campaign_id := campaign_id a;
                      Learning.rec_account_id := account_id a;
                      Learning.rec_executed_at := now;
                      Learning.analyze_after := now + 86400;
                      Learning.rec_baseline := baseline_of i;
                      Learning.rec_status := "pending_analysis" |}]).
Proof.
  cbn zeta.
  destruct (execute_outcome record_id now a st) as (r & n & L & -> & _ & Hr).
  cbn [fst snd after_calls learner].
  destruct Hr as [(_ & -> & _) | (H1 & _ & _ & _ & _ & _ & _ & _ & HL)].
  { split; [reflexivity|]. split; [reflexivity|]. left. reflexivity. }
  destruct HL as [(Hb & _ & [-> | (i & Hi & ->)]) | (Hb & _ & _ & ->)].
  - split; [reflexivity|]. split; [reflexivity|]. left. reflexivity.
  - split; [reflexivity|]. split; [congruence|]. right.
    split; [exact Hb|]. split; [eauto|]. eexists _, i. split; [exact Hi|].
    reflexivity.
  - split; [reflexivity|]. split; [reflexivity|]. left. reflexivity.
Qed.

(** [mark_executed] after an approval: the new entry is the last of the
    history and the only one with its id, so the loop reaches it unless a
    direct-execution entry stands before it. *)
Lemma mark_first_appended i r t h a :
  id a = i → i ∉ history_ids h →
  mark_first i r t (h ++ [Queued a])
  = if existsb is_direct h then Raise KeyError
    else Ok (h ++ [Queued (set_executed t r a)]).
Proof.
  intros Hid. induction h as [|[b|a' r' t'] h IH]; cbn; intros Hni.
  - rewrite (proj2 (String.eqb_eq _ _) Hid). reflexivity.
  - apply not_elem_of_cons in Hni as [Hne Hni].
    destruct (String.eqb_spec (id b) i) as [E|E]; [congruence|].
    rewrite (IH Hni). destruct (existsb is_direct h); reflexivity.
  - reflexivity.
Qed.

(** [approve_action] on a pending id: the approval, the execution, and the
    attempt to record the result. *)
Lemma approve_action_outcome record_id now i st a rest :
  NoDup (queue_ids (queue st)) →
  take_first i (pending (queue st)) = Some (a, rest) →
  let approved := mark_approved now a in
  let st1 := with_queue_of st
               {| pending := rest;
                  history := history (queue st) ++ [Queued approved] |} in
  ∃ r st2, execute P record_id now (action a) st1 = (Ok r, st2)
    ∧ queue st2 = queue st1
    ∧ approve_action P record_id now i st
      = if existsb is_direct (history (queue st)) then (Raise KeyError, st2)
        else (Ok r,
              with_queue_of st2
                {| pending := rest;
                   history := history (queue st)
                              ++ [Queued (set_executed now r approved)] |}).
Proof.
  intros Hnd Htake approved st1.
  destruct (execute_outcome record_id now (action a) st1)
    as (r & n & L & E & _ & _).
  exists r, (after_calls st1 (take n (platform_calls (action a))) L).
  split; [exact E|]. split; [reflexivity|].
  unfold approve_action, mbind, M_bind, queue_approve, approve.
  rewrite Htake. cbn beta iota zeta. fold approved.
  change {| mode := mode st;
            queue := {| pending := rest;
                        history := history (queue st) ++ [Queued approved] |};
            learner := learner st; calls := calls st |} with st1.
  change (action approved) with (action a). rewrite E.
  unfold queue_mark_executed, mark_executed, mbind, Res_bind.
  cbn [after_calls queue st1 with_queue_of history pending].
  rewrite (mark_first_appended i r now (history (queue st)) approved).
  - destruct (existsb is_direct (history (queue st))); reflexivity.
  - apply (take_first_Some _ _ _ _ Htake).
  - exact (NoDup_pending_not_in_history _ _ _ _ Hnd Htake).
Qed.

Lemma take_first_elem i l :
  i ∈ map id l → ∃ a rest, take_first i l = Some (a, rest).
Proof.
  intros H. destruct (take_first i l) as [[a rest]|] eqn:E; [eauto|].
  apply take_first_None in E. contradiction.
Qed.

Lemma existsb_is_direct h :
  existsb is_direct h = true ↔ ∃ a r t, Direct_execution a r t ∈ h.
Proof.
  rewrite existsb_exists. split.
  - intros ([b|a r t] & Hin & Hd); [discriminate|].
    exists a, r, t. apply list_elem_of_In. exact Hin.
  - intros (a & r & t & Hin). exists (Direct_execution a r t).
    split; [apply list_elem_of_In; exact Hin|reflexivity].
Qed.

Lemma take_first_rest_ids i l a rest :
  NoDup (map id l) → take_first i l = Some (a, rest) → i ∉ map id rest.
Proof.
  intros Hnd Htake.
  destruct (take_first_Some _ _ _ _ Htake) as (Hid & l1 & l2 & -> & ->).
  rewrite map_app in *. cbn [map] in Hnd.
  rewrite <- Permutation_middle in Hnd. apply NoDup_cons in Hnd as [Hni _].
  rewrite <- Hid. exact Hni.
Qed.

(** X6. [approve_action] on a pending id of a well-formed queue whose
    history holds no direct execution: the action leaves the pending list, is
    executed, and ends as the last history entry with status executed,
    stamped with the approval and execution time and carrying the returned
    result, whatever that result is (also a refusal or a failure). *)
Theorem approve_action_records_result record_id now i st :
  wf (queue st) → i ∈ map id (pending (queue st)) →
  (∀ a0 r0 t0, Direct_execution a0 r0 t0 ∉ history (queue st)) →
  ∃ r st' e q1,
    approve_action P record_id now i st = (Ok r, st')
    ∧ execute P record_id now (action e) (with_queue_of st q1)
      = (Ok r, with_queue_of st' q1)
    ∧ history (queue st') = history (queue st) ++ [Queued e]
    ∧ id e = i ∧ status e = "executed" ∧ result e = Some r
    ∧ approved_at e = Some now ∧ executed_at e = Some now
    ∧ (i ∉ map id (pending (queue st')))
    ∧ S (length (pending (queue st'))) = length (pending (queue st)).
Proof.
  intros (Hnd & _ & _) Hin Hnone.
  destruct (take_first_elem i _ Hin) as (a & rest & Htake).
  destruct (approve_action_outcome record_id now i st a rest Hnd Htake)
    as (r & st2 & Hex & Hq & Hrun).
  assert (existsb is_direct (history (queue st)) = false) as Hd.
  { apply not_true_iff_false. intros H. apply existsb_is_direct in H.
    destruct H as (a0 & r0 & t0 & H). exact (Hnone _ _ _ H). }
  rewrite Hd in Hrun.
  eexists r, _, (set_executed now r (mark_approved now a)), _.
  split; [exact Hrun|]. split.
  { cbn [action set_executed mark_approved]. rewrite Hex.
    destruct st2 as [m2 q2 l2 c2]. cbn in Hq. subst q2. reflexivity. }
  cbn [queue with_queue_of history pending id status result approved_at
       executed_at set_executed mark_approved].
  split; [reflexivity|].
  split; [apply (take_first_Some _ _ _ _ Htake)|].
  do 4 (split; [reflexivity|]).
  split.
  - apply (take_first_rest_ids i (pending (queue st)) a rest); [|exact Htake].
    unfold queue_ids in Hnd. apply NoDup_app in Hnd as (Hnd & _ & _).
    exact Hnd.
  - destruct (take_first_Some _ _ _ _ Htake) as (_ & l1 & l2 & -> & ->).
    rewrite !length_app. cbn [length]. lia.
Qed.

(** X7. Once the history holds a direct execution, [approve_action] on a
    pending id raises KeyError ([mark_executed] reads the id of an entry that
    has none): the action has left the pending list and has been executed
    (the state is the one [execute] reached), but its history entry stays
    approved, without result and execution time. *)
Theorem approve_action_raises_after_direct_execution record_id now i st
    a0 r0 t0 :
  wf (queue st) → i ∈ map id (pending (queue st)) →
  Direct_execution a0 r0 t0 ∈ history (queue st) →
  ∃ st' e q1 r,
    approve_action P record_id now i st = (Raise KeyError, st')
    ∧ execute P record_id now (action e) (with_queue_of st q1) = (Ok r, st')
    ∧ history (queue st') = history (queue st) ++ [Queued e]
    ∧ id e = i ∧ status e = "approved" ∧ result e = None
    ∧ executed_at e = None
    ∧ (i ∉ map id (pending (queue st'))).
Proof.
  intros (Hnd & Hp & _) Hin Hdirect.
  destruct (take_first_elem i _ Hin) as (a & rest & Htake).
  destruct (approve_action_outcome record_id now i st a rest Hnd Htake)
    as (r & st2 & Hex & Hq & Hrun).
  assert (existsb is_direct (history (queue st)) = true) as Hd
    by (apply existsb_is_direct; eauto).
  rewrite Hd in Hrun.
  eexists st2, (mark_approved now a), _, r.
  split; [exact Hrun|]. split; [exact Hex|].
  rewrite Hq. cbn [queue with_queue_of history pending id status result
                   executed_at mark_approved].
  split; [reflexivity|].
  split; [apply (take_first_Some _ _ _ _ Htake)|].
  split; [reflexivity|].
  destruct (take_first_Some _ _ _ _ Htake) as (_ & l1 & l2 & Hl & _).
  rewrite Hl in Hp. apply Forall_app in Hp as [_ Hp].
  apply Forall_cons in Hp as [(_ & _ & _ & Hex0 & Hres) _].
  split; [exact Hres|]. split; [exact Hex0|].
  apply (take_first_rest_ids i (pending (queue st)) a rest); [|exact Htake].
  unfold queue_ids in Hnd. apply NoDup_app in Hnd as (Hnd & _ & _).
  exact Hnd.
Qed.

(** X8. An action added under an id that is not pending is found again
    under that id: [add_action] returns the id, and a following [approve] (or
    [reject]) returns the entry with the action as it was proposed, restores
    the pending list and appends the entry to the history. *)
Theorem proposed_action_round_trip i t t' why a q :
  (i ∉ map id (pending q)) →
  let q1 := (add_action i t a q).2 in
  let entry := {| id := i; created_at := t; status := "pending"; action := a;
                  approved_at := None; rejected_at := None;
                  reject_reason := None; executed_at := None;
                  result := None |} in
  (add_action i t a q).1 = i
  ∧ approve i t' q1
    = (Some (mark_approved t' entry),
       {| pending := pending q;
          history := history q ++ [Queued (mark_approved t' entry)] |})
  ∧ reject i why t' q1
    = (Some (mark_rejected t' why entry),
       {| pending := pending q;
          history := history q ++ [Queued (mark_rejected t' why entry)] |})
  ∧ action (mark_approved t' entry) = a.
Proof.
  intros Hni q1 entry.
  assert (take_first i (pending q ++ [entry]) = Some (entry, pending q)) as E.
  { clear q1. induction (pending q) as [|b l IH]; cbn.
    - rewrite String.eqb_refl. reflexivity.
    - apply not_elem_of_cons in Hni as [Hne Hni].
      destruct (String.eqb_spec (id b) i) as [Hb|Hb]; [congruence|].
      rewrite (IH Hni). reflexivity. }
  split; [reflexivity|].
  unfold approve, reject, q1, add_action. cbn [snd pending history].
  fold entry. rewrite E. repeat split.
Qed.

(** X9. On a well-formed queue no call on the executor loses or duplicates
    a queued action, [clear_pending] apart: approving, rejecting, a direct
    execution and a mode change keep the ids of pending list and history (up
    to order), a proposal adds its id, and [clear_pending] keeps the ids of
    the history. *)
Theorem queued_ids_are_conserved t op st :
  wf (queue st) →
  match op with
  | Propose i _ =>
      queue_ids (queue (run_op P t op st)) ≡ₚ i :: queue_ids (queue st)
  | Clear_pending =>
      queue_ids (queue (run_op P t op st)) = history_ids (history (queue st))
  | _ => queue_ids (queue (run_op P t op st)) ≡ₚ queue_ids (queue st)
  end.
Proof.
  intros (Hnd & _ & _).
  assert (Hmove : ∀ i a rest x,
            take_first i (pending (queue st)) = Some (a, rest) → id x = i →
            queue_ids {| pending := rest;
                         history := history (queue st) ++ [Queued x] |}
            ≡ₚ queue_ids (queue st)).
  { intros i a rest x Htake Hx.
    destruct (take_first_Some _ _ _ _ Htake) as (Hid & l1 & l2 & Hl & ->).
    unfold queue_ids. cbn [pending history]. rewrite Hl, history_ids_app.
    cbn [history_ids]. rewrite !map_app. cbn [map]. rewrite Hx, Hid.
    rewrite app_assoc, <- Permutation_cons_append.
    rewrite <- (Permutation_middle (map id l1)). reflexivity. }
  destruct op as [i a|i rid|i why|c b acc rid|c s acc|m|]; cbn [run_op].
  - unfold propose_action, add_action, queue_ids. cbn [snd queue pending history].
    rewrite map_app. cbn [map]. rewrite <- app_assoc. cbn [app].
    rewrite <- Permutation_middle. reflexivity.
  - destruct (take_first i (pending (queue st))) as [[a rest]|] eqn:Htake.
    + destruct (approve_action_outcome rid t i st a rest Hnd Htake)
        as (r & st2 & _ & Hq & ->).
      destruct (existsb is_direct (history (queue st))); cbn [snd].
      * rewrite Hq. apply (Hmove i a rest); [exact Htake|].
        apply (take_first_Some _ _ _ _ Htake).
      * apply (Hmove i a rest); [exact Htake|].
        apply (take_first_Some _ _ _ _ Htake).
    + unfold approve_action, mbind, M_bind, queue_approve, approve.
      rewrite Htake. reflexivity.
  - unfold reject_action, mbind, M_bind, queue_reject, reject.
    destruct (take_first i (pending (queue st))) as [[a rest]|] eqn:Htake;
      cbn; [|reflexivity].
    apply (Hmove i a rest); [exact Htake|].
    apply (take_first_Some _ _ _ _ Htake).
  - unfold execute_budget_change_direct.
    destruct (negb (passed (_safety_check (direct_budget_action c acc b))));
      [reflexivity|].
    unfold mbind, M_bind.
    destruct (keeps_execute_budget_change P rid t
                (direct_budget_action c acc b) true st) as [Hq _].
    destruct (_execute_budget_change P rid t
                (direct_budget_action c acc b) true st) as [[r|e] st1];
      cbn [snd] in *; rewrite <- Hq; [|reflexivity].
    unfold queue_ids. cbn. rewrite history_ids_app. cbn.
    rewrite app_nil_r. reflexivity.
  - unfold execute_status_change_direct, mbind, M_bind.
    destruct (keeps_execute_status_change P (direct_status_action c acc s) s st)
      as [Hq _].
    destruct (_execute_status_change P (direct_status_action c acc s) s st)
      as [[r|e] st1]; cbn [snd] in *; rewrite <- Hq; [|reflexivity].
    unfold queue_ids. cbn. rewrite history_ids_app. cbn.
    rewrite app_nil_r. reflexivity.
  - reflexivity.
  - reflexivity.
Qed.

(** X10. [get_history(limit)] returns a suffix of the history: its last
    [min(limit, len)] entries for a positive limit, but the whole history for
    limit 0 (the slice [-0:]), and the history without its first [-limit]
    entries for a negative limit. *)
Theorem get_history_returns_latest limit q :
  (∃ older, history q = older ++ get_history limit q)
  ∧ ((0 < limit)%Z →
     length (get_history limit q)
     = Nat.min (Z.to_nat limit) (length (history q)))
  ∧ (limit = 0%Z → get_history limit q = history q)
  ∧ ((limit < 0)%Z →
     get_history limit q = drop (Z.to_nat (- limit)) (history q)).
Proof.
  unfold get_history, slice_from. cbn zeta.
  set (h := history q). split; [|split; [|split]].
  - eexists. symmetry. apply take_drop.
  - intros H. destruct (Z.ltb_spec (- limit) 0); [|lia].
    rewrite length_drop. lia.
  - intros ->. destruct (Z.ltb_spec (- 0) 0); [lia|].
    rewrite Z.min_l by lia. reflexivity.
  - intros H. destruct (Z.ltb_spec (- limit) 0); [lia|].
    destruct (Z.le_gt_cases (- limit) (Z.of_nat (length h))) as [Hle|Hgt].
    + rewrite Z.min_l by lia. reflexivity.
    + rewrite Z.min_r by lia. rewrite Nat2Z.id.
      rewrite !drop_ge by lia. reflexivity.
Qed.
End ExecutorFacts.

Section ExecutorScenarios.
Import Actions ExecutorTraces.

Lemma executed_means_platform_accepted_witness :
  ∃ r st',
    execute accepting_platform "r1" 0 pause_c2 (new_executor "auto_execute")
    = (Ok r, st')
    ∧ executed r = Some true
    ∧ success r = true ∧ result_action r = Some pause_c2
    ∧ ∃ log,
        (calls st' = log ++ [Update_campaign_budget (campaign_id pause_c2)
                               (py_int (default 0%Q
                                          (new_budget (params pause_c2))))]
         ∧ update_campaign_budget accepting_platform log
             (campaign_id pause_c2)
             (py_int (default 0%Q (new_budget (params pause_c2)))) = Ok true)
        ∨ (∃ s, calls st' = log ++ [Update_campaign_status
                                      (campaign_id pause_c2) s]
                ∧ update_campaign_status accepting_platform log
                    (campaign_id pause_c2) s = Ok true).
Proof.
  eexists _, _. split; [vm_compute; reflexivity|]. split; [reflexivity|].
  apply (executed_means_platform_accepted accepting_platform "r1" 0 pause_c2
           (new_executor "auto_execute")); reflexivity.
Defined.

Lemma execute_without_target_makes_no_call_witness :
  ∃ r, execute offline_platform "r1" 0 pause_c2 (new_executor "auto_execute")
       = (Ok r, new_executor "auto_execute")
    ∧ executed r = Some false.
Proof.
  apply (execute_without_target_makes_no_call offline_platform "r1" 0 pause_c2
           (new_executor "auto_execute")).
  left. reflexivity.
Defined.

Lemma budget_increase_calls_within_limits_witness :
  ∃ new,
    calls (execute accepting_platform "r1" 0 increase_10_percent
             (new_executor "auto_execute")).2
    = calls (new_executor "auto_execute") ++ new
    ∧ ∀ c b, Update_campaign_budget c b ∈ new →
        c = campaign_id increase_10_percent
        ∧ b = py_int (default 0%Q (new_budget (params increase_10_percent)))
        ∧ (b <= 500000)%Z
        ∧ (default 0%Q (increase_percent (params increase_10_percent))
           <= 20)%Q.
Proof.
  apply (budget_increase_calls_within_limits accepting_platform "r1" 0
           increase_10_percent (new_executor "auto_execute")).
  reflexivity.
Defined.

Lemma wf_queued_executor : wf (queue queued_executor).
Proof.
  split; [apply NoDup_singleton|]. split; [repeat constructor|constructor].
Qed.

Lemma approve_action_records_result_witness :
  ∃ r st' e q1,
    approve_action accepting_platform "r1" 5 "x1" queued_executor = (Ok r, st')
    ∧ execute accepting_platform "r1" 5 (action e)
        (with_queue_of queued_executor q1)
      = (Ok r, with_queue_of st' q1)
    ∧ history (queue st') = history (queue queued_executor) ++ [Queued e]
    ∧ id e = "x1" ∧ status e = "executed" ∧ result e = Some r
    ∧ approved_at e = Some 5 ∧ executed_at e = Some 5
    ∧ ("x1" ∉ map id (pending (queue st')))
    ∧ S (length (pending (queue st')))
      = length (pending (queue queued_executor)).
Proof.
  apply (approve_action_records_result accepting_platform "r1" 5 "x1"
           queued_executor wf_queued_executor).
  - left.
  - intros a0 r0 t0 H. inversion H.
Defined.

Lemma wf_executor_after_direct : wf (queue executor_after_direct).
Proof.
  split; [apply NoDup_singleton|].
  split; [repeat constructor|repeat constructor].
Qed.

Lemma approve_action_raises_after_direct_execution_witness :
  ∃ st' e q1 r,
    approve_action accepting_platform "r1" 5 "x2" executor_after_direct
    = (Raise KeyError, st')
    ∧ execute accepting_platform "r1" 5 (action e)
        (with_queue_of executor_after_direct q1) = (Ok r, st')
    ∧ history (queue st')
      = history (queue executor_after_direct) ++ [Queued e]
    ∧ id e = "x2" ∧ status e = "approved" ∧ result e = None
    ∧ executed_at e = None
    ∧ ("x2" ∉ map id (pending (queue st'))).
Proof.
  eapply (approve_action_raises_after_direct_execution accepting_platform "r1"
            5 "x2" executor_after_direct _ _ _ wf_executor_after_direct).
  - left.
  - left.
Defined.

Lemma proposed_action_round_trip_witness :
  (add_action "x1" 0 pause_c2 {| pending := []; history := [] |}).1 = "x1"
  ∧ action (mark_approved 1
              {| id := "x1"; created_at := 0; status := "pending";
                 action := pause_c2; approved_at := None; rejected_at := None;
                 reject_reason := None; executed_at := None;
                 result := None |}) = pause_c2.
Proof.
  destruct (proposed_action_round_trip "x1" 0 1 "no" pause_c2
              {| pending := []; history := [] |}) as (H1 & _ & _ & H4).
  - intros H. inversion H.
  - split; [exact H1|exact H4].
Defined.

Lemma queued_ids_are_conserved_witness :
  queue_ids (queue (run_op accepting_platform 5 (Approve "x1" "r1")
                      queued_executor))
  ≡ₚ queue_ids (queue queued_executor).
Proof.
  apply (queued_ids_are_conserved accepting_platform 5 (Approve "x1" "r1")
           queued_executor wf_queued_executor).
Defined.
End ExecutorScenarios.

(** ** Properties of the learner's statistics and verdicts *)

Section LearnerFacts.
Import Learning LearnerStats LearnerRuns.

Lemma similar_loop_spec t limit l : ∀ similar,
  (Z.of_nat (length similar) < Z.max 1 limit)%Z →
  similar_loop t limit l similar
  = similar ++ take (Z.to_nat (Z.max 1 limit) - length similar) (of_type t l).
Proof.
  unfold of_type.
  induction l as [|x l IH]; intros similar Hlen; cbn [similar_loop].
  - rewrite filter_nil, take_nil, app_nil_r. reflexivity.
  - unfold type_is. destruct (decide (action_type (l_action x) = Some t)) as [E|E].
    + rewrite bool_decide_eq_true_2 by exact E.
      rewrite filter_cons_True by exact E. cbn zeta.
      destruct (Z.geb_spec (Z.of_nat (length (similar ++ [x]))) limit) as [H|H].
      * rewrite length_app in H. cbn [length] in H.
        replace (Z.to_nat (Z.max 1 limit) - length similar)%nat with 1%nat by lia.
        cbn [take]. rewrite take_0. reflexivity.
      * rewrite length_app in H. cbn [length] in H.
        rewrite IH by (rewrite length_app; cbn [length]; lia).
        rewrite length_app. cbn [length].
        replace (Z.to_nat (Z.max 1 limit) - length similar)%nat
          with (S (Z.to_nat (Z.max 1 limit) - (length similar + 1)))%nat by lia.
        cbn [take]. rewrite <- app_assoc. reflexivity.
    + rewrite bool_decide_eq_false_2 by exact E.
      rewrite filter_cons_False by exact E. apply IH. exact Hlen.
Qed.

(** X11. [get_similar_learnings] returns the learnings of the asked action
    type, newest first, cut after [max(1, limit)] entries: the limit is
    tested after an entry is appended, so a limit of 0 or less still returns
    one learning when there is one. *)
Theorem similar_learnings_newest_first t limit L :
  get_similar_learnings t limit L
  = take (Z.to_nat (Z.max 1 limit)) (of_type t (rev (learnings L))).
Proof.
  unfold get_similar_learnings. rewrite similar_loop_spec by (cbn; lia).
  cbn [app length]. rewrite Nat.sub_0_r. reflexivity.
Qed.

Lemma count_loop_spec t l : ∀ c,
  let c' := foldl (count_step t) c l in
  c_total c' = c_total c + Z.of_nat (length (of_type t l))
  ∧ c_improved c'
    = c_improved c + Z.of_nat (length (with_effect "improved" (of_type t l)))
  ∧ c_worsened c'
    = c_worsened c + Z.of_nat (length (with_effect "worsened" (of_type t l))).
Proof.
  unfold of_type, with_effect.
  induction l as [|x l IH]; intros c; cbn zeta.
  - cbn. lia.
  - cbn [foldl]. destruct (IH (count_step t c x)) as (H1 & H2 & H3).
    rewrite H1, H2, H3. clear H1 H2 H3 IH. unfold count_step, type_is.
    destruct (decide (action_type (l_action x) = Some t)) as [E|E].
    + rewrite bool_decide_eq_true_2 by exact E.
      rewrite filter_cons_True by exact E. cbn [c_total c_improved c_worsened].
      destruct (String.eqb_spec (l_effect x) "improved") as [Ei|Ei].
      * rewrite (filter_cons_True (λ x, l_effect x = "improved")) by exact Ei.
        rewrite (filter_cons_False (λ x, l_effect x = "worsened")) by congruence.
        cbn [length]. lia.
      * rewrite (filter_cons_False (λ x, l_effect x = "improved")) by exact Ei.
        destruct (String.eqb_spec (l_effect x) "worsened") as [Ew|Ew].
        -- rewrite (filter_cons_True (λ x, l_effect x = "worsened")) by exact Ew.
           cbn [length]. lia.
        -- rewrite (filter_cons_False (λ x, l_effect x = "worsened")) by exact Ew.
           cbn [length]. lia.
    + rewrite bool_decide_eq_false_2 by exact E.
      rewrite filter_cons_False by exact E. lia.
Qed.

Lemma effects_disjoint (l : list Learning) :
  (length (with_effect "improved" l) + length (with_effect "worsened" l)
   ≤ length l)%nat.
Proof.
  unfold with_effect. induction l as [|x l IH]; [cbn; lia|].
  destruct (decide (l_effect x = "improved")) as [Ei|Ei].
  - rewrite (filter_cons_True (λ x, l_effect x = "improved")) by exact Ei.
    rewrite (filter_cons_False (λ x, l_effect x = "worsened")) by congruence.
    cbn [length]. lia.
  - rewrite (filter_cons_False (λ x, l_effect x = "improved")) by exact Ei.
    destruct (decide (l_effect x = "worsened")) as [Ew|Ew].
    + rewrite (filter_cons_True (λ x, l_effect x = "worsened")) by exact Ew.
      cbn [length]. lia.
    + rewrite (filter_cons_False (λ x, l_effect x = "worsened")) by exact Ew.
      cbn [length]. lia.
Qed.

Lemma get_success_rate_spec t L :
  let l := of_type t (learnings L) in
  let total := Z.of_nat (length l) in
  let improved := Z.of_nat (length (with_effect "improved" l)) in
  let worsened := Z.of_nat (length (with_effect "worsened" l)) in
  get_success_rate t L
  = Ok {| sr_total := total; sr_improved := improved; sr_worsened := worsened;
          sr_neutral := total - improved - worsened;
          success_rate := if (0 <? total)%Z
                          then (inject_Z improved / inject_Z total * 100)%Q
                          else 0%Q |}.
Proof.
  cbn zeta. unfold get_success_rate. cbn zeta.
  destruct (count_loop_spec t (learnings L)
              {| c_total := 0; c_improved := 0; c_worsened := 0 |})
    as (H1 & H2 & H3).
  cbn [c_total c_improved c_worsened] in *. rewrite H1, H2, H3.
  rewrite !Z.add_0_l.
  destruct (Z.ltb_spec 0 (Z.of_nat (length (of_type t (learnings L)))))
    as [Hpos|Hz].
  - rewrite pydiv_pos; [reflexivity|].
    apply Qltb_lt. unfold Qlt. cbn. lia.
  - reflexivity.
Qed.

(** X12. [get_success_rate] never raises (no division by a zero total) and
    its counts add up: total is the number of learnings of the type, improved
    and worsened count those effects, neutral is the rest and is not
    negative, and the rate is improved / total * 100, between 0 and 100, and
    0 when there is no learning of the type. *)
Theorem success_rate_counts_add_up t L :
  ∃ s, get_success_rate t L = Ok s
    ∧ sr_total s = Z.of_nat (length (of_type t (learnings L)))
    ∧ sr_improved s
      = Z.of_nat (length (with_effect "improved" (of_type t (learnings L))))
    ∧ sr_worsened s
      = Z.of_nat (length (with_effect "worsened" (of_type t (learnings L))))
    ∧ (0 <= sr_neutral s)%Z
    ∧ (sr_improved s + sr_worsened s + sr_neutral s = sr_total s)%Z
    ∧ (0 <= success_rate s)%Q ∧ (success_rate s <= 100)%Q
    ∧ (sr_total s = 0%Z → success_rate s = 0%Q)
    ∧ ((0 < sr_total s)%Z →
       success_rate s
       = (inject_Z (sr_improved s) / inject_Z (sr_total s) * 100)%Q).
Proof.
  eexists. split; [apply get_success_rate_spec|].
  cbn [sr_total sr_improved sr_worsened sr_neutral success_rate].
  set (l := of_type t (learnings L)).
  pose proof (effects_disjoint l) as Hd.
  assert (length (with_effect "improved" l) ≤ length l)%nat as Hi
    by (unfold with_effect; apply length_filter).
  split; [reflexivity|]. split; [reflexivity|]. split; [reflexivity|].
  split; [lia|]. split; [lia|].
  destruct (Z.ltb_spec 0 (Z.of_nat (length l))) as [Hpos|Hz].
  - assert (0 < inject_Z (Z.of_nat (length l)))%Q as Hq
      by (unfold Qlt; cbn; lia).
    assert (0 <= inject_Z (Z.of_nat (length (with_effect "improved" l))))%Q
      as Hn by (unfold Qle; cbn; lia).
    assert (inject_Z (Z.of_nat (length (with_effect "improved" l)))
            <= inject_Z (Z.of_nat (length l)))%Q as Hle
      by (unfold Qle; cbn; lia).
    split; [|split; [|split; [lia|reflexivity]]].
    + apply Qmult_le_0_compat; [|discriminate].
      apply Qle_shift_div_l; [exact Hq|]. lra.
    + apply Qle_trans with (1 * 100)%Q; [|vm_compute; discriminate].
      apply Qmult_le_compat_r; [|discriminate].
      apply Qle_shift_div_r; [exact Hq|]. lra.
  - split; [discriminate|]. split; [discriminate|]. split; [reflexivity|lia].
Qed.

(** [calc_change] never divides by zero. *)
Lemma calc_change_value before after :
  calc_change before after
  = Ok (if Qltb 0 before then ((after - before) / before * 100)%Q else 0%Q).
Proof.
  unfold calc_change. destruct (Qltb 0 before) eqn:E.
  - rewrite (Qltb_pos_nonzero _ E). cbn [negb andb].
    rewrite (pydiv_pos _ _ E). reflexivity.
  - rewrite andb_false_r. reflexivity.
Qed.

(** X14. [_determine_effect] never raises (a baseline that is zero or
    missing gives a change of 0) and its verdict is improved, worsened or
    neutral; neutral comes with the text of no clear effect and confidence
    0.5; a pause is always improved with confidence 0.9, whatever the
    metrics; a budget decrease is never worsened; and any other type than
    budget_increase, budget_change, budget_decrease and pause is neutral. *)
Theorem determine_effect_verdicts t baseline current :
  ∃ e, _determine_effect t baseline current = Ok e
    ∧ (verdict e = "improved" ∨ verdict e = "worsened"
       ∨ verdict e = "neutral")
    ∧ (verdict e = "neutral" →
       detail e = No_clear_effect ∧ confidence e = (1 # 2)%Q)
    ∧ (t = "pause" →
       verdict e = "improved" ∧ confidence e = (9 # 10)%Q
       ∧ detail e = Spend_stopped (dget baseline "spend" 0))
    ∧ (t = "budget_decrease" → verdict e ≠ "worsened")
    ∧ (t ∉ ["budget_increase"; "budget_change"; "budget_decrease"; "pause"] →
       verdict e = "neutral").
Proof.
  unfold _determine_effect. rewrite !calc_change_value. cbn [mbind Res_bind].
  cbn zeta.
  destruct (String.eqb_spec t "budget_increase") as [E1|E1].
  { subst t. cbn [orb].
    repeat match goal with
    | |- context [if ?c then _ else _] => destruct c
    end; eexists; (split; [reflexivity|]); cbn;
      repeat split; intros; try discriminate; auto;
      exfalso; match goal with H : _ ∉ _ |- _ => apply H end; in_list. }
  destruct (String.eqb_spec t "budget_change") as [E2|E2].
  { subst t. cbn [orb].
    repeat match goal with
    | |- context [if ?c then _ else _] => destruct c
    end; eexists; (split; [reflexivity|]); cbn;
      repeat split; intros; try discriminate; auto;
      exfalso; match goal with H : _ ∉ _ |- _ => apply H end; in_list. }
  cbn [orb].
  destruct (String.eqb_spec t "budget_decrease") as [E3|E3].
  { subst t.
    repeat match goal with
    | |- context [if ?c then _ else _] => destruct c
    end; eexists; (split; [reflexivity|]); cbn;
      repeat split; intros; try discriminate; auto;
      exfalso; match goal with H : _ ∉ _ |- _ => apply H end; in_list. }
  destruct (String.eqb_spec t "pause") as [E4|E4].
  { subst t. eexists; (split; [reflexivity|]); cbn;
      repeat split; intros; try discriminate; auto.
    exfalso; match goal with H : _ ∉ _ |- _ => apply H end; in_list. }
  eexists; (split; [reflexivity|]); cbn.
  repeat split; intros; try congruence; auto.
Qed.

Lemma change_below b c k :
  (0 < b)%Q → (((c - b) / b * 100 < k)%Q ↔ (100 * c < (100 + k) * b)%Q).
Proof.
  intros Hb.
  assert (E : ((c - b) / b * 100 == (100 * c - 100 * b) / b)%Q).
  { field. intros H. rewrite H in Hb. exact (Qlt_irrefl 0 Hb). }
  rewrite E. split; intros H.
  - assert (100 * c - 100 * b < k * b)%Q.
    { apply (Qmult_lt_r _ _ b Hb) in H.
      assert (E2 : ((100 * c - 100 * b) / b * b == 100 * c - 100 * b)%Q).
      { field. intros H0. rewrite H0 in Hb. exact (Qlt_irrefl 0 Hb). }
      rewrite E2 in H. exact H. }
    lra.
  - apply Qlt_shift_div_r; [exact Hb|]. lra.
Qed.

Lemma change_above b c k :
  (0 < b)%Q → ((k < (c - b) / b * 100)%Q ↔ ((100 + k) * b < 100 * c)%Q).
Proof.
  intros Hb.
  assert (E : ((c - b) / b * 100 == (100 * c - 100 * b) / b)%Q).
  { field. intros H. rewrite H in Hb. exact (Qlt_irrefl 0 Hb). }
  rewrite E. split; intros H.
  - assert (k * b < 100 * c - 100 * b)%Q.
    { apply (Qmult_lt_r _ _ b Hb) in H.
      assert (E2 : ((100 * c - 100 * b) / b * b == 100 * c - 100 * b)%Q).
      { field. intros H0. rewrite H0 in Hb. exact (Qlt_irrefl 0 Hb). }
      rewrite E2 in H. exact H. }
    lra.
  - apply Qlt_shift_div_l; [exact Hb|]. lra.
Qed.

(** X15. For a budget_increase or budget_change whose CPA is positive
    before and after, the CPA decides first, whatever ROAS and CPF did: a CPA
    below 90% of the baseline is improved, a CPA above 120% of the baseline
    is worsened (both with confidence 0.8), and in between the verdict is not
    based on the CPA. *)
Theorem budget_change_effect_follows_cpa t baseline current :
  t = "budget_increase" ∨ t = "budget_change" →
  (0 < dget baseline "cpa" 0)%Q → (0 < dget current "cpa" 0)%Q →
  let before := dget baseline "cpa" 0 in
  let after := dget current "cpa" 0 in
  ∃ e, _determine_effect t baseline current = Ok e
    ∧ ((100 * after < 90 * before)%Q →
       verdict e = "improved" ∧ confidence e = (8 # 10)%Q
       ∧ ∃ change, detail e = CPA_improved before after change)
    ∧ ((120 * before < 100 * after)%Q →
       verdict e = "worsened" ∧ confidence e = (8 # 10)%Q
       ∧ ∃ change, detail e = CPA_worsened before after change)
    ∧ ((90 * before <= 100 * after)%Q → (100 * after <= 120 * before)%Q →
       ∀ x y z, detail e ≠ CPA_improved x y z
                ∧ detail e ≠ CPA_worsened x y z).
Proof.
  intros Ht Hb Hc before after.
  assert (Hty : String.eqb t "budget_increase" || String.eqb t "budget_change"
                = true).
  { destruct Ht as [-> | ->]; reflexivity. }
  unfold _determine_effect. rewrite !calc_change_value. cbn [mbind Res_bind].
  cbn zeta. rewrite Hty. fold before after.
  pose proof (proj2 (Qltb_lt _ _) Hb) as Hb'.
  pose proof (proj2 (Qltb_lt _ _) Hc) as Hc'.
  fold before in Hb'. fold after in Hc'. rewrite Hb', Hc'. cbn [andb].
  change (0 < before)%Q in Hb. change (0 < after)%Q in Hc.
  destruct (Qltb ((after - before) / before * 100) (-10)) eqn:E1.
  { apply Qltb_lt, (change_below before after (-10) Hb) in E1.
    eexists; split; [reflexivity|]. cbn. split; [eauto|].
    split; [intros; exfalso; lra|]. intros; exfalso; lra. }
  apply Qltb_ge in E1.
  destruct (Qltb 20 ((after - before) / before * 100)) eqn:E2.
  { apply Qltb_lt, (change_above before after 20 Hb) in E2.
    eexists; split; [reflexivity|]. cbn. split; [intros; exfalso; lra|].
    split; [eauto|]. intros; exfalso; lra. }
  apply Qltb_ge in E2.
  assert (N1 : ¬ (100 * after < 90 * before)%Q).
  { intros H. apply Qle_not_lt in E1. apply E1.
    apply (change_below before after (-10) Hb). lra. }
  assert (N2 : ¬ (120 * before < 100 * after)%Q).
  { intros H. apply Qle_not_lt in E2. apply E2.
    apply (change_above before after 20 Hb). lra. }
  repeat match goal with
  | |- context [if ?c then _ else _] => destruct c
  end; eexists; (split; [reflexivity|]); cbn;
    (split; [intros; contradiction|]); (split; [intros; contradiction|]);
    intros; split; discriminate.
Qed.


Lemma budget_change_effect_follows_cpa_witness :
  ∃ e, _determine_effect "budget_increase" cpa_1000 cpa_800 = Ok e
    ∧ verdict e = "improved".
Proof.
  destruct (budget_change_effect_follows_cpa "budget_increase" cpa_1000
              cpa_800) as (e & He & Hi & _).
  - left. reflexivity.
  - reflexivity.
  - reflexivity.
  - exists e. split; [exact He|]. apply Hi. reflexivity.
Defined.

Lemma four_types_disjoint (l : list Learning) :
  (length (of_type "budget_increase" l) + length (of_type "budget_decrease" l)
   + length (of_type "pause" l) + length (of_type "resume" l)
   ≤ length l)%nat.
Proof.
  unfold of_type. induction l as [|x l IH]; [cbn; lia|].
  rewrite !filter_cons.
  repeat case_decide; cbn [length]; try lia; congruence.
Qed.

(** X13. [get_learning_summary] never raises; it counts the learnings and
    the pending records, gives the success rates of exactly four action
    types (budget_increase, budget_decrease, pause, resume), whose totals
    together do not exceed the number of learnings (a learning of another
    type, such as budget_change, is in no rate), and returns the last five
    learnings as recent. *)
Theorem learning_summary_counts_four_types L :
  ∃ s bi bd pa re,
    get_learning_summary L = Ok s
    ∧ total_learnings s = length (learnings L)
    ∧ pending_analysis s = length (pending L)
    ∧ by_action_type s = [("budget_increase", bi); ("budget_decrease", bd);
                          ("pause", pa); ("resume", re)]
    ∧ get_success_rate "budget_increase" L = Ok bi
    ∧ get_success_rate "budget_decrease" L = Ok bd
    ∧ get_success_rate "pause" L = Ok pa
    ∧ get_success_rate "resume" L = Ok re
    ∧ (sr_total bi + sr_total bd + sr_total pa + sr_total re
       <= Z.of_nat (total_learnings s))%Z
    ∧ recent_learnings s = drop (length (learnings L) - 5) (learnings L).
Proof.
  unfold get_learning_summary. rewrite !get_success_rate_spec.
  cbn [mbind Res_bind]. eexists _, _, _, _, _.
  split; [reflexivity|]. cbn [total_learnings pending_analysis by_action_type
                              recent_learnings sr_total].
  do 7 (split; [reflexivity|]). split.
  - pose proof (four_types_disjoint (learnings L)). cbn [sr_total]. lia.
  - destruct (learnings L) as [|x l] eqn:E; [reflexivity|].
    unfold slice_from. cbn zeta.
    change (-5 <? 0)%Z with true. cbn iota. f_equal. lia.
Qed.
End LearnerFacts.

(** ** Properties of the analysis runs *)

Section AnalysisFacts.
Import Learning LearnerStats LearnerRuns.
Context (P : Platform) (now : Z).

Lemma determine_effect_returns t baseline current :
  ∃ e, _determine_effect t baseline current = Ok e
    ∧ verdict e ∈ ["improved"; "worsened"; "neutral"].
Proof.
  unfold _determine_effect. rewrite !calc_change_value. cbn [mbind Res_bind].
  cbn zeta.
  repeat match goal with
  | |- context [if ?c then _ else _] => destruct c
  end; eexists; (split; [reflexivity|]); cbn; in_list.
Qed.

Lemma analyze_effect_available r cs :
  insights_available P →
  ∃ res cs', _analyze_action_effect P now r cs = (Some res, cs')
    ∧ learned_from now r res.
Proof.
  intros (_ & Hm & Hi).
  unfold _analyze_action_effect, analyze_body. rewrite Hm.
  destruct (Hi (cs ++ [Get_managers (rec_account_id r)]) (rec_campaign_id r))
    as (cur & -> & Hsize).
  apply Nat.eqb_neq in Hsize. rewrite Hsize.
  destruct (determine_effect_returns
              (default "" (action_type (rec_action r))) (rec_baseline r) cur)
    as (e & -> & He).
  cbn. eexists _, _. split; [reflexivity|].
  unfold learned_from. cbn. repeat split. exact He.
Qed.

Lemma analyze_loop_available (l : list LearningRecord) :
  insights_available P →
  ∀ s, let s' := foldl (analyze_step P now) s l in
    ∃ new, ls_learnings s' = ls_learnings s ++ new
         ∧ ls_analyzed s' = ls_analyzed s ++ new
         ∧ Forall2 (learned_from now)
             (filter (λ r, (analyze_after r <= now)%Z) l) new.
Proof.
  intros Hav. induction l as [|r l IH]; intros s; cbn zeta.
  { exists []. cbn. rewrite !app_nil_r. repeat split. constructor. }
  cbn [foldl].
  destruct (IH (analyze_step P now s r)) as (new & Hl & Ha & Hn).
  rewrite Hl, Ha. clear Hl Ha IH. unfold analyze_step.
  destruct (Z.geb_spec now (analyze_after r)) as [E|E].
  - rewrite filter_cons_True by lia.
    destruct (analyze_effect_available r (ls_calls s) Hav)
      as (res & cs' & -> & Hres).
    cbn [ls_learnings ls_analyzed]. exists (res :: new).
    rewrite <- !app_assoc. repeat split. constructor; assumption.
  - rewrite filter_cons_False by lia.
    cbn [ls_learnings ls_analyzed]. exists new. repeat split. exact Hn.
Qed.

Lemma filter_elapsed_split (l : list LearningRecord) :
  (length (filter (λ r, (analyze_after r <= now)%Z) l)
   + length (filter (λ r, (now < analyze_after r)%Z) l) = length l)%nat.
Proof.
  induction l as [|r l IH]; [reflexivity|].
  destruct (Z.le_gt_cases (analyze_after r) now) as [H|H].
  - rewrite filter_cons_True by exact H.
    rewrite filter_cons_False by lia. cbn [length]. lia.
  - rewrite filter_cons_False by lia.
    rewrite filter_cons_True by lia. cbn [length]. lia.
Qed.

(** X16. When the platform is connected and every fetch returns insights
    that are not empty, [analyze_pending_actions] loses nothing: every
    elapsed record yields exactly one learning, in order, with the record's
    id, action, campaign, account, execution time and baseline, analysed at
    [now], with one of the three effects; these are what it returns and
    appends to the learned history; the other records stay pending. *)
Theorem analysis_with_insights_loses_nothing calls L :
  insights_available P →
  let out := analyze_pending_actions P now calls L in
  Forall2 (learned_from now)
    (filter (λ r, (analyze_after r <= now)%Z) (pending L)) out.1.1
  ∧ pending out.1.2 = filter (λ r, (now < analyze_after r)%Z) (pending L)
  ∧ learnings out.1.2 = learnings L ++ out.1.1
  ∧ (length out.1.1 + length (pending out.1.2) = length (pending L))%nat.
Proof.
  intros Hav out.
  destruct (analyze_pending_connected P now calls L (proj1 Hav))
    as (Hp & Hl & _).
  fold out in Hp, Hl.
  assert (Hf : Forall2 (learned_from now)
                 (filter (λ r, (analyze_after r <= now)%Z) (pending L))
                 out.1.1).
  { unfold out, analyze_pending_actions. rewrite (proj1 Hav). cbn [negb fst].
    destruct (analyze_loop_available (pending L) Hav
                {| ls_learnings := learnings L; ls_analyzed := [];
                   ls_still_pending := []; ls_calls := calls |})
      as (new & _ & Ha & Hn).
    rewrite Ha. exact Hn. }
  split; [exact Hf|]. split; [exact Hp|]. split; [exact Hl|].
  rewrite Hp, <- (Forall2_length _ _ _ Hf). apply filter_elapsed_split.
Qed.

(** X17. [record_action_with_baseline] returns the id and appends one
    pending record due 86400 seconds after [t0]; an analysis run before that
    time (or with the agent not connected) keeps the record pending, and a
    run at or after that time with the agent connected removes it from the
    pending list. *)
Theorem recorded_action_is_due_after_24_hours record_id t0 a campaign account
    baseline L calls :
  let recorded := record_action_with_baseline record_id t0 a campaign account
                    baseline L in
  let record := {| rec_id := record_id; rec_action := a;
                   rec_campaign_id := campaign; rec_account_id := account;
                   rec_executed_at := t0; analyze_after := t0 + 86400;
                   rec_baseline := baseline;
                   rec_status := "pending_analysis" |} in
  let after := (analyze_pending_actions P now calls recorded.2).1.2 in
  recorded.1 = record_id
  ∧ pending recorded.2 = pending L ++ [record]
  ∧ learnings recorded.2 = learnings L
  ∧ ((now < t0 + 86400)%Z ∨ meta_connected P = false →
     record ∈ pending after)
  ∧ ((t0 + 86400 <= now)%Z → meta_connected P = true →
     record ∉ pending after).
Proof.
  cbn zeta. split; [reflexivity|]. split; [reflexivity|].
  split; [reflexivity|].
  set (L1 := (record_action_with_baseline record_id t0 a campaign account
                baseline L).2).
  set (record := {| rec_id := record_id; rec_action := a;
                    rec_campaign_id := campaign; rec_account_id := account;
                    rec_executed_at := t0; analyze_after := t0 + 86400;
                    rec_baseline := baseline;
                    rec_status := "pending_analysis" |}).
  assert (Hin : record ∈ pending L1).
  { unfold L1, record_action_with_baseline. cbn [snd pending].
    apply elem_of_app. right. left. }
  split.
  - intros H. destruct (meta_connected P) eqn:Hc.
    + destruct H as [H|H]; [|discriminate].
      destruct (analyze_pending_connected P now calls L1 Hc) as (-> & _).
      apply list_elem_of_filter. split; [exact H|exact Hin].
    + unfold analyze_pending_actions. rewrite Hc. exact Hin.
  - intros H Hc.
    destruct (analyze_pending_connected P now calls L1 Hc) as (-> & _).
    intros Hf. apply list_elem_of_filter in Hf as [Hf _]. cbn in Hf. lia.
Qed.
End AnalysisFacts.

Section AnalysisScenarios.
Import Learning LearnerStats LearnerRuns.

Lemma reporting_platform_available : insights_available reporting_platform.
Proof.
  split; [reflexivity|]. split; [reflexivity|].
  intros cs c. eexists. split; [reflexivity|]. vm_compute. discriminate.
Qed.

Lemma analysis_with_insights_loses_nothing_witness :
  (length (analyze_pending_actions reporting_platform 90000 []
             sample_learner).1.1
   + length (pending (analyze_pending_actions reporting_platform 90000 []
                        sample_learner).1.2)
   = length (pending sample_learner))%nat.
Proof.
  apply (analysis_with_insights_loses_nothing reporting_platform 90000 []
           sample_learner reporting_platform_available).
Defined.
End AnalysisScenarios.

(** ** Further properties of the judgment engine *)

Section JudgmentFacts.
Import Monitor JudgmentShapes.

(** Case analysis on the guards of a judgment step. *)
Ltac branches :=
  repeat match goal with
  | H : (_ && _) = true |- _ => apply andb_prop in H; destruct H
  | H : negb _ = true |- _ => apply negb_true_iff in H
  | H : Qltb 0 ?b = true |- context [change_vs ?a ?b] =>
      rewrite (change_vs_pos a b H); cbn [mbind Res_bind]
  | H : Qeqb ?b 0 = false |- context [pydiv ?a ?b] =>
      rewrite (pydiv_nonzero a b H); cbn [mbind Res_bind]
  | |- context [if ?c then _ else _] => destruct c eqn:?
  | |- context [match ?o with Some _ => _ | None => _ end] =>
      destruct o eqn:?
  end.

Lemma adds_nothing f : adds f f [] [].
Proof. split; symmetry; apply app_nil_r. Qed.

Lemma adds_comparison f c : adds f (add_comparison c f) [] [].
Proof. split; symmetry; apply app_nil_r. Qed.

Lemma adds_issue f s m :
  adds f (add_issue s m f) [{| issue_severity := s; issue_message := m |}] [].
Proof. split; [reflexivity|symmetry; apply app_nil_r]. Qed.

Lemma adds_comparison_issue f c s m :
  adds f (add_comparison c (add_issue s m f))
    [{| issue_severity := s; issue_message := m |}] [].
Proof. split; [reflexivity|symmetry; apply app_nil_r]. Qed.

(** The CTR check adds at most one issue, a warning about the CTR, and none
    on a traffic campaign. *)
Lemma check_ctr_adds today yesterday is_traffic f :
  ∃ f' extra, check_ctr today yesterday is_traffic f = Ok f'
    ∧ adds f f' extra []
    ∧ (is_traffic = true → extra = [])
    ∧ Forall (λ i, issue_severity i = "warning"
                   ∧ ∃ a b c, issue_message i = CTR_plunge a b c) extra.
Proof.
  unfold check_ctr. cbn zeta. branches;
    eexists _, _;
    (split; [reflexivity|]);
    first [ split; [apply adds_nothing|]
          | split; [apply adds_comparison|]
          | split; [apply adds_comparison_issue|] ];
    (split; [intros; subst; try discriminate; reflexivity|]);
    repeat constructor; eauto.
Qed.

(** The CVR check adds at most one issue, a warning about the CVR, and none
    when conversions are ignored. *)
Lemma check_cvr_adds today yesterday ignore_cv f :
  ∃ f' extra, check_cvr today yesterday ignore_cv f = Ok f'
    ∧ adds f f' extra []
    ∧ (ignore_cv = true → extra = [])
    ∧ Forall (λ i, issue_severity i = "warning"
                   ∧ ∃ a b c, issue_message i = CVR_plunge a b c) extra.
Proof.
  unfold check_cvr. cbn zeta. branches;
    eexists _, _;
    (split; [reflexivity|]);
    first [ split; [apply adds_nothing|]
          | split; [apply adds_comparison|]
          | split; [apply adds_comparison_issue|] ];
    (split; [intros; subst; try discriminate; reflexivity|]);
    repeat constructor; eauto.
Qed.

Lemma check_spend_adds yesterday avg_7d spend_today f :
  ∃ f', check_spend yesterday avg_7d spend_today f = Ok f' ∧ adds f f' [] [].
Proof.
  destruct (check_spend_appends yesterday avg_7d spend_today f)
    as (cs & -> & _).
  eexists. split; [reflexivity|]. split; symmetry; apply app_nil_r.
Qed.

(** The guard [x and x > 0] fails only for a number that is not positive. *)
Lemma positive_guard_false x :
  negb (Qeqb x 0) && Qltb 0 x = false → (x <= 0)%Q.
Proof.
  intros H. destruct (Qltb 0 x) eqn:E; [|apply Qltb_ge; exact E].
  rewrite (Qltb_pos_nonzero _ E) in H. discriminate.
Qed.

(** The guard [t and c > 0] fails only when [t] is zero or [c] is not
    positive. *)
Lemma target_guard_false t c :
  negb (Qeqb t 0) && Qltb 0 c = false → (t == 0)%Q ∨ (c <= 0)%Q.
Proof.
  destruct (Qeqb t 0) eqn:E; [intros _; left; apply Qeqb_eq; exact E|].
  cbn. intros H. right. apply Qltb_ge. exact H.
Qed.

(** Comparisons as propositions. *)
Ltac to_order :=
  repeat match goal with
  | H : negb (Qeqb ?x 0) && Qltb 0 ?x = false |- _ =>
      apply positive_guard_false in H
  | H : negb (Qeqb ?t 0) && Qltb 0 ?c = false |- _ =>
      apply target_guard_false in H; destruct H
  | H : Qltb _ _ = true |- _ => apply Qltb_lt in H
  | H : Qltb _ _ = false |- _ => apply Qltb_ge in H
  | H : Qleb _ _ = true |- _ => apply Qleb_le in H
  | H : Qleb ?a ?b = false |- _ =>
      assert (b < a)%Q by
        (apply Qnot_le_lt; intros ?;
         apply not_true_iff_false in H; apply H; apply Qleb_le; assumption);
      clear H
  | H : Qeqb _ _ = true |- _ => apply Qeqb_eq in H
  | H : Qeqb ?a ?b = false |- _ =>
      assert (¬ (a == b)%Q) by
        (intros ?; apply not_true_iff_false in H; apply H; apply Qeqb_eq;
         assumption);
      clear H
  end.

(** The CPF branch: at most one issue, about the CPF or the missing follows;
    it is critical exactly when today's CPF is positive and above both the
    target and the critical threshold. *)
Lemma judge_cpf_adds th targets today avg_7d f :
  let cpf := dget today "cpf" 0 in
  let target := dget targets "target_cpf" (dget th "cpf_good" 50) in
  ∃ f' extra pos, judge_cpf th targets today avg_7d f = Ok f'
    ∧ adds f f' extra pos
    ∧ (length extra ≤ 1)%nat
    ∧ Forall (λ i, ∃ x y, issue_message i = CPF_soaring x y
                          ∨ issue_message i = CPF_caution x y
                          ∨ issue_message i = Zero_follows_spending x) extra
    ∧ ((0 < count_severity "critical" extra)%nat
       ↔ (0 < cpf)%Q ∧ (target < cpf)%Q
         ∧ (dget th "cpf_critical" 200 < cpf)%Q).
Proof.
  cbn zeta. unfold judge_cpf. cbn zeta.
  set (cpf := dget today "cpf" 0).
  set (target := dget targets "target_cpf" (dget th "cpf_good" 50)).
  set (crit := dget th "cpf_critical" 200).
  branches; eexists _, _, _; (split; [reflexivity|]);
    unfold add_comparison, add_issue, add_positive, adds;
    cbn [f_issues f_positives];
    rewrite <- ?app_assoc;
    (split; [split; [try reflexivity; symmetry; apply app_nil_r
                    |try reflexivity; symmetry; apply app_nil_r]|]).
  all: cbn [app length].
  all: (split; [lia|]).
  all: (split;
        [repeat (apply Forall_cons_2;
                 [cbn;
                  first [do 2 eexists; left; reflexivity
                        | do 2 eexists; right; left; reflexivity
                        | eexists _, 0%Q; right; right; reflexivity]|]);
         apply Forall_nil_2|]).
  all: to_order; unfold count_severity;
       rewrite ?filter_cons, ?filter_nil; repeat case_decide;
       try discriminate; cbn [length issue_severity] in *; split; intros;
       try lia;
       try match goal with H : _ ∧ _ |- _ => destruct H as (? & ? & ?) end;
       try (exfalso; match goal with H : ?x ≠ ?x |- _ => exact (H eq_refl) end);
       try (exfalso; lra); try (repeat split; lra).
Qed.

Ltac settle_adds :=
  unfold add_comparison, add_issue, add_positive, adds;
  cbn [f_issues f_positives];
  rewrite <- ?app_assoc;
  (split; [split; [try reflexivity; symmetry; apply app_nil_r
                  |try reflexivity; symmetry; apply app_nil_r]|]).

Ltac settle_count :=
  to_order; unfold count_severity;
  rewrite ?filter_cons, ?filter_nil; repeat case_decide;
  try discriminate; cbn [length issue_severity] in *; split; intros;
  try lia;
  try match goal with H : _ ∧ _ |- _ => destruct H as (? & ? & ?) end;
  try (exfalso; match goal with H : ?x ≠ ?x |- _ => exact (H eq_refl) end);
  try (exfalso; lra); try (repeat split; lra).

(** The ROAS branch: critical exactly when today's ROAS is positive and
    below both the target and the critical threshold. *)
Lemma judge_roas_adds th targets today avg_7d f :
  let roas := dget today "roas" 0 in
  let target := dget targets "target_roas" (dget th "roas_good" 3) in
  ∃ f' extra pos, judge_roas th targets today avg_7d f = Ok f'
    ∧ adds f f' extra pos
    ∧ ((0 < count_severity "critical" extra)%nat
       ↔ (0 < roas)%Q ∧ (roas < target)%Q
         ∧ (roas < dget th "roas_critical" 1)%Q).
Proof.
  cbn zeta. unfold judge_roas. cbn zeta.
  set (roas := dget today "roas" 0).
  set (target := dget targets "target_roas" (dget th "roas_good" 3)).
  set (crit := dget th "roas_critical" 1).
  branches; eexists _, _, _; (split; [reflexivity|]); settle_adds.
  all: settle_count.
Qed.

(** The CPA branch: critical exactly when a target CPA is set and not zero,
    today's CPA is positive, and their ratio is above the good ratio and
    reaches the critical ratio. *)
Lemma judge_cpa_adds th targets today yesterday avg_7d f :
  let cpa := dget today "cpa" 0 in
  ∃ f' extra pos, judge_cpa th targets today yesterday avg_7d f = Ok f'
    ∧ adds f f' extra pos
    ∧ ((0 < count_severity "critical" extra)%nat
       ↔ ∃ target, targets !! "target_cpa" = Some target
           ∧ ¬ (target == 0)%Q ∧ (0 < cpa)%Q
           ∧ (dget th "cpa_good_ratio" (7 # 10) < cpa / target)%Q
           ∧ (dget th "cpa_critical_ratio" (13 # 10) <= cpa / target)%Q).
Proof.
  cbn zeta. unfold judge_cpa. cbn zeta.
  set (cpa := dget today "cpa" 0).
  set (good := dget th "cpa_good_ratio" (7 # 10)).
  set (crit := dget th "cpa_critical_ratio" (13 # 10)).
  destruct (targets !! "target_cpa") as [target|] eqn:Ht.
  2:{ cbn [mbind Res_bind].
      branches; eexists _, _, _; (split; [reflexivity|]); settle_adds.
      all: cbn; split; [lia|]; intros (t & Hn & _); discriminate. }
  branches; cbn [mbind Res_bind];
    branches; cbn [mbind Res_bind];
    eexists _, _, _; (split; [reflexivity|]); settle_adds.
  all: to_order; unfold count_severity;
       rewrite ?filter_cons, ?filter_nil; repeat case_decide;
       try discriminate; cbn [length issue_severity] in *;
       (split;
       [ intros;
         try lia;
         try (exfalso; match goal with H : ?x ≠ ?x |- _ => exact (H eq_refl) end);
         try (exists target; repeat split; try assumption; try lra)
       | intros (t & Hteq & Hn & Hp & Hg & Hc); injection Hteq as <-;
         try lia;
         try (exfalso; match goal with H : ?x ≠ ?x |- _ => exact (H eq_refl) end);
         try (exfalso; lra); try contradiction ]).
Qed.

Lemma count_severity_app s l1 l2 :
  count_severity s (l1 ++ l2) = (count_severity s l1 + count_severity s l2)%nat.
Proof. unfold count_severity. rewrite filter_app, length_app. reflexivity. Qed.

Lemma count_critical_warnings (l : list Issue) :
  Forall (λ i, issue_severity i = "warning") l →
  count_severity "critical" l = 0%nat.
Proof.
  unfold count_severity. induction 1 as [|i l Hi _ IH]; [reflexivity|].
  rewrite filter_cons_False; [exact IH|]. rewrite Hi. discriminate.
Qed.

Lemma decide_status_critical c w p :
  (decide_status c w p).1.1 = "critical" ↔ (0 < c)%nat.
Proof.
  unfold decide_status.
  destruct (Nat.ltb_spec 0 c); [split; [lia|reflexivity]|].
  repeat match goal with
  | |- context [if ?b then _ else _] => destruct b
  end; cbn; (split; [discriminate|lia]).
Qed.

Lemma decide_status_opportunity c w p :
  (decide_status c w p).1.1 = "opportunity" → (0 < p)%nat.
Proof.
  unfold decide_status.
  destruct (Nat.ltb_spec 0 c); [discriminate|].
  destruct (Nat.ltb_spec 0 p); [lia|]. cbn [andb].
  destruct (_ && _); discriminate.
Qed.

Lemma verdict_status {B} (bs : B) f :
  status (verdict bs f)
  = (decide_status (count_severity "critical" (f_issues f))
       (count_severity "warning" (f_issues f)) (length (f_positives f))).1.1
  ∧ issues (verdict bs f) = f_issues f
  ∧ positives (verdict bs f) = f_positives f.
Proof.
  unfold verdict. destruct (decide_status _ _ _) as [[st sev] sm].
  repeat split.
Qed.

(** Above the noise floor: the judgment is the verdict over what the primary
    step found, followed by the warnings of the CTR and CVR checks. *)
Lemma judgment_structure {B} name objective tc periods (bs : B) targets :
  (MIN_DAILY_SPEND <= today_spend periods)%Q →
  let today := default ∅ (periods !! "today") in
  let yesterday := default ∅ (periods !! "yesterday") in
  let avg_7d := default ∅ (periods !! "last_7d") in
  let f0 := {| f_issues := []; f_positives := []; f_comparisons := [] |} in
  ∃ f1 f4 secondary,
    (if String.eqb (primary_kpi tc) "cpf" then
       judge_cpf (thresholds tc) targets today avg_7d f0
     else if String.eqb (primary_kpi tc) "roas" then
       judge_roas (thresholds tc) targets today avg_7d f0
     else if String.eqb (primary_kpi tc) "cpa" then
       judge_cpa (thresholds tc) targets today yesterday avg_7d f0
     else Ok f0) = Ok f1
    ∧ _make_integrated_judgment name objective tc periods bs targets
      = Ok (verdict bs f4)
    ∧ f_issues f4 = f_issues f1 ++ secondary
    ∧ f_positives f4 = f_positives f1
    ∧ Forall secondary_issue secondary
    ∧ (is_traffic_campaign tc = Some true → ignore_conversions tc = Some true →
       secondary = []).
Proof.
  intros Hfloor today yesterday avg_7d f0. apply Qltb_ge in Hfloor.
  unfold _make_integrated_judgment. cbn zeta. rewrite Hfloor.
  fold today yesterday avg_7d f0.
  assert (H1 : ∃ f1,
    (if String.eqb (primary_kpi tc) "cpf"
     then judge_cpf (thresholds tc) targets today avg_7d f0
     else if String.eqb (primary_kpi tc) "roas"
     then judge_roas (thresholds tc) targets today avg_7d f0
     else if String.eqb (primary_kpi tc) "cpa"
     then judge_cpa (thresholds tc) targets today yesterday avg_7d f0
     else Ok f0) = Ok f1).
  { destruct (String.eqb _ "cpf"); [apply judge_cpf_total|].
    destruct (String.eqb _ "roas"); [apply judge_roas_total|].
    destruct (String.eqb _ "cpa"); [apply judge_cpa_total|].
    eexists; reflexivity. }
  destruct H1 as [f1 Hf1]. rewrite Hf1. cbn [mbind Res_bind].
  destruct (check_ctr_adds today yesterday
              (default false (is_traffic_campaign tc)) f1)
    as (f2 & e2 & -> & [Hi2 Hp2] & Ht2 & Hw2).
  cbn [mbind Res_bind].
  destruct (check_cvr_adds today yesterday
              (default false (ignore_conversions tc)) f2)
    as (f3 & e3 & -> & [Hi3 Hp3] & Ht3 & Hw3).
  cbn [mbind Res_bind].
  destruct (check_spend_adds yesterday avg_7d (today_spend periods) f3)
    as (f4 & -> & [Hi4 Hp4]).
  cbn [mbind Res_bind].
  exists f1, f4, (e2 ++ e3). split; [reflexivity|]. split; [reflexivity|].
  rewrite !app_nil_r in *. split; [|split; [|split]].
  - rewrite Hi4, Hi3, Hi2, app_assoc. reflexivity.
  - congruence.
  - apply Forall_app. split.
    + eapply Forall_impl; [exact Hw2|]. intros i (Hs & a & b & c & Hm).
      split; [exact Hs|]. eauto 6.
    + eapply Forall_impl; [exact Hw3|]. intros i (Hs & a & b & c & Hm).
      split; [exact Hs|]. eauto 6.
  - intros Ht Hc. rewrite Ht, Hc in *. rewrite Ht2, Ht3 by reflexivity.
    reflexivity.
Qed.

(** X18. Above the noise floor the judgment is returned, and its status is
    critical exactly when the primary KPI is beyond its critical threshold:
    for cpf, today's CPF is positive and above both the target CPF and
    cpf_critical; for roas, today's ROAS is positive and below both the
    target ROAS and roas_critical; for cpa, a target CPA is set and not zero,
    today's CPA is positive and its ratio to the target is above
    cpa_good_ratio and at least cpa_critical_ratio. With any other primary
    KPI the status is never critical nor opportunity and there is no
    positive. The CTR, CVR and spend checks never make a status critical. *)
Theorem critical_status_conditions {B} name objective tc periods (bs : B)
    targets :
  (MIN_DAILY_SPEND <= today_spend periods)%Q →
  let today := default ∅ (periods !! "today") in
  let th := thresholds tc in
  let cpf := dget today "cpf" 0 in
  let roas := dget today "roas" 0 in
  let cpa := dget today "cpa" 0 in
  ∃ j, _make_integrated_judgment name objective tc periods bs targets = Ok j
    ∧ (primary_kpi tc = "cpf" →
       (status j = "critical"
        ↔ (0 < cpf)%Q
          ∧ (dget targets "target_cpf" (dget th "cpf_good" 50) < cpf)%Q
          ∧ (dget th "cpf_critical" 200 < cpf)%Q))
    ∧ (primary_kpi tc = "roas" →
       (status j = "critical"
        ↔ (0 < roas)%Q
          ∧ (roas < dget targets "target_roas" (dget th "roas_good" 3))%Q
          ∧ (roas < dget th "roas_critical" 1)%Q))
    ∧ (primary_kpi tc = "cpa" →
       (status j = "critical"
        ↔ ∃ target, targets !! "target_cpa" = Some target
            ∧ ¬ (target == 0)%Q ∧ (0 < cpa)%Q
            ∧ (dget th "cpa_good_ratio" (7 # 10) < cpa / target)%Q
            ∧ (dget th "cpa_critical_ratio" (13 # 10) <= cpa / target)%Q))
    ∧ (primary_kpi tc ∉ ["cpf"; "roas"; "cpa"] →
       status j ≠ "critical" ∧ status j ≠ "opportunity"
       ∧ positives j = []).
Proof.
  intros Hfloor today th cpf roas cpa.
  destruct (judgment_structure name objective tc periods bs targets Hfloor)
    as (f1 & f4 & sec & Hf1 & -> & Hi & Hp & Hsec & _).
  fold today in Hf1. fold th in Hf1.
  eexists. split; [reflexivity|].
  destruct (verdict_status bs f4) as (-> & _ & ->).
  rewrite decide_status_critical, Hi, Hp, count_severity_app.
  assert (count_severity "critical" sec = 0%nat) as ->.
  { apply count_critical_warnings. eapply Forall_impl; [exact Hsec|].
    intros i [H _]. exact H. }
  rewrite Nat.add_0_r.
  set (f0 := {| f_issues := []; f_positives := []; f_comparisons := [] |})
    in Hf1.
  split; [|split; [|split; [|]]].
  - intros Hk. rewrite Hk in Hf1. cbn [String.eqb Ascii.eqb Bool.eqb] in Hf1.
    destruct (judge_cpf_adds th targets today
                (default ∅ (periods !! "last_7d")) f0)
      as (f' & extra & pos & E & [Hie _] & _ & _ & Hc).
    rewrite E in Hf1. injection Hf1 as <-. rewrite Hie. exact Hc.
  - intros Hk. rewrite Hk in Hf1. cbn [String.eqb Ascii.eqb Bool.eqb] in Hf1.
    destruct (judge_roas_adds th targets today
                (default ∅ (periods !! "last_7d")) f0)
      as (f' & extra & pos & E & [Hie _] & Hc).
    rewrite E in Hf1. injection Hf1 as <-. rewrite Hie. exact Hc.
  - intros Hk. rewrite Hk in Hf1. cbn [String.eqb Ascii.eqb Bool.eqb] in Hf1.
    destruct (judge_cpa_adds th targets today
                (default ∅ (periods !! "yesterday"))
                (default ∅ (periods !! "last_7d")) f0)
      as (f' & extra & pos & E & [Hie _] & Hc).
    rewrite E in Hf1. injection Hf1 as <-. rewrite Hie. exact Hc.
  - intros Hk.
    destruct (String.eqb_spec (primary_kpi tc) "cpf") as [E|_];
      [exfalso; apply Hk; rewrite E; in_list|].
    destruct (String.eqb_spec (primary_kpi tc) "roas") as [E|_];
      [exfalso; apply Hk; rewrite E; in_list|].
    destruct (String.eqb_spec (primary_kpi tc) "cpa") as [E|_];
      [exfalso; apply Hk; rewrite E; in_list|].
    injection Hf1 as <-. cbn [f_issues f_positives f0 length].
    split; [|split; [|reflexivity]].
    + cbn. lia.
    + intros H. apply decide_status_opportunity in H. lia.
Qed.

Lemma critical_status_conditions_witness :
  ∃ j, _make_integrated_judgment "c" "OUTCOME_TRAFFIC" (traffic_config "t" [])
         soaring_periods tt scenario_targets = Ok j
    ∧ status j = "critical".
Proof.
  destruct (critical_status_conditions "c" "OUTCOME_TRAFFIC"
              (traffic_config "t" []) soaring_periods tt scenario_targets)
    as (j & Hj & Hcpf & _).
  - apply Qltb_ge. reflexivity.
  - exists j. split; [exact Hj|]. apply Hcpf; [reflexivity|].
    repeat split; apply Qltb_lt; reflexivity.
Defined.

Lemma judgment_below_floor {B} name objective tc periods (bs : B) targets :
  (today_spend periods < MIN_DAILY_SPEND)%Q →
  ∃ j, _make_integrated_judgment name objective tc periods bs targets = Ok j
    ∧ status j = "insufficient_data" ∧ issues j = [] ∧ positives j = [].
Proof.
  intros H. apply Qltb_lt in H. unfold _make_integrated_judgment. cbn zeta.
  rewrite H. eexists. split; [reflexivity|]. repeat split.
Qed.

Lemma traffic_objective_config objective :
  objective ∈ ["LINK_CLICKS"; "POST_ENGAGEMENT"; "OUTCOME_TRAFFIC";
               "OUTCOME_ENGAGEMENT"] →
  ∃ tc, select_type_config objective false None = Ok (objective, tc)
    ∧ primary_kpi tc = "cpf" ∧ is_traffic_campaign tc = Some true
    ∧ ignore_conversions tc = Some true ∧ thresholds tc = cpf_thresholds.
Proof.
  intros H. repeat (apply elem_of_cons in H as [->|H]);
    [| | | |inversion H]; eexists; (split; [vm_compute; reflexivity|]);
    repeat split.
Qed.

(** X19. For the four traffic objectives (LINK_CLICKS, POST_ENGAGEMENT,
    OUTCOME_TRAFFIC, OUTCOME_ENGAGEMENT) the judgment is always returned and
    holds at most one issue, which is about the CPF or about spending without
    follows: a fall of the CTR or of the CVR never raises an issue. *)
Theorem traffic_campaigns_ignore_ctr_and_cvr {B} name objective periods
    (bs : B) targets :
  objective ∈ ["LINK_CLICKS"; "POST_ENGAGEMENT"; "OUTCOME_TRAFFIC";
               "OUTCOME_ENGAGEMENT"] →
  ∃ j, judge_campaign name objective false None periods bs targets = Ok j
    ∧ (length (issues j) ≤ 1)%nat
    ∧ Forall (λ i, ∃ x y, issue_message i = CPF_soaring x y
                          ∨ issue_message i = CPF_caution x y
                          ∨ issue_message i = Zero_follows_spending x)
        (issues j).
Proof.
  intros Hobj.
  destruct (traffic_objective_config objective Hobj)
    as (tc & Hsel & Hk & Ht & Hc & Hth).
  unfold judge_campaign. rewrite Hsel. cbn [mbind Res_bind].
  destruct (Qlt_le_dec (today_spend periods) MIN_DAILY_SPEND) as [Hlow|Hfloor].
  { destruct (judgment_below_floor name objective tc periods bs targets Hlow)
      as (j & -> & _ & Hi & _).
    exists j. split; [reflexivity|]. rewrite Hi.
    split; [cbn; lia|constructor]. }
  destruct (judgment_structure name objective tc periods bs targets Hfloor)
    as (f1 & f4 & sec & Hf1 & -> & Hi & _ & _ & Hnone).
  rewrite (Hnone Ht Hc), app_nil_r in Hi.
  rewrite Hk in Hf1. cbn [String.eqb Ascii.eqb Bool.eqb] in Hf1.
  match type of Hf1 with
  | judge_cpf ?th ?tg ?td ?av ?f0 = _ =>
      destruct (judge_cpf_adds th tg td av f0)
        as (f' & extra & pos & E & [Hie _] & Hlen & Hall & _)
  end.
  rewrite E in Hf1. injection Hf1 as <-.
  eexists. split; [reflexivity|].
  destruct (verdict_status bs f4) as (_ & -> & _).
  rewrite Hi, Hie. cbn [f_issues app]. split; assumption.
Qed.

Lemma traffic_campaigns_ignore_ctr_and_cvr_witness :
  ∃ j, judge_campaign "c" "OUTCOME_TRAFFIC" false None scenario_periods tt
         scenario_targets = Ok j
    ∧ (length (issues j) ≤ 1)%nat
    ∧ Forall (λ i, ∃ x y, issue_message i = CPF_soaring x y
                          ∨ issue_message i = CPF_caution x y
                          ∨ issue_message i = Zero_follows_spending x)
        (issues j).
Proof.
  apply (traffic_campaigns_ignore_ctr_and_cvr "c" "OUTCOME_TRAFFIC"
           scenario_periods tt scenario_targets).
  in_list.
Defined.

Lemma config_with_primary_judgment objective tc :
  CAMPAIGN_TYPE_CONFIG !! objective = Some tc →
  primary_kpi tc ∈ ["cpf"; "roas"; "cpa"] →
  objective ∈ ["LINK_CLICKS"; "POST_ENGAGEMENT"; "OUTCOME_TRAFFIC";
               "OUTCOME_ENGAGEMENT"; "CONVERSIONS"; "PRODUCT_CATALOG_SALES";
               "ASC"; "OUTCOME_SALES"].
Proof.
  intros E. unfold CAMPAIGN_TYPE_CONFIG in E.
  apply elem_of_list_to_map_2 in E.
  match type of E with
  | _ ∈ ?l =>
      assert (HF : Forall
                (λ kc : string * TypeConfig,
                   primary_kpi kc.2 ∈ ["cpf"; "roas"; "cpa"] →
                   kc.1 ∈ ["LINK_CLICKS"; "POST_ENGAGEMENT"; "OUTCOME_TRAFFIC";
                           "OUTCOME_ENGAGEMENT"; "CONVERSIONS";
                           "PRODUCT_CATALOG_SALES"; "ASC"; "OUTCOME_SALES"]) l)
        by (apply (bool_decide_unpack _); vm_compute; exact I)
  end.
  rewrite Forall_forall in HF. exact (HF _ E).
Qed.

Lemma other_objective_config objective smart_promotion_type :
  objective ∉ ["LINK_CLICKS"; "POST_ENGAGEMENT"; "OUTCOME_TRAFFIC";
               "OUTCOME_ENGAGEMENT"; "CONVERSIONS"; "PRODUCT_CATALOG_SALES";
               "ASC"; "OUTCOME_SALES"] →
  smart_promotion_type ≠ Some "ADVANTAGE_PLUS_SHOPPING" →
  ∃ tc, select_type_config objective false smart_promotion_type
        = Ok (objective, tc)
    ∧ primary_kpi tc ∉ ["cpf"; "roas"; "cpa"].
Proof.
  intros Hobj Hspt. unfold select_type_config.
  rewrite bool_decide_eq_false_2 by exact Hspt. cbn [orb].
  change (config_item "DEFAULT")
    with (Ok (plain_config "不明" "spend" ["ctr"; "cpc"] ∅)).
  cbn [mbind Res_bind]. eexists. split; [reflexivity|].
  destruct (CAMPAIGN_TYPE_CONFIG !! objective) as [c|] eqn:E; cbn [default].
  - intros Hk. exact (Hobj (config_with_primary_judgment objective c E Hk)).
  - apply (bool_decide_unpack _). vm_compute. exact I.
Qed.

(** X20. For an objective without a judged primary KPI (REACH,
    BRAND_AWARENESS, DEFAULT and every unknown objective, which takes the
    DEFAULT entry) that is not an Advantage+ campaign, the judgment is always
    returned without positives, its issues are only warnings about a fall of
    the CTR or the CVR, and its status is insufficient_data, warning or
    normal: such a campaign is never critical and never an opportunity (the
    cpm and frequency thresholds of the table are not read). *)
Theorem campaigns_without_primary_judgment {B} name objective
    smart_promotion_type periods (bs : B) targets :
  objective ∉ ["LINK_CLICKS"; "POST_ENGAGEMENT"; "OUTCOME_TRAFFIC";
               "OUTCOME_ENGAGEMENT"; "CONVERSIONS"; "PRODUCT_CATALOG_SALES";
               "ASC"; "OUTCOME_SALES"] →
  smart_promotion_type ≠ Some "ADVANTAGE_PLUS_SHOPPING" →
  ∃ j, judge_campaign name objective false smart_promotion_type periods bs
         targets = Ok j
    ∧ positives j = []
    ∧ status j ∈ ["insufficient_data"; "warning"; "normal"]
    ∧ Forall secondary_issue (issues j).
Proof.
  intros Hobj Hspt.
  destruct (other_objective_config objective smart_promotion_type Hobj Hspt)
    as (tc & Hsel & Hk).
  unfold judge_campaign. rewrite Hsel. cbn [mbind Res_bind].
  destruct (Qlt_le_dec (today_spend periods) MIN_DAILY_SPEND) as [Hlow|Hfloor].
  { destruct (judgment_below_floor name objective tc periods bs targets Hlow)
      as (j & -> & Hs & Hi & Hp).
    exists j. split; [reflexivity|]. rewrite Hs, Hi, Hp.
    split; [reflexivity|]. split; [in_list|constructor]. }
  destruct (judgment_structure name objective tc periods bs targets Hfloor)
    as (f1 & f4 & sec & Hf1 & -> & Hi & Hp & Hsec & _).
  destruct (String.eqb_spec (primary_kpi tc) "cpf") as [E|_];
    [exfalso; apply Hk; rewrite E; in_list|].
  destruct (String.eqb_spec (primary_kpi tc) "roas") as [E|_];
    [exfalso; apply Hk; rewrite E; in_list|].
  destruct (String.eqb_spec (primary_kpi tc) "cpa") as [E|_];
    [exfalso; apply Hk; rewrite E; in_list|].
  injection Hf1 as <-. cbn [f_issues f_positives app] in Hi, Hp.
  eexists. split; [reflexivity|].
  destruct (verdict_status bs f4) as (-> & -> & ->).
  rewrite Hi, Hp. split; [reflexivity|]. split; [|exact Hsec].
  assert (count_severity "critical" sec = 0%nat) as ->.
  { apply count_critical_warnings. eapply Forall_impl; [exact Hsec|].
    intros i [H _]. exact H. }
  cbn [length]. unfold decide_status. cbn [Nat.ltb Nat.leb andb].
  destruct (_ && _); cbn; in_list.
Qed.

Lemma campaigns_without_primary_judgment_witness :
  ∃ j, judge_campaign "c" "REACH" false None scenario_periods tt
         scenario_targets = Ok j
    ∧ positives j = []
    ∧ status j ∈ ["insufficient_data"; "warning"; "normal"]
    ∧ Forall secondary_issue (issues j).
Proof.
  apply (campaigns_without_primary_judgment "c" "REACH" None scenario_periods
           tt scenario_targets).
  - in_list.
  - discriminate.
Defined.
End JudgmentFacts.


(** ** Properties of the periods of a campaign *)

Section PeriodFacts.
Import Aggregator Periods.

Lemma pydiv_days v days : (0 < days)%Z →
  pydiv v (inject_Z days) = Ok (v / inject_Z days)%Q.
Proof.
  intros H. apply pydiv_pos. apply Qltb_lt.
  change 0%Q with (inject_Z 0). rewrite <- Zlt_Qlt. exact H.
Qed.

Lemma average_key_step perf days averaged key : (0 < days)%Z →
  averaged !! key = perf !! key →
  average_key perf days averaged key =
    Ok (match perf !! key with
        | Some v => if Qeqb v 0 then averaged
                    else <[total_key key := v]>
                           (<[key := (v / inject_Z days)%Q]> averaged)
        | None => averaged
        end).
Proof.
  intros Hd E. unfold average_key. rewrite E.
  destruct (perf !! key) as [v|] eqn:Hv; [|reflexivity].
  destruct (Qeqb v 0); cbn; [reflexivity|].
  rewrite (pydiv_days _ _ Hd). cbn. rewrite (item_Some _ _ _ Hv). reflexivity.
Qed.

(** The loop over the cumulative keys, for any list of keys that are not
    the total key of one another. *)
Lemma average_loop perf days : (0 < days)%Z → ∀ ks averaged,
  NoDup ks → NoDup (map total_key ks) →
  (∀ k k', k ∈ ks → k' ∈ ks → k ≠ total_key k') →
  (∀ k, k ∈ ks → averaged !! k = perf !! k) →
  ∃ averaged',
    foldl (λ acc key, averaged ← acc; average_key perf days averaged key)
      (Ok averaged) ks = Ok averaged'
    ∧ (∀ k, k ∈ ks → averaged' !! k = daily days <$> perf !! k)
    ∧ (∀ k v, k ∈ ks → perf !! k = Some v → Qeqb v 0 = false →
         averaged' !! total_key k = Some v)
    ∧ (∀ k, k ∈ ks → (∀ v, perf !! k = Some v → Qeqb v 0 = true) →
         averaged' !! total_key k = averaged !! total_key k)
    ∧ (∀ k', k' ∉ ks → k' ∉ map total_key ks →
         averaged' !! k' = averaged !! k').
Proof.
  intros Hd. induction ks as [|k ks IH]; intros averaged ND NDT Sep Agree.
  { exists averaged. cbn. repeat split; intros; try reflexivity;
      exfalso; eapply not_elem_of_nil; eassumption. }
  apply NoDup_cons in ND as [Hk ND].
  cbn [map] in NDT. apply NoDup_cons in NDT as [Hkt NDT].
  cbn [foldl]. cbn [mbind Res_bind].
  rewrite (average_key_step perf days averaged k Hd)
    by (apply Agree; left).
  set (stepped := match perf !! k with
                  | Some v => if Qeqb v 0 then averaged
                              else <[total_key k := v]>
                                     (<[k := (v / inject_Z days)%Q]> averaged)
                  | None => averaged
                  end).
  assert (Hother : ∀ k', k' ≠ k → k' ≠ total_key k →
                         stepped !! k' = averaged !! k').
  { intros k' N1 N2. unfold stepped.
    destruct (perf !! k) as [v|]; [|reflexivity].
    destruct (Qeqb v 0); [reflexivity|].
    rewrite !lookup_insert_ne by congruence. reflexivity. }
  assert (Hself : stepped !! k = daily days <$> perf !! k).
  { unfold stepped, daily.
    destruct (perf !! k) as [v|] eqn:Hv; cbn.
    - destruct (Qeqb v 0).
      + rewrite Agree by left. exact Hv.
      + rewrite lookup_insert_ne
          by (intros E; apply (Sep k k); [left|left|]; symmetry; exact E).
        apply lookup_insert_eq.
    - rewrite Agree by left. exact Hv. }
  assert (Hne : ∀ k2, k2 ∈ ks → k2 ≠ k)
    by (intros k2 H2 ->; contradiction).
  assert (Htne : ∀ k2, k2 ∈ ks → total_key k2 ≠ total_key k).
  { intros k2 H2 E. apply Hkt. rewrite <- E.
    apply list_elem_of_fmap_2. exact H2. }
  destruct (IH stepped ND NDT) as (averaged' & E & A1 & A2 & A3 & A4).
  { intros a b Ha Hb. apply Sep; right; assumption. }
  { intros k2 H2. rewrite Hother.
    - apply Agree. right. exact H2.
    - apply Hne, H2.
    - apply Sep; [right; exact H2 | left]. }
  exists averaged'. split; [exact E|].
  assert (Hk' : k ∉ map total_key ks).
  { intros H. apply list_elem_of_fmap in H as (k2 & E2 & H2).
    apply (Sep k k2); [left | right; exact H2 | exact E2]. }
  assert (Htk : total_key k ∉ ks).
  { intros H. apply (Sep (total_key k) k); [right; exact H | left | reflexivity]. }
  split; [|split; [|split]].
  - intros k2 H2. apply elem_of_cons in H2 as [-> | H2]; [|apply A1, H2].
    rewrite A4 by assumption. exact Hself.
  - intros k2 v H2 Hv Hz. apply elem_of_cons in H2 as [-> | H2];
      [|eapply A2; eassumption].
    rewrite A4 by assumption.
    unfold stepped. rewrite Hv, Hz. apply lookup_insert_eq.
  - intros k2 H2 Hz. apply elem_of_cons in H2 as [-> | H2].
    + rewrite A4 by assumption. unfold stepped.
      destruct (perf !! k) as [v|]; [|reflexivity].
      rewrite (Hz v eq_refl). reflexivity.
    + rewrite A3 by assumption. apply Hother.
      * intros E2. apply Hk'. rewrite <- E2.
        apply list_elem_of_fmap_2. exact H2.
      * apply Htne, H2.
  - intros k' N1 N2. rewrite A4.
    + apply Hother.
      * intros ->. apply N1. left.
      * intros ->. apply N2. cbn [map]. left.
    + intros H. apply N1. right. exact H.
    + intros H. apply N2. cbn [map]. right. exact H.
Qed.

Lemma cumulative_keys_separate :
  NoDup CUMULATIVE_KEYS ∧ NoDup (map total_key CUMULATIVE_KEYS)
  ∧ ∀ k k', k ∈ CUMULATIVE_KEYS → k' ∈ CUMULATIVE_KEYS → k ≠ total_key k'.
Proof.
  split; [in_list|]. split; [in_list|].
  assert (H : Forall (λ k, Forall (λ k', k ≠ total_key k') CUMULATIVE_KEYS)
                CUMULATIVE_KEYS) by in_list.
  intros k k' Hk Hk'.
  rewrite Forall_forall in H. specialize (H k Hk).
  rewrite Forall_forall in H. exact (H k' Hk').
Qed.

Lemma Qltb_daily days v : (0 < days)%Z → Qltb 0 (daily days v) = Qltb 0 v.
Proof.
  intros Hd. unfold daily. destruct (Qeqb v 0) eqn:E; [reflexivity|].
  assert (Hq : (0 < inject_Z days)%Q)
    by (change 0%Q with (inject_Z 0); rewrite <- Zlt_Qlt; exact Hd).
  destruct (Qltb 0 v) eqn:G.
  - apply Qltb_lt. apply Qltb_lt in G. apply Qlt_shift_div_l; [exact Hq|].
    rewrite Qmult_0_l. exact G.
  - apply Qltb_ge. apply Qltb_ge in G. apply Qle_shift_div_r; [exact Hq|].
    rewrite Qmult_0_l. exact G.
Qed.

Lemma dget_daily days (perf averaged : gmap string Q) k : (0 < days)%Z →
  averaged !! k = daily days <$> perf !! k →
  Qltb 0 (dget averaged k 0) = Qltb 0 (dget perf k 0).
Proof.
  intros Hd E. unfold dget. rewrite E.
  destruct (perf !! k) as [v|]; cbn; [apply Qltb_daily, Hd | reflexivity].
Qed.

(** What [_calculate_daily_average] returns for a positive number of days
    and a dict that is not empty. *)
Lemma daily_average_positive perf days :
  (0 < days)%Z → perf ≠ ∅ →
  ∃ averaged, _calculate_daily_average perf days = Ok averaged
    ∧ (∀ key, key ∈ CUMULATIVE_KEYS →
         averaged !! key = daily days <$> perf !! key)
    ∧ (∀ key v, key ∈ CUMULATIVE_KEYS → perf !! key = Some v →
         Qeqb v 0 = false → averaged !! total_key key = Some v)
    ∧ (∀ key, key ∈ CUMULATIVE_KEYS →
         (∀ v, perf !! key = Some v → Qeqb v 0 = true) →
         averaged !! total_key key = perf !! total_key key)
    ∧ (∀ k, k ∉ CUMULATIVE_KEYS → k ∉ map total_key CUMULATIVE_KEYS →
         k ≠ "cpf" → averaged !! k = perf !! k)
    ∧ averaged !! "cpf" =
        (if Qltb 0 (dget perf "follows" 0) && Qltb 0 (dget perf "spend" 0)
         then Some (py_round (daily days (dget perf "spend" 0)
                              / daily days (dget perf "follows" 0)) 2)
         else perf !! "cpf").
Proof.
  intros Hd Hne. unfold _calculate_daily_average.
  assert (Hsize : (size perf =? 0)%nat = false).
  { apply Nat.eqb_neq. intros H. apply Hne. apply map_size_empty_iff, H. }
  assert (Hdays : (days <=? 0)%Z = false) by (apply Z.leb_gt; exact Hd).
  rewrite Hsize, Hdays. cbn [orb].
  destruct cumulative_keys_separate as (ND & NDT & Sep).
  destruct (average_loop perf days Hd CUMULATIVE_KEYS perf ND NDT Sep)
    as (avg & E & A1 & A2 & A3 & A4); [reflexivity|].
  rewrite E. cbn [mbind Res_bind].
  assert (Hf : avg !! "follows" = daily days <$> perf !! "follows")
    by (apply A1; in_list).
  assert (Hs : avg !! "spend" = daily days <$> perf !! "spend")
    by (apply A1; in_list).
  rewrite (dget_daily days perf avg "follows" Hd Hf).
  rewrite (dget_daily days perf avg "spend" Hd Hs).
  assert (Hcpf : avg !! "cpf" = perf !! "cpf") by (apply A4; in_list).
  destruct (Qltb 0 (dget perf "follows" 0)) eqn:Gf; cbn [andb];
    [destruct (Qltb 0 (dget perf "spend" 0)) eqn:Gs|].
  - unfold dget in Gf, Gs.
    destruct (perf !! "follows") as [f|] eqn:Pf; [|discriminate Gf].
    destruct (perf !! "spend") as [s|] eqn:Ps; [|discriminate Gs].
    cbn in Gf, Gs, Hf, Hs.
    rewrite (item_Some _ _ _ Hs), (item_Some _ _ _ Hf). cbn [mbind Res_bind].
    rewrite pydiv_pos by (rewrite Qltb_daily by exact Hd; exact Gf).
    cbn [mbind Res_bind].
    eexists. split; [reflexivity|].
    assert (Hin : ∀ k, k ∈ CUMULATIVE_KEYS → k ≠ "cpf")
      by (intros k Hk ->; revert Hk; in_list).
    assert (Hint : ∀ k, k ∈ CUMULATIVE_KEYS → total_key k ≠ "cpf").
    { intros k Hk.
      assert (F : Forall (λ k, total_key k ≠ "cpf") CUMULATIVE_KEYS)
        by in_list.
      rewrite Forall_forall in F. exact (F k Hk). }
    repeat split.
    + intros k Hk. rewrite lookup_insert_ne by (apply not_eq_sym, Hin, Hk).
      apply A1, Hk.
    + intros k v Hk Hv Hz.
      rewrite lookup_insert_ne by (apply not_eq_sym, Hint, Hk).
      eapply A2; eassumption.
    + intros k Hk Hz.
      rewrite lookup_insert_ne by (apply not_eq_sym, Hint, Hk).
      apply A3; assumption.
    + intros k N1 N2 N3. rewrite lookup_insert_ne by congruence.
      apply A4; assumption.
    + rewrite lookup_insert_eq. unfold dget. rewrite Pf, Ps. reflexivity.
  - exists avg. split; [reflexivity|]. repeat split; try assumption.
    intros k N1 N2 _. apply A4; assumption.
  - exists avg. split; [reflexivity|]. repeat split; try assumption.
    intros k N1 N2 _. apply A4; assumption.
Qed.

(** X21. [_calculate_daily_average] never raises. With no days, or on an empty
    dict, it returns its argument. Otherwise each cumulative key that holds a
    value other than zero is divided by the number of days and its original
    value is kept under the key with the suffix _total; the rates (ctr, cpm,
    cpc, cvr, cpa, roas) and the conversion value are returned as they
    came. *)
Theorem daily_average_divides_cumulative_keys
    (perf : gmap string Q) (days : Z) :
  ∃ averaged, _calculate_daily_average perf days = Ok averaged
    ∧ ((days ≤ 0)%Z ∨ perf = ∅ → averaged = perf)
    ∧ ((0 < days)%Z →
       (∀ key v, key ∈ CUMULATIVE_KEYS → perf !! key = Some v →
          ¬ (v == 0)%Q →
          averaged !! key = Some (v / inject_Z days)%Q
          ∧ averaged !! total_key key = Some v)
       ∧ (∀ key v, key ∈ CUMULATIVE_KEYS → perf !! key = Some v →
            (v == 0)%Q → averaged !! key = Some v)
       ∧ (∀ k, k ∈ RATE_KEYS → averaged !! k = perf !! k)).
Proof.
  destruct (decide (perf = ∅)) as [-> | Hne].
  { exists ∅. split; [reflexivity|]. split; [reflexivity|].
    intros _. repeat split; intros; rewrite lookup_empty in *; congruence. }
  destruct (Z.ltb_spec 0 days) as [Hd | Hd].
  - destruct (daily_average_positive perf days Hd Hne)
      as (avg & E & A1 & A2 & A3 & A4 & A5).
    exists avg. split; [exact E|]. split.
    { intros [H | H]; [lia | contradiction]. }
    intros _. repeat split.
    + rewrite A1 by assumption. rewrite H0. cbn. unfold daily.
      destruct (Qeqb v 0) eqn:Z; [|reflexivity].
      apply Qeqb_eq in Z. contradiction.
    + apply A2; try assumption.
      destruct (Qeqb v 0) eqn:Z; [|reflexivity].
      apply Qeqb_eq in Z. contradiction.
    + intros key v Hk Hv Hz. rewrite A1 by assumption. rewrite Hv. cbn.
      unfold daily. apply Qeqb_eq in Hz. rewrite Hz. reflexivity.
    + intros k Hk.
      assert (F : Forall (λ k, (k ∉ CUMULATIVE_KEYS)
                            ∧ (k ∉ map total_key CUMULATIVE_KEYS)
                            ∧ k ≠ "cpf")
                    RATE_KEYS) by in_list.
      rewrite Forall_forall in F. destruct (F k Hk) as (N1 & N2 & N3).
      apply A4; assumption.
  - exists perf. split.
    { unfold _calculate_daily_average.
      replace (days <=? 0)%Z with true by (symmetry; apply Z.leb_le; exact Hd).
      rewrite orb_true_r. reflexivity. }
    split; [reflexivity|]. intros H. lia.
Qed.

(** [_aggregate_insights] returns on every list. *)
Lemma aggregate_insights_returns (insights_list : list (gmap string Q)) :
  ∃ total, _aggregate_insights insights_list = Ok total.
Proof.
  destruct insights_list as [|i l]; [exists ∅; reflexivity|].
  set (L := i :: l).
  destruct (totals_lookup L) as (Hs & Hi & Hc & Hv & Hcv & Hf).
  destruct (derive_ctr_cpm_ok _ _ _ _ Hi Hc Hs) as (T1 & E1 & K1 & _).
  destruct (derive_cpc_cvr_ok T1 (inject_Z (sum_int "clicks" L))
              (sum_float "spend" L) (inject_Z (sum_int "conversions" L)))
    as (T2 & E2 & K2 & _);
    try (rewrite K1 by congruence; assumption).
  destruct (derive_cpa_ok T2 (sum_float "spend" L)
              (inject_Z (sum_int "conversions" L)))
    as (T3 & E3 & K3 & _);
    try (rewrite K2, K1 by congruence; assumption).
  destruct (derive_roas_ok T3 (sum_float "spend" L)
              (sum_float "conversion_value" L))
    as (T4 & E4 & K4 & _);
    try (rewrite K3, K2, K1 by congruence; assumption).
  destruct (derive_cpf_ok T4 (sum_float "spend" L)
              (inject_Z (sum_int "follows" L)))
    as (T5 & E5 & K5 & _);
    try (rewrite K4, K3, K2, K1 by congruence; assumption).
  exists T5.
  change (_aggregate_insights L) with
    (derive_ctr_cpm (totals L) ≫= λ t, derive_cpc_cvr t ≫= λ t,
       derive_cpa t ≫= λ t, derive_roas t ≫= derive_cpf).
  rewrite E1; cbn. rewrite E2; cbn. rewrite E3; cbn. rewrite E4; cbn.
  exact E5.
Qed.

Lemma daily_average_returns perf days :
  ∃ averaged, _calculate_daily_average perf days = Ok averaged.
Proof.
  destruct (decide (perf = ∅)) as [-> | Hne]; [exists ∅; reflexivity|].
  destruct (Z.ltb_spec 0 days) as [Hd | Hd].
  - destruct (daily_average_positive perf days Hd Hne) as (avg & E & _).
    exists avg. exact E.
  - exists perf. unfold _calculate_daily_average.
    replace (days <=? 0)%Z with true by (symmetry; apply Z.leb_le; exact Hd).
    rewrite orb_true_r. reflexivity.
Qed.

(** X22. [_get_multi_period_performance] never raises and returns exactly
    the four periods today, yesterday, last_7d and last_30d. A period whose
    fetch raises or brings nothing is the empty dict; today and yesterday
    are the aggregate of what was fetched; last_7d and last_30d are that
    aggregate averaged over 7 and over 30 days, however many days the
    fetch brought. *)
Theorem multi_period_performance_periods
    (fetch : string → Res (list (gmap string Q))) :
  let periods := _get_multi_period_performance fetch in
  (∀ name, is_Some (periods !! name)
           ↔ name ∈ ["today"; "yesterday"; "last_7d"; "last_30d"])
  ∧ (∀ name, name ∈ ["today"; "yesterday"; "last_7d"; "last_30d"] →
       (∀ l, fetch name = Ok l → l = []) → periods !! name = Some ∅)
  ∧ (∀ name l, name ∈ ["today"; "yesterday"] → fetch name = Ok l →
       ∃ perf, _aggregate_insights l = Ok perf
               ∧ periods !! name = Some perf)
  ∧ (∀ name days l, (name, days) ∈ [("last_7d", 7); ("last_30d", 30)] →
       fetch name = Ok l →
       ∃ perf averaged, _aggregate_insights l = Ok perf
         ∧ _calculate_daily_average perf days = Ok averaged
         ∧ periods !! name = Some averaged).
Proof.
  cbn zeta. unfold _get_multi_period_performance. cbn [foldl period_configs fst snd].
  split.
  { intros name. split.
    - intros H.
      destruct (decide (name = "last_30d")) as [-> | N1]; [in_list|].
      destruct (decide (name = "last_7d")) as [-> | N2]; [in_list|].
      destruct (decide (name = "yesterday")) as [-> | N3]; [in_list|].
      destruct (decide (name = "today")) as [-> | N4]; [in_list|].
      rewrite !lookup_insert_ne, lookup_empty in H by congruence.
      destruct H as [? H]. discriminate H.
    - intros H. repeat (apply elem_of_cons in H as [-> | H]);
        [| | | |inversion H];
        rewrite ?lookup_insert_eq, ?lookup_insert_ne by congruence;
        rewrite ?lookup_insert_eq; eauto. }
  split.
  { intros name H Hl.
    assert (Hp : ∀ n, period_performance fetch n name = Ok ∅
                      ∨ ∃ e, period_performance fetch n name = Raise e).
    { intros n. unfold period_performance.
      destruct (fetch name) as [l|e] eqn:F; cbn [mbind Res_bind].
      - rewrite (Hl l eq_refl). left. reflexivity.
      - right. exists e. reflexivity. }
    repeat (apply elem_of_cons in H as [-> | H]); [| | | |inversion H];
      rewrite ?lookup_insert_ne by congruence; rewrite lookup_insert_eq;
      match goal with
      | |- context [period_performance fetch ?n ?p] =>
        destruct (Hp n) as [-> | [e ->]]; reflexivity
      end. }
  split.
  { intros name l H F.
    destruct (aggregate_insights_returns l) as (perf & E).
    exists perf. split; [exact E|].
    repeat (apply elem_of_cons in H as [-> | H]); [| |inversion H];
      rewrite ?lookup_insert_ne by congruence; rewrite lookup_insert_eq;
      unfold period_performance; rewrite F; cbn [mbind Res_bind];
      (destruct l as [|i l]; [cbn in E; congruence|]);
      rewrite E; reflexivity. }
  intros name days l H F.
  destruct (aggregate_insights_returns l) as (perf & E).
  destruct (daily_average_returns perf days) as (avg & Ea).
  exists perf, avg. split; [exact E|]. split; [exact Ea|].
  repeat (apply elem_of_cons in H as [H | H]); [| |inversion H];
    injection H as -> ->;
    rewrite ?lookup_insert_ne by congruence; rewrite lookup_insert_eq;
    unfold period_performance; rewrite F; cbn [mbind Res_bind];
    (destruct l as [|i l];
     [cbn in E; injection E as <-; cbn in Ea; injection Ea as <-; reflexivity|]);
    rewrite E; cbn [mbind Res_bind String.eqb]; cbn; rewrite Ea; reflexivity.
Qed.

End PeriodFacts.


(** ** Properties of the campaign targets *)

Section TargetFacts.
Import Targets.

Lemma get_campaign_targets_other tm tm' (other : option string) ty :
  defaults tm' = defaults tm →
  (∀ i, other = Some i →
        default ∅ (campaigns tm') !! i = default ∅ (campaigns tm) !! i) →
  get_campaign_targets tm' other ty = get_campaign_targets tm other ty.
Proof.
  intros Hd Hc. unfold get_campaign_targets. rewrite Hd.
  destruct other as [i|]; cbn [mbind option_bind]; [|reflexivity].
  rewrite (Hc i eq_refl). reflexivity.
Qed.

(** X27. After [set_campaign_targets] the targets of the campaign are the
    entry stored: the targets given, under their own keys, with the time
    under updated_at and the name under name unless the targets have a key
    name themselves. A key that the targets given lack is missing from the
    entry, whatever the defaults hold. The targets of every other campaign
    and the defaults are as before. *)
Theorem set_campaign_targets_round_trip
    (tm : TargetManager) (campaign_id campaign_name : string)
    (targets : gmap string Value) (now : Z) (campaign_type : string) :
  let tm' := set_campaign_targets tm campaign_id campaign_name targets now in
  let entry := get_campaign_targets tm' (Some campaign_id) campaign_type in
  entry !! "updated_at" = Some (Stamp now)
  ∧ (∀ k, k ≠ "updated_at" → k ≠ "name" → entry !! k = targets !! k)
  ∧ entry !! "name" = Some (default (Str campaign_name) (targets !! "name"))
  ∧ (∀ other ty, other ≠ Some campaign_id →
       get_campaign_targets tm' other ty = get_campaign_targets tm other ty)
  ∧ get_defaults tm' = get_defaults tm.
Proof.
  cbn zeta. unfold set_campaign_targets, get_campaign_targets at 1 2 3.
  cbn [campaigns defaults mbind option_bind default from_option id].
  rewrite lookup_insert_eq. unfold entry_of.
  split; [apply lookup_insert_eq|]. split.
  { intros k N1 N2. rewrite lookup_insert_ne by congruence.
    rewrite lookup_union. rewrite lookup_insert_ne by congruence.
    rewrite lookup_empty. destruct (targets !! k); reflexivity. }
  split.
  { rewrite lookup_insert_ne by congruence.
    rewrite lookup_union, lookup_insert_eq.
    destruct (targets !! "name"); reflexivity. }
  split; [|reflexivity].
  intros other ty Ho. apply get_campaign_targets_other; [reflexivity|].
  intros i ->. cbn [campaigns default from_option id].
  apply lookup_insert_ne. congruence.
Qed.

(** X28. After [remove_campaign_targets] the campaign reads the defaults of
    its type, the empty dict when that type has none; the other campaigns
    and the defaults are as before, and removing a campaign that has no
    entry changes nothing. Removing after setting leaves the entries of the
    other campaigns as they were before the two. *)
Theorem remove_campaign_targets_restores_defaults
    (tm : TargetManager) (campaign_id : string) (campaign_type : string) :
  let tm' := remove_campaign_targets tm campaign_id in
  get_campaign_targets tm' (Some campaign_id) campaign_type
    = default ∅ (get_defaults tm !! campaign_type)
  ∧ (∀ other ty, other ≠ Some campaign_id →
       get_campaign_targets tm' other ty = get_campaign_targets tm other ty)
  ∧ get_defaults tm' = get_defaults tm
  ∧ (get_all_campaign_targets tm !! campaign_id = None → tm' = tm)
  ∧ (∀ name targets now,
       get_all_campaign_targets
         (remove_campaign_targets
            (set_campaign_targets tm campaign_id name targets now)
            campaign_id)
       = delete campaign_id (get_all_campaign_targets tm)).
Proof.
  cbn zeta. unfold remove_campaign_targets at 1 2 3 4.
  case_bool_decide as Hin.
  - destruct tm as [ds [cs|]]; cbn [campaigns defaults default from_option id] in *.
    2:{ rewrite lookup_empty in Hin. destruct Hin as [? Hin]. discriminate. }
    cbn [fmap option_fmap option_map]. repeat split.
    + unfold get_campaign_targets. cbn [campaigns defaults mbind option_bind
                                         default from_option id].
      rewrite lookup_delete_eq. reflexivity.
    + intros other ty Ho. apply get_campaign_targets_other; [reflexivity|].
      intros i ->. cbn [campaigns default from_option id].
      apply lookup_delete_ne. congruence.
    + unfold get_all_campaign_targets. cbn [campaigns default from_option id].
      intros H. rewrite H in Hin. destruct Hin as [? Hin]. discriminate.
    + intros name targets now. unfold remove_campaign_targets,
        set_campaign_targets, get_all_campaign_targets.
      cbn [campaigns defaults default from_option id].
      rewrite bool_decide_eq_true_2 by (rewrite lookup_insert_eq; eauto).
      cbn [campaigns fmap option_fmap option_map default from_option id].
      apply delete_insert_eq.
  - repeat split.
    + unfold get_campaign_targets, get_defaults.
      cbn [mbind option_bind].
      destruct (default ∅ (campaigns tm) !! campaign_id) eqn:E;
        [exfalso; apply Hin; eauto | reflexivity].
    + intros name targets now. unfold remove_campaign_targets,
        set_campaign_targets, get_all_campaign_targets.
      cbn [campaigns defaults default from_option id].
      rewrite bool_decide_eq_true_2 by (rewrite lookup_insert_eq; eauto).
      cbn [campaigns fmap option_fmap option_map default from_option id].
      apply delete_insert_eq.
Qed.

End TargetFacts.


(** ** Properties of the account check *)

Section AccountFacts.
Import Aggregator Monitor Recommender Periods Targets AccountCheck.

Lemma budget_status_returns now_jst today_perf daily_budget :
  ∃ bs, _calculate_budget_status now_jst today_perf daily_budget = Ok bs.
Proof.
  unfold _calculate_budget_status.
  destruct (Qeqb daily_budget 0 || Qleb daily_budget 0) eqn:G;
    [eexists; reflexivity|].
  apply orb_false_iff in G as [_ G].
  assert (Hpos : Qltb 0 daily_budget = true)
    by (unfold Qltb; unfold Qleb in G; rewrite G; reflexivity).
  rewrite Hpos, (pydiv_pos _ _ Hpos). cbn [mbind Res_bind].
  destruct (if Qltb _ 6 then _ else _) as [st msg].
  eexists; reflexivity.
Qed.

Lemma select_type_config_returns objective is_asc smart_promotion_type :
  ∃ shown tc,
    select_type_config objective is_asc smart_promotion_type = Ok (shown, tc).
Proof.
  unfold select_type_config.
  destruct (is_asc || _).
  - destruct (config_item "PRODUCT_CATALOG_SALES") as [c|e] eqn:E;
      [|vm_compute in E; discriminate E].
    cbn [mbind Res_bind]. eauto.
  - destruct (config_item "DEFAULT") as [c|e] eqn:E;
      [|vm_compute in E; discriminate E].
    cbn [mbind Res_bind]. eauto.
Qed.

Lemma judgment_returns {B} name objective tc periods (bs : B) targets :
  ∃ j, _make_integrated_judgment name objective tc periods bs targets = Ok j
    ∧ (Qltb (today_spend periods) MIN_DAILY_SPEND = true →
       status j = "insufficient_data").
Proof.
  destruct (Qltb (today_spend periods) MIN_DAILY_SPEND) eqn:G.
  - unfold _make_integrated_judgment. cbn zeta. rewrite G.
    eexists. split; [reflexivity|]. intros _. reflexivity.
  - destruct (judgment_above_floor name objective tc periods bs targets G)
      as [f E].
    eexists. split; [exact E|]. intros H. discriminate H.
Qed.

(** The analysis of a campaign returns, whatever its insight requests
    answer; without data for today the campaign is set aside. *)
Lemma analyze_campaign_returns now_jst tm fetch campaign :
  ∃ r, _analyze_campaign now_jst tm fetch campaign = Ok r
    ∧ r_periods r = _get_multi_period_performance fetch
    ∧ (Qltb (today_spend (_get_multi_period_performance fetch))
         MIN_DAILY_SPEND = true →
       status (r_judgment r) = "insufficient_data").
Proof.
  unfold _analyze_campaign. cbn zeta.
  destruct (select_type_config_returns
              (default "DEFAULT" (c_objective campaign)) (c_is_asc campaign)
              (c_smart_promotion_type campaign)) as (shown & tc & ->).
  cbn [mbind Res_bind].
  destruct (budget_status_returns now_jst
              (default ∅ (_get_multi_period_performance fetch !! "today"))
              (default 0%Q (c_daily_budget campaign))) as [bs ->].
  cbn [mbind Res_bind].
  match goal with
  | |- context [_make_integrated_judgment ?n ?o ?c ?p ?b ?t] =>
    destruct (judgment_returns n o c p b t) as (j & -> & Hj)
  end.
  cbn [mbind Res_bind].
  eexists. split; [reflexivity|]. split; [reflexivity|]. exact Hj.
Qed.

(** A period without data reads as no spend. *)
Lemma no_data_today fetch :
  (∀ l, fetch "today" = Ok l → l = []) →
  Qltb (today_spend (_get_multi_period_performance fetch)) MIN_DAILY_SPEND
  = true.
Proof.
  intros H. unfold today_spend, _get_multi_period_performance.
  cbn [foldl period_configs fst snd].
  rewrite !lookup_insert_ne by congruence. rewrite lookup_insert_eq.
  unfold period_performance.
  destruct (fetch "today") as [l|e] eqn:F; cbn [mbind Res_bind].
  - rewrite (H l eq_refl). reflexivity.
  - reflexivity.
Qed.

(** The loop of [check_account]: what it appends to the three lists. *)
Lemma check_campaigns_spec analyze : ∀ listing i cs al op cs' al' op' err,
  check_campaigns analyze i listing cs al op = (cs', al', op', err) →
  ∃ new, cs' = cs ++ new
    ∧ Forall kept new
    ∧ al' = al ++ map _format_alert
                    (filter (λ c, status (r_judgment c) = "critical") new)
    ∧ op' = op ++ map _format_opportunity
                    (filter (λ c, status (r_judgment c) = "opportunity") new).
Proof.
  induction listing as [|c listing IH]; intros i cs al op cs' al' op' err H;
    cbn [check_campaigns] in H.
  { injection H as <- <- <- <-. exists []. rewrite !app_nil_r.
    repeat split. constructor. }
  destruct (analyze i c) as [r|e].
  2:{ injection H as <- <- <- <-. exists []. rewrite !app_nil_r.
      repeat split. constructor. }
  cbn zeta in H.
  destruct (String.eqb (status (r_judgment r)) "insufficient_data") eqn:E0.
  { exact (IH _ _ _ _ _ _ _ _ H). }
  apply String.eqb_neq in E0.
  destruct (String.eqb (status (r_judgment r)) "critical") eqn:E1;
    [apply String.eqb_eq in E1
    |apply String.eqb_neq in E1;
     destruct (String.eqb (status (r_judgment r)) "opportunity") eqn:E2;
     [apply String.eqb_eq in E2 | apply String.eqb_neq in E2]];
    apply IH in H as (new & -> & Hk & -> & ->);
    exists (r :: new); rewrite <- !app_assoc; cbn [app];
    (split; [reflexivity|]); (split; [constructor; assumption|]);
    rewrite !filter_cons;
    repeat case_decide; try congruence; cbn [map]; split; reflexivity.
Qed.

Lemma check_campaigns_no_error analyze :
  (∀ i c, ∃ r, analyze i c = Ok r) →
  ∀ listing i cs al op, (check_campaigns analyze i listing cs al op).2 = None.
Proof.
  intros Htot. induction listing as [|c listing IH]; intros i cs al op;
    cbn [check_campaigns]; [reflexivity|].
  destruct (Htot i c) as [r ->]. cbn zeta.
  repeat match goal with |- context [if ?b then _ else _] => destruct b end;
    apply IH.
Qed.

Lemma check_campaigns_all_set_aside analyze :
  (∀ i c, ∃ r, analyze i c = Ok r
               ∧ status (r_judgment r) = "insufficient_data") →
  ∀ listing i cs al op,
    check_campaigns analyze i listing cs al op = (cs, al, op, None).
Proof.
  intros Htot. induction listing as [|c listing IH]; intros i cs al op;
    cbn [check_campaigns]; [reflexivity|].
  destruct (Htot i c) as (r & -> & ->). cbn. apply IH.
Qed.

Lemma format_alert_high c :
  status (r_judgment c) = "critical" → a_severity (_format_alert c) = "high".
Proof. intros H. unfold _format_alert. cbn. rewrite H. reflexivity. Qed.

Lemma alerts_of_critical_high (l : list CampaignResult) :
  Forall (λ a, a_severity a = "high")
    (map _format_alert (filter (λ c, status (r_judgment c) = "critical") l)).
Proof.
  induction l as [|c l IH]; [constructor|].
  rewrite filter_cons. case_decide; [|exact IH].
  cbn [map]. constructor; [apply format_alert_high; assumption | exact IH].
Qed.

(** What a check reports, in every outcome. *)
Lemma check_account_lists w tm account :
  let r := check_account w tm account in
  Forall (λ a, a_severity a = "high") (alerts_of r)
  ∧ match r with
    | Account r =>
      Forall kept (campaigns r)
      ∧ alerts r = map _format_alert
          (filter (λ c, status (r_judgment c) = "critical") (campaigns r))
      ∧ opportunities r = map _format_opportunity
          (filter (λ c, status (r_judgment c) = "opportunity") (campaigns r))
    | _ => True
    end.
Proof.
  cbn zeta. unfold check_account.
  destruct (connected w); cbn [negb]; [|split; [constructor|exact I]].
  destruct (managers w) as [[m|]|e]; cbn [alerts_of alerts campaigns
                                            opportunities];
    [|split; [constructor|exact I]
     |split; [constructor|repeat split; constructor]].
  destruct (get_campaigns m) as [listing|e];
    [|split; [constructor|repeat split; constructor]].
  destruct (check_campaigns _ 0 listing [] [] []) as [[[cs al] op] err] eqn:E.
  apply check_campaigns_spec in E as (new & -> & Hk & -> & ->).
  cbn [app].
  destruct err; cbn [alerts_of alerts campaigns opportunities];
    (split; [apply alerts_of_critical_high|]); repeat split; assumption.
Qed.

(** X23. Whatever [check_account] returns, the campaigns it lists are those
    it did not set aside for insufficient data, its alerts are the formatted
    campaigns of status critical, in order, its opportunities the formatted
    campaigns of status opportunity, and every alert has the severity
    high: a campaign of status warning or normal is listed and raises
    nothing. *)
Theorem check_account_sorts_campaigns
    (w : World) (tm : option TargetManager) (account : string) :
  match check_account w tm account with
  | Account r =>
    Forall (λ c, status (r_judgment c) ≠ "insufficient_data") (campaigns r)
    ∧ alerts r = map _format_alert
        (filter (λ c, status (r_judgment c) = "critical") (campaigns r))
    ∧ opportunities r = map _format_opportunity
        (filter (λ c, status (r_judgment c) = "opportunity") (campaigns r))
    ∧ Forall (λ a, a_severity a = "high") (alerts r)
  | _ => True
  end.
Proof.
  destruct (check_account_lists w tm account) as [Hh H].
  destruct (check_account w tm account) as [| |r]; try exact I.
  destruct H as (Hk & Ha & Ho). repeat split; assumption.
Qed.

(** X24. [check_account] returns early exactly when the agent is not
    connected and, connected, when the managers are [None]. Otherwise the
    analysis of a campaign never raises, so the error of a check is an
    exception of the managers or of the campaign listing, and such a check
    reports nothing else. A check without error asks for recommendations
    exactly when it has an alert or an opportunity; without either, its
    recommendations are the empty list whatever the LLM would answer. *)
Theorem check_account_errors_and_recommendations
    (w : World) (tm : option TargetManager) (account : string) :
  match check_account w tm account with
  | Account r =>
    connected w = true
    ∧ account_id r = account
    ∧ match error r with
      | Some e =>
        (managers w = Raise e
         ∨ ∃ m, managers w = Ok (Some m) ∧ get_campaigns m = Raise e)
        ∧ campaigns r = [] ∧ alerts r = [] ∧ opportunities r = []
        ∧ recommendations r = JArray []
      | None =>
        (∃ m listing,
            managers w = Ok (Some m) ∧ get_campaigns m = Ok listing)
        ∧ (alerts r = [] → opportunities r = [] →
           recommendations r = JArray [])
        ∧ (alerts r ≠ [] ∨ opportunities r ≠ [] →
           recommendations r
           = _generate_recommendations (python w) (reply w))
      end
  | Not_connected => connected w = false
  | No_managers => connected w = true ∧ managers w = Ok None
  end.
Proof.
  unfold check_account.
  destruct (connected w); cbn [negb]; [|reflexivity].
  destruct (managers w) as [[m|]|e] eqn:M; [|split; reflexivity|].
  2:{ cbn. repeat split. left. reflexivity. }
  destruct (get_campaigns m) as [listing|e] eqn:L.
  2:{ cbn. repeat split. right. exists m. split; [reflexivity | exact L]. }
  assert (Htot : ∀ i c, ∃ r,
            _analyze_campaign (now_jst w) tm (get_campaign_insights m i) c
            = Ok r).
  { intros i c.
    destruct (analyze_campaign_returns (now_jst w) tm
                (get_campaign_insights m i) c) as (r & E & _).
    exists r. exact E. }
  pose proof (check_campaigns_no_error _ Htot listing 0%nat [] [] []) as Hno.
  destruct (check_campaigns _ 0 listing [] [] []) as [[[cs al] op] err].
  cbn in Hno. subst err.
  cbn [error alerts opportunities recommendations account_id].
  split; [reflexivity|]. split; [reflexivity|].
  split; [exists m, listing; split; [reflexivity | exact L]|]. split.
  - intros -> ->. reflexivity.
  - intros [H | H]; destruct al, op; try contradiction; reflexivity.
Qed.

(** X25. When no insight request for today brings data, because it raises
    or because it returns nothing, [check_account] reports no campaign, no
    alert, no opportunity and no error, and asks for no recommendation: the
    result is that of an account without active campaigns. *)
Theorem check_without_data_reports_nothing
    (w : World) (tm : option TargetManager) (account : string)
    (m : Managers) (listing : list Campaign) :
  connected w = true → managers w = Ok (Some m) →
  get_campaigns m = Ok listing →
  (∀ i l, get_campaign_insights m i "today" = Ok l → l = []) →
  check_account w tm account = nothing_to_report w account.
Proof.
  intros Hc Hm Hl Hdata. unfold check_account. rewrite Hc, Hm, Hl. cbn [negb].
  rewrite check_campaigns_all_set_aside; [reflexivity|].
  intros i c.
  destruct (analyze_campaign_returns (now_jst w) tm
              (get_campaign_insights m i) c) as (r & E & _ & Hs).
  exists r. split; [exact E|]. apply Hs, no_data_today, Hdata.
Qed.

Ltac settle :=
  match goal with
  | |- _ ∧ _ => split
  | |- _ ↔ _ => split; intros ?
  | |- _ ≠ _ => discriminate
  | H : _ ∧ _ |- _ => destruct H
  | H : ?x ≠ ?x |- _ => exfalso; apply H; reflexivity
  | H : _ = _ |- _ => discriminate H
  | |- _ = _ => reflexivity
  | |- (_ ≤ _)%nat => assumption
  end.

Lemma high_alerts_all (al : list Alert) :
  Forall (λ a, a_severity a = "high") al →
  length (filter (λ a, a_severity a = "high") al) = length al.
Proof.
  induction 1 as [|a al Ha _ IH]; [reflexivity|].
  rewrite filter_cons. case_decide; [|contradiction].
  cbn [length]. rewrite IH. reflexivity.
Qed.

(** The loop of [check_all_accounts]: every alert it collects is one of
    severity high, and it keeps one result for each account id. *)
Lemma check_accounts_spec worlds tm : ∀ ids i accounts al op,
  Forall (λ a, a_severity a = "high") al →
  let '(accounts', al', _) := check_accounts worlds tm i ids accounts al op in
  Forall (λ a, a_severity a = "high") al'
  ∧ (size accounts' ≤ size accounts + length ids)%nat
  ∧ (NoDup ids → (∀ a, a ∈ ids → accounts !! a = None) →
     size accounts' = (size accounts + length ids)%nat).
Proof.
  induction ids as [|a ids IH]; intros i accounts al op Hal;
    cbn [check_accounts].
  { split; [exact Hal|]. cbn [length]. split; [lia|]. intros; lia. }
  cbn zeta.
  specialize (IH (S i) (<[a := check_account (worlds i) tm a]> accounts)
                (al ++ alerts_of (check_account (worlds i) tm a))
                (op ++ opportunities_of (check_account (worlds i) tm a))).
  destruct (check_accounts _ _ _ _ _ _ _) as [[accounts' al'] op'].
  destruct IH as (H1 & H2 & H3).
  { apply Forall_app. split; [exact Hal|].
    apply (check_account_lists (worlds i) tm a). }
  split; [exact H1|]. cbn [length]. split.
  - destruct (accounts !! a) eqn:E.
    + rewrite map_size_insert_Some in H2 by eauto. lia.
    + rewrite map_size_insert_None in H2 by exact E. lia.
  - intros ND Hfresh. apply NoDup_cons in ND as [Ha ND].
    rewrite H3.
    + rewrite map_size_insert_None by (apply Hfresh; left). lia.
    + exact ND.
    + intros b Hb. rewrite lookup_insert_ne by (intros ->; contradiction).
      apply Hfresh. right. exact Hb.
Qed.

(** X26. In the summary of [check_all_accounts] every alert counts as a
    high alert, so the status is critical when there is an alert,
    opportunity when there is none but an opportunity, and normal
    otherwise; the status warning is never reported. The accounts checked
    are counted by id: as many as ids when no id is repeated. *)
Theorem summary_status_is_never_warning
    (started : Z) (worlds : nat → World) (tm : option TargetManager)
    (account_ids : list string) :
  let results := check_all_accounts started worlds tm account_ids in
  let s := res_summary results in
  ov_status s ≠ "warning"
  ∧ ov_high_alerts s = length (res_alerts results)
  ∧ ov_total_alerts s = length (res_alerts results)
  ∧ (ov_status s = "critical" ↔ res_alerts results ≠ [])
  ∧ (ov_status s = "opportunity"
     ↔ res_alerts results = [] ∧ res_opportunities results ≠ [])
  ∧ (ov_status s = "normal"
     ↔ res_alerts results = [] ∧ res_opportunities results = [])
  ∧ (ov_accounts_checked s ≤ length account_ids)%nat
  ∧ (NoDup account_ids → ov_accounts_checked s = length account_ids).
Proof.
  cbn zeta. unfold check_all_accounts.
  pose proof (check_accounts_spec worlds tm account_ids 0%nat ∅ [] []
                (Forall_nil_2 _)) as H.
  destruct (check_accounts _ _ _ _ _ _ _) as [[accounts al] op].
  destruct H as (Hh & Hsz & Hnd).
  rewrite map_size_empty in Hsz, Hnd.
  cbn [res_summary res_alerts res_opportunities].
  unfold _generate_summary. cbn zeta.
  rewrite (high_alerts_all al Hh).
  assert (Hc : (size accounts ≤ length account_ids)%nat) by lia.
  assert (Hn : NoDup account_ids → size accounts = length account_ids).
  { intros ND. apply Hnd; [exact ND | intros; apply lookup_empty]. }
  clear Hsz Hnd Hh.
  destruct al as [|a al]; [destruct op as [|o op]|];
    cbn [length Nat.ltb Nat.leb ov_status ov_high_alerts ov_total_alerts
         ov_accounts_checked];
    repeat settle; exact Hn.
Qed.

Lemma hours_passed_bounds now_jst :
  let hours_passed :=
    (inject_Z (hour_of now_jst) + inject_Z (minute_of now_jst) / 60)%Q in
  ((hour_of now_jst < 6)%Z → (hours_passed < 6)%Q)
  ∧ ((6 ≤ hour_of now_jst)%Z → (6 <= hours_passed)%Q).
Proof.
  cbn zeta.
  assert (Hm : (0 ≤ minute_of now_jst < 60)%Z)
    by (unfold minute_of; apply Z.mod_pos_bound; lia).
  set (x := (inject_Z (minute_of now_jst) / 60)%Q).
  assert (Ex : (x * 60 == inject_Z (minute_of now_jst))%Q)
    by (unfold x; field).
  assert (H0 : (0 <= inject_Z (minute_of now_jst))%Q)
    by (change 0%Q with (inject_Z 0); rewrite <- Zle_Qle; lia).
  assert (H60 : (inject_Z (minute_of now_jst) < 60)%Q)
    by (change 60%Q with (inject_Z 60); rewrite <- Zlt_Qlt; lia).
  split; intros H.
  - assert (Hh : (inject_Z (hour_of now_jst) <= 5)%Q)
      by (change 5%Q with (inject_Z 5); rewrite <- Zle_Qle; lia).
    lra.
  - assert (Hh : (6 <= inject_Z (hour_of now_jst))%Q)
      by (change 6%Q with (inject_Z 6); rewrite <- Zle_Qle; lia).
    lra.
Qed.

(** X29. [_calculate_budget_status] never raises. Without a positive daily
    budget the status is unknown, and only then. With one, before 06:00 on
    the JST clock the status is early_morning whatever was spent; from 06:00
    on it is one of under_pacing, over_pacing and on_track, and a campaign
    that has spent nothing is under_pacing. *)
Theorem budget_status_by_clock
    (now_jst : Z) (today_perf : gmap string Q) (daily_budget : Q) :
  ∃ bs, _calculate_budget_status now_jst today_perf daily_budget = Ok bs
    ∧ (bs_status bs = "unknown" ↔ (daily_budget <= 0)%Q)
    ∧ ((0 < daily_budget)%Q → (hour_of now_jst < 6)%Z →
       bs_status bs = "early_morning")
    ∧ ((0 < daily_budget)%Q → (6 ≤ hour_of now_jst)%Z →
       bs_status bs ∈ ["under_pacing"; "over_pacing"; "on_track"]
       ∧ ((dget today_perf "spend" 0 == 0)%Q →
          bs_status bs = "under_pacing")).
Proof.
  unfold _calculate_budget_status.
  destruct (Qeqb daily_budget 0 || Qleb daily_budget 0) eqn:G.
  { assert (Hle : (daily_budget <= 0)%Q).
    { apply orb_true_iff in G as [G | G].
      - apply Qeqb_eq in G. rewrite G. apply Qle_refl.
      - apply Qleb_le, G. }
    eexists. split; [reflexivity|]. cbn [bs_status].
    split; [split; [intros _; exact Hle | reflexivity]|].
    split; intros Hp; exfalso; lra. }
  apply orb_false_iff in G as [_ G].
  assert (Hpos : Qltb 0 daily_budget = true)
    by (unfold Qltb; unfold Qleb in G; rewrite G; reflexivity).
  rewrite Hpos, (pydiv_pos _ _ Hpos). cbn [mbind Res_bind].
  destruct (hours_passed_bounds now_jst) as [Hearly Hday].
  set (hours_passed :=
         (inject_Z (hour_of now_jst) + inject_Z (minute_of now_jst) / 60)%Q)
    in *.
  set (spend_rate := (dget today_perf "spend" 0 / daily_budget * 100)%Q).
  apply Qltb_lt in Hpos.
  destruct (Qltb hours_passed 6) eqn:G6.
  { apply Qltb_lt in G6. eexists. split; [reflexivity|]. cbn [bs_status].
    split; [split; [discriminate | intros H; exfalso; lra]|].
    split; [reflexivity|].
    intros _ H. apply Hday in H. exfalso. lra. }
  apply Qltb_ge in G6.
  destruct (Qltb spend_rate (hours_passed / 24 * 100 * (3 # 10))) eqn:G1.
  { eexists. split; [reflexivity|]. cbn [bs_status].
    split; [split; [discriminate | intros H; exfalso; lra]|].
    split; [intros _ H; apply Hearly in H; exfalso; lra|].
    intros _ _. split; [in_list | reflexivity]. }
  assert (Hzero : (dget today_perf "spend" 0 == 0)%Q → False).
  { intros Hs. apply Qltb_ge in G1.
    assert (Er : (spend_rate == 0)%Q).
    { unfold spend_rate. rewrite Hs. field. intros E. rewrite E in Hpos.
      exact (Qlt_irrefl 0 Hpos). }
    set (e := (hours_passed / 24)%Q) in *.
    assert (Ee : (e * 24 == hours_passed)%Q) by (unfold e; field).
    rewrite Er in G1. lra. }
  destruct (Qltb (hours_passed / 24 * 100 * (3 # 2)) spend_rate) eqn:G2;
    (eexists; split; [reflexivity|]; cbn [bs_status];
     split; [split; [discriminate | intros H; exfalso; lra]|];
     split; [intros _ H; apply Hearly in H; exfalso; lra|];
     intros _ _; split; [in_list | intros H; destruct (Hzero H)]).
Qed.

End AccountFacts.

Section AccountScenarios.
Import Aggregator Monitor Recommender Periods Targets AccountCheck.

Lemma check_without_data_reports_nothing_witness :
  check_account outage None "act_1" = nothing_to_report outage "act_1".
Proof.
  apply (check_without_data_reports_nothing outage None "act_1"
           {| get_campaigns := Ok two_campaigns;
              get_campaign_insights := λ _ _, Raise CollaboratorError |}
           two_campaigns); try reflexivity.
  intros i l H. discriminate H.
Defined.

End AccountScenarios.
